(** * BeACodeContributor: a shallow embedding of the triage pipeline

    The development follows the Python sources:
    - [services/ai_analyzer.py]   : module [Analyzer]
    - [services/github_client.py] : module [GitHub]
    - [services/feishu_client.py] : module [Feishu]
    - [main.py]                   : module [Orchestrator]

    Python values are dynamically typed, so the embedding carries one type
    [pyval] of values (what [json.loads] and [yaml.safe_load] can produce) and
    an error monad [result] for code that can raise. *)

From Stdlib Require Import String Ascii List ZArith QArith NArith Bool Lia.
From Stdlib Require Import SpecFloat.
Import ListNotations.

Set Implicit Arguments.
Set Warnings "-register-all".

(* ================================================================== *)
(** * Python strings and values *)
(* ================================================================== *)

(** A Python [str] is a sequence of Unicode code points. *)
Definition char := N.
Definition pystr := list char.

(** String literals of the sources are written as Rocq strings (UTF-8 bytes)
    and decoded to code points by [py]. *)
Fixpoint utf8_decode (bs : list N) : pystr :=
  match bs with
  | [] => []
  | b0 :: r0 =>
    if (b0 <? 128)%N then b0 :: utf8_decode r0
    else match r0 with
    | [] => [b0]
    | b1 :: r1 =>
      if (b0 <? 224)%N
      then ((b0 - 192) * 64 + (b1 - 128))%N :: utf8_decode r1
      else match r1 with
      | [] => [b0; b1]
      | b2 :: r2 =>
        if (b0 <? 240)%N
        then ((b0 - 224) * 4096 + (b1 - 128) * 64 + (b2 - 128))%N
               :: utf8_decode r2
        else match r2 with
        | [] => [b0; b1; b2]
        | b3 :: r3 =>
          ((b0 - 240) * 262144 + (b1 - 128) * 4096
             + (b2 - 128) * 64 + (b3 - 128))%N :: utf8_decode r3
        end
      end
    end
  end.

Definition py (s : string) : pystr :=
  utf8_decode (map N_of_ascii (list_ascii_of_string s)).

Definition pystr_eqb (a b : pystr) : bool :=
  if list_eq_dec N.eq_dec a b then true else false.

(** [s.startswith(prefix)] *)
Fixpoint startswith (prefix s : pystr) : bool :=
  match prefix, s with
  | [], _ => true
  | p :: prefix', c :: s' => (p =? c)%N && startswith prefix' s'
  | _ :: _, [] => false
  end.

(** [sub in s] for strings. *)
Fixpoint contains (sub s : pystr) : bool :=
  startswith sub s ||
  match s with
  | [] => false
  | _ :: s' => contains sub s'
  end.

(** [sep.join(parts)] *)
Fixpoint join (sep : pystr) (parts : list pystr) : pystr :=
  match parts with
  | [] => []
  | [p] => p
  | p :: rest => p ++ sep ++ join sep rest
  end.

(** The values of the program.  A [float] is represented by the decimal
    literal it is read from, [PFloat m e] standing for the double nearest to
    [m * 10^e]; the program only stores, forwards and compares such values.
    A [dict] keeps insertion order and has unique keys. *)
Inductive pyval :=
| PNone
| PBool (b : bool)
| PInt (z : Z)
| PFloat (m e : Z)
| PNaN
| PInf (negative : bool)
| PStr (s : pystr)
| PList (l : list pyval)
| PDict (d : list (pystr * pyval)).

Definition dict := list (pystr * pyval).

(** [d.get(k)], as an option ([None] when the key is absent). *)
Fixpoint dict_lookup (k : pystr) (d : dict) : option pyval :=
  match d with
  | [] => None
  | (k', v) :: d' => if pystr_eqb k k' then Some v else dict_lookup k d'
  end.

(** [d.get(k, default)] *)
Definition dict_get (k : pystr) (default : pyval) (d : dict) : pyval :=
  match dict_lookup k d with
  | Some v => v
  | None => default
  end.

(** [k in d] *)
Definition dict_mem (k : pystr) (d : dict) : bool :=
  match dict_lookup k d with
  | Some _ => true
  | None => false
  end.

(** Every key of [d] is one of [ks]. *)
Definition only_keys (ks : list pystr) (d : dict) : bool :=
  forallb (fun kv => existsb (pystr_eqb (fst kv)) ks) d.

(** [d[k] = v]: an existing key keeps its position. *)
Fixpoint dict_set (k : pystr) (v : pyval) (d : dict) : dict :=
  match d with
  | [] => [(k, v)]
  | (k', v') :: d' =>
    if pystr_eqb k k' then (k', v) :: d' else (k', v') :: dict_set k v d'
  end.

(* ------------------------------------------------------------------ *)
(** ** Floats *)

(** Python's [float] is the binary64 format of IEEE 754: 53 bits of
    precision, exponents below 1024, rounding to nearest with ties to even.
    The arithmetic is the one of the [SpecFloat] library at these
    parameters. *)
Module Float64.

Definition float := spec_float.

Definition prec : Z := 53.
Definition emax : Z := 1024.

(** The float nearest to an integer, infinite beyond the range. *)
Definition of_Z (z : Z) : float := binary_normalize prec emax z 0 false.

(** [float(s)] for the literal [s] of [m * 10^e], rounded once: for a
    negative exponent the quotient of [m * 2^k] by [10^-e] is taken with more
    than 53 bits, and the place of the remainder decides the rounding, as in
    the division of two floats.  The sign of a zero is not kept. *)
Definition of_literal (m e : Z) : float :=
  if (0 <=? e)%Z then of_Z (m * 10 ^ e)
  else
    let d := (10 ^ (- e))%Z in
    let k := Z.max 0 (Zdigits2 d + 55 - Zdigits2 m) in
    let '(q, r) := Z.div_eucl (Z.shiftl (Z.abs m) k) d in
    binary_round_aux prec emax (m <? 0)%Z q (- k) (new_location d r).

Definition add : float -> float -> float := SFadd prec emax.
Definition sub : float -> float -> float := SFsub prec emax.

(** [x < y] *)
Definition ltb : float -> float -> bool := SFltb.

Definition is_zero (x : float) : bool :=
  match x with S754_zero _ => true | _ => false end.

Definition is_infinite (x : float) : bool :=
  match x with S754_infinity _ => true | _ => false end.

End Float64.

(** Truth value of an object, as [if x:], [not x], [and] and [or] test it. *)
Definition truthy (v : pyval) : bool :=
  match v with
  | PNone => false
  | PBool b => b
  | PInt z => negb (z =? 0)%Z
  | PFloat m e => negb (Float64.is_zero (Float64.of_literal m e))
  | PNaN => true
  | PInf _ => true
  | PStr s => match s with [] => false | _ => true end
  | PList l => match l with [] => false | _ => true end
  | PDict d => match d with [] => false | _ => true end
  end.

(** The numeric value of a float [PFloat m e]. *)
Definition float_value (m e : Z) : Q := inject_Z m * (10 # 1) ^ e.

(* ------------------------------------------------------------------ *)
(** ** Exceptions *)

Inductive exn :=
| TypeError
| KeyError
| AttributeError
| ValueError
| IndexError
| RecursionError
| JSONDecodeError
| RequestException
| OverflowError
| UnicodeEncodeError.

Inductive result (A : Type) :=
| Ok (a : A)
| Raise (e : exn).
Arguments Ok {A} a.
Arguments Raise {A} e.

Definition bind {A B} (r : result A) (k : A -> result B) : result B :=
  match r with
  | Ok a => k a
  | Raise e => Raise e
  end.

Declare Scope result_scope.
Delimit Scope result_scope with result.
Notation "x <- r ;; k" := (bind r (fun x => k))
  (at level 61, r at next level, right associativity) : result_scope.
Open Scope result_scope.

(** The conversion of an [int] operand to a float: an integer beyond the
    range of a float is an [OverflowError]. *)
Definition float_of_int (z : Z) : result Float64.float :=
  if Float64.is_infinite (Float64.of_Z z) then Raise OverflowError
  else Ok (Float64.of_Z z).

(** The float operand a number stands for in [x + v] with a float [x]; a
    [bool] counts as 0 or 1, anything that is no number is a [TypeError]. *)
Definition float_operand (v : pyval) : result Float64.float :=
  match v with
  | PInt z => float_of_int z
  | PBool b => float_of_int (if b then 1 else 0)
  | PFloat m e => Ok (Float64.of_literal m e)
  | PInf negative => Ok (S754_infinity negative)
  | PNaN => Ok S754_nan
  | _ => Raise TypeError
  end.

(** [d[k]] *)
Definition dict_item (k : pystr) (d : dict) : result pyval :=
  match dict_lookup k d with
  | Some v => Ok v
  | None => Raise KeyError
  end.

(** [v[k]] on an arbitrary value with a string key: only a dict supports it. *)
Definition subscript (k : pystr) (v : pyval) : result pyval :=
  match v with
  | PDict d => dict_item k d
  | _ => Raise TypeError
  end.

(** [x[:n]]: strings and lists can be sliced, the other values raise. *)
Definition slice_to (n : nat) (v : pyval) : result pyval :=
  match v with
  | PStr s => Ok (PStr (firstn n s))
  | PList l => Ok (PList (firstn n l))
  | _ => Raise TypeError
  end.

(** The items [sep.join(x)] iterates over: the elements of a list, the
    characters of a string, the keys of a dict; anything else, or an element
    that is not a string, is a [TypeError]. *)
Fixpoint all_strings (l : list pyval) : result (list pystr) :=
  match l with
  | [] => Ok []
  | PStr s :: l' => r <- all_strings l' ;; Ok (s :: r)
  | _ :: _ => Raise TypeError
  end.

Definition join_value (sep : pystr) (v : pyval) : result pystr :=
  match v with
  | PList l => parts <- all_strings l ;; Ok (join sep parts)
  | PStr s => Ok (join sep (map (fun c => [c]) s))
  | PDict d => Ok (join sep (map fst d))
  | _ => Raise TypeError
  end.

(* ================================================================== *)
(** * The standard-library functions the analyzer calls *)
(* ================================================================== *)

(** ** [re.search] for the two patterns of [_parse_analysis_response]

    A pattern is a sequence of atoms with one capture group.  The matcher is
    the backtracking matcher of [re]: a greedy star first takes a character
    and falls back to stopping, a lazy star first stops and falls back to
    taking a character; [re_search] tries the start positions from left to
    right and returns group 1 of the first match. *)
Module Re.

Inductive atom :=
| Lit (c : char)
| Star (greedy : bool) (cls : char -> bool)
| GroupOpen
| GroupClose.

(** Group 1 while matching: not entered, being read (characters reversed),
    or complete. *)
Inductive capture :=
| NotOpen
| Reading (acc : pystr)
| Captured (g : pystr).

Definition push (c : char) (cap : capture) : capture :=
  match cap with
  | Reading acc => Reading (c :: acc)
  | _ => cap
  end.

Definition close (cap : capture) : capture :=
  match cap with
  | Reading acc => Captured (rev acc)
  | _ => cap
  end.

Definition group1 (cap : capture) : pystr :=
  match cap with
  | Captured g => g
  | _ => []
  end.

Fixpoint match_here (atoms : list atom) : pystr -> capture -> option pystr :=
  match atoms with
  | [] => fun _ cap => Some (group1 cap)
  | Lit c :: rest => fun s cap =>
    match s with
    | x :: s' => if (x =? c)%N then match_here rest s' (push x cap) else None
    | [] => None
    end
  | GroupOpen :: rest => fun s _ => match_here rest s (Reading [])
  | GroupClose :: rest => fun s cap => match_here rest s (close cap)
  | Star greedy cls :: rest =>
    fix star (s : pystr) (cap : capture) {struct s} : option pystr :=
      let take (_ : unit) :=
        match s with
        | x :: s' => if cls x then star s' (push x cap) else None
        | [] => None
        end in
      if greedy
      then match take tt with
           | Some g => Some g
           | None => match_here rest s cap
           end
      else match match_here rest s cap with
           | Some g => Some g
           | None => take tt
           end
  end.

Fixpoint re_search (atoms : list atom) (s : pystr) : option pystr :=
  match match_here atoms s NotOpen with
  | Some g => Some g
  | None =>
    match s with
    | [] => None
    | _ :: s' => re_search atoms s'
    end
  end.

Definition lits (s : pystr) : list atom := map Lit s.

(** [.] under [re.DOTALL] *)
Definition any_char (_ : char) : bool := true.

(** [\s] on a [str] pattern: the Unicode whitespace characters. *)
Definition is_space (c : char) : bool :=
  ((9 <=? c) && (c <=? 13) || (28 <=? c) && (c <=? 32)
   || (c =? 133) || (c =? 160) || (c =? 5760)
   || (8192 <=? c) && (c <=? 8202)
   || (c =? 8232) || (c =? 8233) || (c =? 8239) || (c =? 8287)
   || (c =? 12288))%N.

(** [r'```json\s*(.*?)\s*```'] with [re.DOTALL] *)
Definition fenced_json : list atom :=
  lits (py "```json")
  ++ [Star true is_space; GroupOpen; Star false any_char; GroupClose;
      Star true is_space]
  ++ lits (py "```").

(** [r'({.*})'] with [re.DOTALL] *)
Definition braces : list atom :=
  [GroupOpen; Lit 123%N; Star true any_char; Lit 125%N; GroupClose].

End Re.


(** ** [json.loads]

    The decoder of Python's [json] module with its default settings: the JSON
    grammar with the whitespace [ \t\n\r], strict strings (no raw control
    character), the constants [NaN], [Infinity] and [-Infinity], and a dict
    built from the members in order (the last value of a repeated key wins).
    Running out of [fuel] stands for the interpreter's recursion limit; the
    fuel [loads] gives is enough for every input. *)
Module Json.

Definition is_ws (c : char) : bool :=
  ((c =? 32) || (c =? 9) || (c =? 10) || (c =? 13))%N.

Fixpoint skip_ws (s : pystr) : pystr :=
  match s with
  | c :: s' => if is_ws c then skip_ws s' else s
  | [] => []
  end.

Definition is_digit (c : char) : bool := ((48 <=? c) && (c <=? 57))%N.

Definition hex_val (c : char) : option N :=
  if is_digit c then Some (c - 48)%N
  else if ((97 <=? c) && (c <=? 102))%N then Some (c - 87)%N
  else if ((65 <=? c) && (c <=? 70))%N then Some (c - 55)%N
  else None.

Definition hex4 (s : pystr) : option (N * pystr) :=
  match s with
  | a :: b :: c :: d :: rest =>
    match hex_val a, hex_val b, hex_val c, hex_val d with
    | Some a, Some b, Some c, Some d =>
      Some ((((a * 16 + b) * 16 + c) * 16 + d)%N, rest)
    | _, _, _, _ => None
    end
  | _ => None
  end.

(** The one-character escapes of a JSON string. *)
Definition backslash (c : char) : option char :=
  if (c =? 34)%N then Some 34%N          (* quotation mark *)
  else if (c =? 92)%N then Some 92%N     (* reverse solidus *)
  else if (c =? 47)%N then Some 47%N     (* solidus *)
  else if (c =? 98)%N then Some 8%N      (* b: backspace *)
  else if (c =? 102)%N then Some 12%N    (* f: form feed *)
  else if (c =? 110)%N then Some 10%N    (* n: line feed *)
  else if (c =? 114)%N then Some 13%N    (* r: carriage return *)
  else if (c =? 116)%N then Some 9%N     (* t: tab *)
  else None.

Definition is_high_surrogate (u : N) : bool := ((55296 <=? u) && (u <=? 56319))%N.
Definition is_low_surrogate (u : N) : bool := ((56320 <=? u) && (u <=? 57343))%N.

(** [scanstring]: [s] starts right after the opening quote; the result is the
    decoded string and the input after the closing quote. *)
Fixpoint scanstring (fuel : nat) (s acc : pystr) : result (pystr * pystr) :=
  match fuel with
  | O => Raise RecursionError
  | S fuel' =>
    match s with
    | [] => Raise JSONDecodeError
    | c :: s' =>
      if (c =? 34)%N then Ok (rev acc, s')
      else if (c =? 92)%N then
        match s' with
        | [] => Raise JSONDecodeError
        | e :: s'' =>
          if (e =? 117)%N then
            match hex4 s'' with
            | None => Raise JSONDecodeError
            | Some (uni, rest) =>
              if is_high_surrogate uni && startswith [92; 117]%N rest then
                match hex4 (skipn 2 rest) with
                | None => Raise JSONDecodeError
                | Some (uni2, rest2) =>
                  if is_low_surrogate uni2
                  then scanstring fuel' rest2
                         ((65536 + ((uni - 55296) * 1024 + (uni2 - 56320)))%N
                            :: acc)
                  else scanstring fuel' rest (uni :: acc)
                end
              else scanstring fuel' rest (uni :: acc)
            end
          else
            match backslash e with
            | Some x => scanstring fuel' s'' (x :: acc)
            | None => Raise JSONDecodeError
            end
        end
      else if (c <? 32)%N then Raise JSONDecodeError
      else scanstring fuel' s' (c :: acc)
    end
  end.

(** Numbers: an optional minus sign, then 0 or a digit string without a
    leading 0; optionally a point and one or more digits; optionally e or E,
    an optional sign and one or more digits.  With a fraction or an exponent
    the number is a float, otherwise an int.  A literal that stops short
    (as 1. or 1e) is read up to the last complete part. *)
Fixpoint take_digits (s : pystr) : pystr * pystr :=
  match s with
  | c :: s' =>
    if is_digit c
    then let (ds, rest) := take_digits s' in (c :: ds, rest)
    else ([], s)
  | [] => ([], [])
  end.

Definition digits_value (ds : pystr) : Z :=
  fold_left (fun acc c => (acc * 10 + Z.of_N (c - 48))%Z) ds 0%Z.

Definition scan_integer (s : pystr) : option (pystr * pystr) :=
  match s with
  | c :: s' =>
    if (c =? 48)%N then Some ([c], s')
    else if is_digit c then Some (take_digits s)
    else None
  | [] => None
  end.

Definition scan_frac (s : pystr) : option (pystr * pystr) :=
  match s with
  | c :: s' =>
    if (c =? 46)%N then
      match take_digits s' with
      | ([], _) => None
      | (ds, rest) => Some (ds, rest)
      end
    else None
  | [] => None
  end.

Definition scan_exp (s : pystr) : option (Z * pystr) :=
  match s with
  | c :: s' =>
    if ((c =? 101) || (c =? 69))%N then
      let '(negative, s'') :=
        match s' with
        | x :: r =>
          if (x =? 45)%N then (true, r)
          else if (x =? 43)%N then (false, r)
          else (false, s')
        | [] => (false, s')
        end in
      match take_digits s'' with
      | ([], _) => None
      | (ds, rest) =>
        Some ((if negative then - digits_value ds else digits_value ds)%Z, rest)
      end
    else None
  | [] => None
  end.

Definition scan_number (s : pystr) : option (pyval * pystr) :=
  let '(negative, s0) :=
    match s with
    | c :: s' => if (c =? 45)%N then (true, s') else (false, s)
    | [] => (false, s)
    end in
  let sign (z : Z) := if negative then (- z)%Z else z in
  match scan_integer s0 with
  | None => None
  | Some (ids, s1) =>
    match scan_frac s1, scan_exp (match scan_frac s1 with
                                  | Some (_, r) => r
                                  | None => s1
                                  end) with
    | None, None => Some (PInt (sign (digits_value ids)), s1)
    | Some (fds, _), Some (e, s3) =>
      Some (PFloat (sign (digits_value (ids ++ fds)))
                   (e - Z.of_nat (length fds)), s3)
    | Some (fds, s2), None =>
      Some (PFloat (sign (digits_value (ids ++ fds)))
                   (- Z.of_nat (length fds)), s2)
    | None, Some (e, s3) =>
      Some (PFloat (sign (digits_value ids)) e, s3)
    end
  end.

(** What the scanner is reading: a value, the members of an object (from a
    property name on) or the items of an array. *)
Inductive target :=
| TValue
| TMembers (pairs : dict)
| TItems (items : list pyval).

Fixpoint scan (fuel : nat) (t : target) (s : pystr) : result (pyval * pystr) :=
  match fuel with
  | O => Raise RecursionError
  | S fuel' =>
    match t with
    | TValue =>
      match s with
      | [] => Raise JSONDecodeError
      | c :: s' =>
        if (c =? 34)%N then
          r <- scanstring (S (length s')) s' [] ;;
          Ok (PStr (fst r), snd r)
        else if (c =? 123)%N then
          match skip_ws s' with
          | x :: r =>
            if (x =? 125)%N then Ok (PDict [], r)
            else scan fuel' (TMembers []) (x :: r)
          | [] => Raise JSONDecodeError
          end
        else if (c =? 91)%N then
          match skip_ws s' with
          | x :: r =>
            if (x =? 93)%N then Ok (PList [], r)
            else scan fuel' (TItems []) (x :: r)
          | [] => Raise JSONDecodeError
          end
        else if startswith (py "null") s then Ok (PNone, skipn 4 s)
        else if startswith (py "true") s then Ok (PBool true, skipn 4 s)
        else if startswith (py "false") s then Ok (PBool false, skipn 5 s)
        else
          match scan_number s with
          | Some r => Ok r
          | None =>
            if startswith (py "NaN") s then Ok (PNaN, skipn 3 s)
            else if startswith (py "Infinity") s then Ok (PInf false, skipn 8 s)
            else if startswith (py "-Infinity") s then Ok (PInf true, skipn 9 s)
            else Raise JSONDecodeError
          end
      end
    | TMembers pairs =>
      match s with
      | c :: s' =>
        if (c =? 34)%N then
          k <- scanstring (S (length s')) s' [] ;;
          match skip_ws (snd k) with
          | colon :: s1 =>
            if (colon =? 58)%N then
              v <- scan fuel' TValue (skip_ws s1) ;;
              let pairs' := dict_set (fst k) (fst v) pairs in
              match skip_ws (snd v) with
              | x :: s2 =>
                if (x =? 125)%N then Ok (PDict pairs', s2)
                else if (x =? 44)%N
                then scan fuel' (TMembers pairs') (skip_ws s2)
                else Raise JSONDecodeError
              | [] => Raise JSONDecodeError
              end
            else Raise JSONDecodeError
          | [] => Raise JSONDecodeError
          end
        else Raise JSONDecodeError
      | [] => Raise JSONDecodeError
      end
    | TItems items =>
      v <- scan fuel' TValue s ;;
      match skip_ws (snd v) with
      | x :: s2 =>
        if (x =? 93)%N then Ok (PList (rev (fst v :: items)), s2)
        else if (x =? 44)%N
        then scan fuel' (TItems (fst v :: items)) (skip_ws s2)
        else Raise JSONDecodeError
      | [] => Raise JSONDecodeError
      end
    end
  end.

(** [json.loads(s)] for a [str]: a byte-order mark is refused, whitespace
    around the value is skipped, anything after it is "extra data". *)
Definition loads (s : pystr) : result pyval :=
  if startswith [65279%N] s then Raise JSONDecodeError
  else
    r <- scan (S (length s)) TValue (skip_ws s) ;;
    match skip_ws (snd r) with
    | [] => Ok (fst r)
    | _ :: _ => Raise JSONDecodeError
    end.

End Json.

(** [v.get(k, default)]: only a dict has the method. *)
Definition value_get (k : pystr) (default : pyval) (v : pyval) : result pyval :=
  match v with
  | PDict d => Ok (dict_get k default d)
  | _ => Raise AttributeError
  end.

(* ================================================================== *)
(** * services/ai_analyzer.py *)
(* ================================================================== *)

Module Analyzer.

(** [IssueAnalysis]: a dataclass, its fields hold whatever they are given. *)
Record IssueAnalysis := {
  issue_id : pyval;
  complexity_score : pyval;
  difficulty_level : pyval;
  required_skills : pyval;
  estimated_time : pyval;
  solution_approach : pyval;
  technical_breakdown : pyval;
  learning_opportunities : pyval;
  confidence_score : pyval
}.

(** The values [_build_issue_analysis_prompt] puts into its template, in the
    order the f-string evaluates them. *)
Record prompt := {
  prompt_title : pyval;
  prompt_body : pyval;
  prompt_labels : pystr;
  prompt_created_at : pyval;
  prompt_comments : pyval;
  prompt_readme : pystr;
  prompt_contributing : pystr
}.

Definition _build_issue_analysis_prompt
    (issue : dict) (readme contributing : pystr) : result prompt :=
  let title := dict_get (py "title") PNone issue in
  body <- slice_to 1000 (dict_get (py "body") (PStr (py "无描述")) issue) ;;
  labels <- join_value (py ", ") (dict_get (py "labels") (PList []) issue) ;;
  Ok {| prompt_title := title;
        prompt_body := body;
        prompt_labels := labels;
        prompt_created_at := dict_get (py "created_at") PNone issue;
        prompt_comments := dict_get (py "comments") (PInt 0) issue;
        prompt_readme := firstn 500 readme;
        prompt_contributing :=
          match contributing with
          | [] => py "无贡献指南"
          | _ :: _ => firstn 500 contributing
          end |}.

(** The dict [_parse_analysis_response] returns when it cannot parse. *)
Definition unparsed_analysis : dict :=
  [ (py "complexity_score", PFloat 5 (-1));
    (py "difficulty_level", PStr (py "intermediate"));
    (py "required_skills", PList []);
    (py "estimated_time", PStr (py "未知"));
    (py "solution_approach", PStr []);
    (py "technical_breakdown", PDict []);
    (py "learning_opportunities", PList []);
    (py "confidence_score", PFloat 5 (-1)) ].

(** The string handed to [json.loads]: group 1 of the fenced block, else
    group 1 of the brace match, else the whole text. *)
Definition json_str (response_text : pystr) : pystr :=
  match Re.re_search Re.fenced_json response_text with
  | Some g => g
  | None =>
    match Re.re_search Re.braces response_text with
    | Some g => g
    | None => response_text
    end
  end.

(** [response_text] is [message.content], a string or [None]; [re.search] on
    [None] is a [TypeError], which the bare [except] absorbs like any other. *)
Definition _parse_analysis_response (response_text : option pystr) : pyval :=
  let attempt :=
    match response_text with
    | None => Raise TypeError
    | Some text => Json.loads (json_str text)
    end in
  match attempt with
  | Ok v => v
  | Raise _ => PDict unparsed_analysis
  end.

Definition _get_default_analysis (issue : dict) : result IssueAnalysis :=
  id <- dict_item (py "id") issue ;;
  Ok {| issue_id := id;
        complexity_score := PFloat 5 (-1);
        difficulty_level := PStr (py "intermediate");
        required_skills := PList [PStr (py "Git"); PStr (py "项目相关语言")];
        estimated_time := PStr (py "1-3天");
        solution_approach := PStr (py "需要先理解项目架构和代码组织");
        technical_breakdown := PDict [];
        learning_opportunities :=
          PList [PStr (py "学习项目代码结构"); PStr (py "理解分布式系统概念")];
        confidence_score := PFloat 5 (-1) |}.

(** What [client.chat.completions.create(...)] followed by
    [response.choices[0].message.content] gives for a prompt: an exception, or
    the content of the first choice. *)
Inductive completion :=
| CompletionError (e : exn)
| Completion (content : option pystr).

Section AnalyzeIssue.

Variable create : prompt -> completion.

(** The body of the [try] of [analyze_issue]. *)
Definition analyze_issue_try (issue : dict) (p : prompt) : result IssueAnalysis :=
  match create p with
  | CompletionError e => Raise e
  | Completion analysis_text =>
    let analysis_data := _parse_analysis_response analysis_text in
    id <- dict_item (py "id") issue ;;
    cs <- value_get (py "complexity_score") (PFloat 5 (-1)) analysis_data ;;
    dl <- value_get (py "difficulty_level") (PStr (py "intermediate")) analysis_data ;;
    rs <- value_get (py "required_skills") (PList []) analysis_data ;;
    et <- value_get (py "estimated_time") (PStr (py "未知")) analysis_data ;;
    sa <- value_get (py "solution_approach") (PStr []) analysis_data ;;
    tb <- value_get (py "technical_breakdown") (PDict []) analysis_data ;;
    lo <- value_get (py "learning_opportunities") (PList []) analysis_data ;;
    cf <- value_get (py "confidence_score") (PFloat 8 (-1)) analysis_data ;;
    Ok {| issue_id := id;
          complexity_score := cs;
          difficulty_level := dl;
          required_skills := rs;
          estimated_time := et;
          solution_approach := sa;
          technical_breakdown := tb;
          learning_opportunities := lo;
          confidence_score := cf |}
  end.

(** The prompt is built before the [try]; the handler calls
    [_get_default_analysis], which reads [issue['id']] again. *)
Definition analyze_issue (issue : dict) (readme_content contributing_guide : pystr)
  : result IssueAnalysis :=
  p <- _build_issue_analysis_prompt issue readme_content contributing_guide ;;
  match analyze_issue_try issue p with
  | Ok analysis => Ok analysis
  | Raise _ => _get_default_analysis issue
  end.

End AnalyzeIssue.

(** The record [analyze_issue] builds from the dict of an unparsed answer. *)
Definition unparsed_record (id : pyval) : IssueAnalysis :=
  {| issue_id := id;
     complexity_score := PFloat 5 (-1);
     difficulty_level := PStr (py "intermediate");
     required_skills := PList [];
     estimated_time := PStr (py "未知");
     solution_approach := PStr [];
     technical_breakdown := PDict [];
     learning_opportunities := PList [];
     confidence_score := PFloat 5 (-1) |}.

(** The invariant of the data model: both scores in [0, 1] and a difficulty
    tier out of the three names. *)
Definition in_unit_interval (v : pyval) : bool :=
  match v with
  | PInt z => (0 <=? z)%Z && (z <=? 1)%Z
  | PFloat m e => Qle_bool 0 (float_value m e) && Qle_bool (float_value m e) 1
  | _ => false
  end.

Definition is_tier (v : pyval) : bool :=
  match v with
  | PStr s =>
    pystr_eqb s (py "beginner") || pystr_eqb s (py "intermediate")
    || pystr_eqb s (py "advanced")
  | _ => false
  end.

Definition valid_analysis (a : IssueAnalysis) : bool :=
  in_unit_interval (complexity_score a)
  && in_unit_interval (confidence_score a)
  && is_tier (difficulty_level a).

(** What the model supplied for the three constrained fields, if anything,
    satisfies the invariant. *)
Definition supplied_ok (check : pyval -> bool) (k : pystr) (d : dict) : bool :=
  match dict_lookup k d with
  | Some v => check v
  | None => true
  end.

Definition supplied_valid (d : dict) : bool :=
  supplied_ok in_unit_interval (py "complexity_score") d
  && supplied_ok in_unit_interval (py "confidence_score") d
  && supplied_ok is_tier (py "difficulty_level") d.

(** The record [_get_default_analysis] returns for an issue with this id. *)
Definition default_record (id : pyval) : IssueAnalysis :=
  {| issue_id := id;
     complexity_score := PFloat 5 (-1);
     difficulty_level := PStr (py "intermediate");
     required_skills := PList [PStr (py "Git"); PStr (py "项目相关语言")];
     estimated_time := PStr (py "1-3天");
     solution_approach := PStr (py "需要先理解项目架构和代码组织");
     technical_breakdown := PDict [];
     learning_opportunities :=
       PList [PStr (py "学习项目代码结构"); PStr (py "理解分布式系统概念")];
     confidence_score := PFloat 5 (-1) |}.

(** ** generate_contribution_plan *)

(** The values the f-string of [generate_contribution_plan] formats, in the
    order it evaluates them. *)
Record plan_prompt := {
  plan_title : pyval;
  plan_body : pyval;
  plan_difficulty : pyval;
  plan_required_skills : pystr;
  plan_solution : pyval;
  plan_user_skills : pystr
}.

Definition contribution_plan_prompt (issue : dict) (analysis : IssueAnalysis)
    (user_skills : list pystr) : result plan_prompt :=
  let title := dict_get (py "title") PNone issue in
  body <- slice_to 500 (dict_get (py "body") (PStr []) issue) ;;
  skills <- join_value (py ", ") (required_skills analysis) ;;
  solution <- slice_to 200 (solution_approach analysis) ;;
  Ok {| plan_title := title;
        plan_body := body;
        plan_difficulty := difficulty_level analysis;
        plan_required_skills := skills;
        plan_solution := solution;
        plan_user_skills := join (py ", ") user_skills |}.

(** The dict the function returns: the keys [plan] and [generated_at]. *)
Record contribution_plan := {
  plan : pyval;
  generated_at : pystr
}.

Section ContributionPlan.

Variable create : plan_prompt -> completion.

(** [datetime.now().isoformat()] *)
Variable now_iso : pystr.

(** The prompt is built before the [try]; a failure of the transport gives
    the fixed text. *)
Definition generate_contribution_plan (issue : dict) (analysis : IssueAnalysis)
    (user_skills : list pystr) : result contribution_plan :=
  p <- contribution_plan_prompt issue analysis user_skills ;;
  match create p with
  | Completion (Some plan_text) =>
    Ok {| plan := PStr plan_text; generated_at := now_iso |}
  | Completion None => Ok {| plan := PNone; generated_at := now_iso |}
  | CompletionError _ =>
    Ok {| plan := PStr (py "无法生成贡献计划"); generated_at := now_iso |}
  end.

End ContributionPlan.

(** ** The JSON candidate, described without the regular expressions *)

(** The prefix of [s] up to and including its last closing brace. *)
Fixpoint upto_last_close (s : pystr) : option pystr :=
  match s with
  | [] => None
  | c :: s' =>
    match upto_last_close s' with
    | Some m => Some (c :: m)
    | None => if (c =? 125)%N then Some [c] else None
    end
  end.

(** The text from the first opening brace to the last closing brace after
    it. *)
Fixpoint brace_span (s : pystr) : option pystr :=
  match s with
  | [] => None
  | c :: s' =>
    if (c =? 123)%N
    then option_map (cons c) (upto_last_close s')
    else brace_span s'
  end.

(** The text without its leading whitespace. *)
Fixpoint strip_left (s : pystr) : pystr :=
  match s with
  | c :: s' => if Re.is_space c then strip_left s' else s
  | [] => []
  end.

(** The text is whitespace followed by the closing fence. *)
Definition closes (s : pystr) : bool := startswith (py "```") (strip_left s).

(** The shortest prefix of [s] after which the fence closes. *)
Fixpoint fenced_content (s : pystr) : option pystr :=
  if closes s then Some []
  else match s with
       | [] => None
       | c :: s' => option_map (cons c) (fenced_content s')
       end.

(** The content of the first fenced block that is closed: what follows the
    first [```json], without the whitespace around it, up to the next
    [```]. *)
Fixpoint fenced_span (s : pystr) : option pystr :=
  match (if startswith (py "```json") s
         then fenced_content (strip_left (skipn 7 s))
         else None) with
  | Some g => Some g
  | None =>
    match s with
    | [] => None
    | _ :: s' => fenced_span s'
    end
  end.

(** ** analyze_project *)

Record ProjectAnalysis := {
  project_name : pyval;
  beginner_friendliness : pyval;
  active_maintenance : pyval;
  community_health : pyval;
  contribution_guidelines : pyval;
  tech_stack_analysis : pyval;
  recommended_issues : pyval
}.

(** The attributes an [AIAnalyzer] has: the methods the class defines and
    the [client] that [__init__] sets. *)
Definition AIAnalyzer_attributes : list pystr :=
  [ py "__init__"; py "client"; py "analyze_issue"; py "analyze_project";
    py "generate_contribution_plan"; py "_build_issue_analysis_prompt";
    py "_parse_analysis_response"; py "_get_default_analysis" ].

(** [self.name]: an [AttributeError] for a name the object does not have. *)
Definition self_attribute (name : pystr) : result unit :=
  if existsb (pystr_eqb name) AIAnalyzer_attributes
  then Ok tt
  else Raise AttributeError.

(** [analyze_project] starts, before its [try], with
    [self._build_project_analysis_prompt(project_data, issues)]; the class
    has no method of this name (nor [_parse_project_analysis_response] and
    [_get_default_project_analysis], which the rest of the body names), so
    the attribute lookup is all that is ever run. *)
Definition analyze_project (project_data : pyval) (issues : list pyval)
  : result ProjectAnalysis :=
  _ <- self_attribute (py "_build_project_analysis_prompt") ;;
  Raise AttributeError.

End Analyzer.

(* ================================================================== *)
(** * services/github_client.py *)
(* ================================================================== *)

Module GitHub.

(** The values a [for] loop or a comprehension iterates over. *)
Definition iterate (v : pyval) : result (list pyval) :=
  match v with
  | PList l => Ok l
  | PStr s => Ok (map (fun c => PStr [c]) s)
  | PDict d => Ok (map (fun kv => PStr (fst kv)) d)
  | _ => Raise TypeError
  end.

(** [key in v] for a string key. *)
Definition value_contains (key : pystr) (v : pyval) : result bool :=
  match v with
  | PDict d => Ok (dict_mem key d)
  | PStr s => Ok (contains key s)
  | PList l =>
    Ok (existsb (fun x => match x with
                          | PStr s => pystr_eqb s key
                          | _ => false
                          end) l)
  | _ => Raise TypeError
  end.

(** [s.replace('Z', '+00:00')] *)
Fixpoint replace_Z (s : pystr) : pystr :=
  match s with
  | [] => []
  | c :: s' => if (c =? 90)%N then py "+00:00" ++ replace_Z s' else c :: replace_Z s'
  end.

Section Client.

(** [datetime.fromisoformat]; [None] stands for its [ValueError]. *)
Variable datetime : Type.
Variable fromisoformat : pystr -> option datetime.

Record GitHubIssue := {
  id : pyval;
  number : pyval;
  title : pyval;
  body : pyval;
  state : pyval;
  labels : list pyval;
  created_at : datetime;
  updated_at : datetime;
  html_url : pyval;
  comments : pyval;
  reactions : pyval;
  assignee : pyval;
  milestone : pyval
}.

Definition parse_timestamp (v : pyval) : result datetime :=
  match v with
  | PStr s =>
    match fromisoformat (replace_Z s) with
    | Some t => Ok t
    | None => Raise ValueError
    end
  | _ => Raise AttributeError
  end.

Fixpoint label_names (ls : list pyval) : result (list pyval) :=
  match ls with
  | [] => Ok []
  | label :: rest =>
    name <- subscript (py "name") label ;;
    names <- label_names rest ;;
    Ok (name :: names)
  end.

(** [data[outer][inner] if data[outer] else None] *)
Definition optional_field (outer inner : pystr) (data : pyval) : result pyval :=
  v <- subscript outer data ;;
  if truthy v then w <- subscript outer data ;; subscript inner w
  else Ok PNone.

Definition from_api_response (data : pyval) : result GitHubIssue :=
  i <- subscript (py "id") data ;;
  n <- subscript (py "number") data ;;
  t <- subscript (py "title") data ;;
  b <- subscript (py "body") data ;;
  s <- subscript (py "state") data ;;
  ls <- subscript (py "labels") data ;;
  ls <- iterate ls ;;
  names <- label_names ls ;;
  c <- subscript (py "created_at") data ;;
  c <- parse_timestamp c ;;
  u <- subscript (py "updated_at") data ;;
  u <- parse_timestamp u ;;
  h <- subscript (py "html_url") data ;;
  cm <- subscript (py "comments") data ;;
  r <- value_get (py "reactions") (PDict []) data ;;
  a <- optional_field (py "assignee") (py "login") data ;;
  m <- optional_field (py "milestone") (py "title") data ;;
  Ok {| id := i; number := n; title := t;
        body := (if truthy b then b else PStr []);
        state := s; labels := names;
        created_at := c; updated_at := u;
        html_url := h; comments := cm; reactions := r;
        assignee := a; milestone := m |}.

(** The [for] loop of [get_issues] over one page: items that carry the key
    [pull_request] are skipped, the others converted and appended.  An
    exception leaves what was appended before it. *)
Fixpoint collect (data : list pyval) (issues : list GitHubIssue)
  : list GitHubIssue * option exn :=
  match data with
  | [] => (issues, None)
  | issue_data :: rest =>
    match value_contains (py "pull_request") issue_data with
    | Raise e => (issues, Some e)
    | Ok true => collect rest issues
    | Ok false =>
      match from_api_response issue_data with
      | Raise e => (issues, Some e)
      | Ok response => collect rest (issues ++ [response])
      end
    end
  end.

(** The answer of [_make_request('GET', 'repos/{owner}/{repo}/issues', params)]
    as a function of [params['page']], the only parameter that changes during
    a call of [get_issues]: the JSON array of the page, or an exception. *)
Variable request : nat -> result (list pyval).

Variable per_page : Z.

(** The [while True] loop.  [page] is [params['page']], [log] the pages
    requested so far, in order; [None] when [fuel] iterations did not reach a
    [break]. *)
Fixpoint get_issues_loop (fuel page : nat) (issues : list GitHubIssue)
    (log : list nat) : option (list GitHubIssue * list nat) :=
  match fuel with
  | O => None
  | S fuel' =>
    let log' := log ++ [page] in
    match request page with
    | Raise _ => Some (issues, log')
    | Ok [] => Some (issues, log')
    | Ok data =>
      match collect data issues with
      | (issues', Some _) => Some (issues', log')
      | (issues', None) =>
        if (Z.of_nat (length data) <? per_page)%Z
        then Some (issues', log')
        else get_issues_loop fuel' (S page) issues' log'
      end
    end
  end.

Definition get_issues (fuel : nat) : option (list GitHubIssue * list nat) :=
  get_issues_loop fuel 1 [] [].

(** A page whose items all get through the [for] loop. *)
Definition item_converts (issue_data : pyval) : bool :=
  match value_contains (py "pull_request") issue_data with
  | Raise _ => false
  | Ok true => true
  | Ok false =>
    match from_api_response issue_data with
    | Ok _ => true
    | Raise _ => false
    end
  end.

Definition page_converts (data : list pyval) : bool :=
  forallb item_converts data.

(** A full page: the request succeeds with at least [per_page] raw items,
    each of which the loop can process. *)
Definition full_page (page : nat) : Prop :=
  exists data,
    request page = Ok data
    /\ (per_page <= Z.of_nat (length data))%Z
    /\ page_converts data = true.

(** A short page: the request succeeds with fewer than [per_page] raw items. *)
Definition short_page (page : nat) : Prop :=
  exists data,
    request page = Ok data /\ (Z.of_nat (length data) < per_page)%Z.

(** The issues the [for] loop gets out of one page, up to the first item it
    cannot process. *)
Definition converted (data : list pyval) : list GitHubIssue :=
  fst (collect data []).

(** What page [page] contributes to the result: nothing when the request
    fails. *)
Definition listed (page : nat) : list GitHubIssue :=
  match request page with
  | Ok data => converted data
  | Raise _ => []
  end.

(** The loop ends at this page: the request fails, the page is short, or
    one of its items cannot be processed. *)
Definition last_page (page : nat) : bool :=
  match request page with
  | Raise _ => true
  | Ok data =>
    (Z.of_nat (length data) <? per_page)%Z || negb (page_converts data)
  end.

(** The keys [from_api_response] reads with [data[...]]. *)
Definition required_keys : list pystr :=
  [ py "id"; py "number"; py "title"; py "body"; py "state"; py "labels";
    py "created_at"; py "updated_at"; py "html_url"; py "comments";
    py "assignee"; py "milestone" ].

(** An issue comes from an item of some page that has no key
    [pull_request]. *)
Definition from_listed_issue (i : GitHubIssue) : Prop :=
  exists page data item,
    request page = Ok data
    /\ In item data
    /\ value_contains (py "pull_request") item = Ok false
    /\ from_api_response item = Ok i.

End Client.

End GitHub.

(* ================================================================== *)
(** * services/feishu_client.py *)
(* ================================================================== *)

Module Feishu.

(** ** FeishuCardBuilder.build_daily_summary *)

(** The elements of a card: a [div] with its markdown content, a divider
    [hr], a [note] with its plain text. *)
Inductive element :=
| Div (content : pystr)
| Hr
| Note (content : pystr).

(** The value of the key [tag] of an element. *)
Definition tag (e : element) : pystr :=
  match e with
  | Div _ => py "div"
  | Hr => py "hr"
  | Note _ => py "note"
  end.

Definition is_div (e : element) : bool :=
  match e with Div _ => true | _ => false end.

Record card := {
  header_title : pystr;
  header_template : pystr;
  elements : list element
}.

Section CardBuilder.

(** [str(v)], as an f-string formats a value. *)
Variable str : pyval -> pystr.

(** [datetime.now().strftime('%Y-%m-%d %H:%M:%S')] *)
Variable now_text : pystr.

Definition nl : pystr := [10%N].

(** [f"• {p.get('name')} ({p.get('owner')}/{p.get('repo')})"] *)
Definition project_line (p : pyval) : result pystr :=
  name <- value_get (py "name") PNone p ;;
  owner <- value_get (py "owner") PNone p ;;
  repo <- value_get (py "repo") PNone p ;;
  Ok (py "• " ++ str name ++ py " (" ++ str owner ++ py "/" ++ str repo ++ py ")").

Fixpoint project_lines (projects : list pyval) : result (list pystr) :=
  match projects with
  | [] => Ok []
  | p :: rest =>
    line <- project_line p ;;
    lines <- project_lines rest ;;
    Ok (line :: lines)
  end.

(** [item_md] for the recommendation [rec] at index [i]. *)
Definition item_md (i : nat) (rec : pyval) : result pystr :=
  rs <- value_get (py "required_skills") (PList []) rec ;;
  skills <- join_value (py "、") rs ;;
  title <- value_get (py "title") PNone rec ;;
  url <- value_get (py "url") PNone rec ;;
  difficulty <- value_get (py "difficulty") (PStr (py "未知")) rec ;;
  estimated <- value_get (py "estimated_time") (PStr (py "N/A")) rec ;;
  solution <- value_get (py "solution_approach") (PStr (py "暂无建议")) rec ;;
  breakdown <- value_get (py "technical_breakdown") (PStr (py "暂无拆解")) rec ;;
  Ok (py "**" ++ str (PInt (Z.of_nat i + 1)) ++ py ". [" ++ str title
      ++ py "](" ++ str url ++ py ")**" ++ nl
      ++ py "🔸 **难度**: " ++ str difficulty
      ++ py " | ⏳ **预计耗时**: " ++ str estimated ++ nl
      ++ py "🎯 **所需技能**: " ++ skills ++ nl
      ++ py "💡 **解决方案**: " ++ str solution ++ nl
      ++ py "🛠 **技术拆解**: " ++ str breakdown).

(** The [for i, rec in enumerate(recommendations[:5])] loop, from index [i]
    on; [bound] is [len(recommendations[:3]) - 1]. *)
Fixpoint render_items (bound : Z) (i : nat) (recs : list pyval)
  : result (list element) :=
  match recs with
  | [] => Ok []
  | rec :: rest =>
    md <- item_md i rec ;;
    tail <- render_items bound (S i) rest ;;
    Ok (Div md :: (if (Z.of_nat i <? bound)%Z then [Hr] else []) ++ tail)
  end.

Definition build_daily_summary (projects : list pyval) (issues_found : pyval)
    (recommendations : list pyval) : result card :=
  lines <- project_lines projects ;;
  let project_list := join nl lines in
  let head :=
    [ Div (py "**监控项目**:" ++ nl ++ project_list ++ nl ++ nl
           ++ py "**发现Issue总数**: " ++ str issues_found
           ++ py " | **推荐Issue数**: "
           ++ str (PInt (Z.of_nat (length recommendations))));
      Hr ] in
  items <- render_items (Z.of_nat (length (firstn 3 recommendations)) - 1) 0
             (firstn 5 recommendations) ;;
  Ok {| header_title := py "📊 大数据项目贡献每日摘要";
        header_template := py "blue";
        elements := head ++ items ++ [Hr; Note (py "报告时间: " ++ now_text)] |}.

(** The number of [div] elements of a list. *)
Definition count_divs (es : list element) : nat :=
  length (filter is_div es).

(** The tags of [n] text blocks with a divider between every two of them. *)
Fixpoint separated (n : nat) : list pystr :=
  match n with
  | O => []
  | S O => [py "div"]
  | S n' => py "div" :: py "hr" :: separated n'
  end.

(** ** FeishuCardBuilder.build_issue_card *)

Definition difficulty_colors : dict :=
  [ (py "beginner", PStr (py "green"));
    (py "intermediate", PStr (py "orange"));
    (py "advanced", PStr (py "red")) ].

(** [d.get(key, default)] for a key that is any value and a dict with string
    keys: a string is looked up, a list or a dict cannot be hashed
    ([TypeError]), every other value is no key of [d]. *)
Definition dict_get_value (key default : pyval) (d : dict) : result pyval :=
  match key with
  | PStr s => Ok (dict_get s default d)
  | PList _ => Raise TypeError
  | PDict _ => Raise TypeError
  | _ => Ok default
  end.

(** [v + suffix] for a string [suffix] *)
Definition add_str (v : pyval) (suffix : pystr) : result pyval :=
  match v with
  | PStr s => Ok (PStr (s ++ suffix))
  | _ => Raise TypeError
  end.

(** A button: its text, its [type] and its [url]. *)
Record button := {
  button_text : pystr;
  button_type : pystr;
  button_url : pyval
}.

(** The elements of the issue card: a [div] with a text, a divider, a [div]
    with fields (each with its [is_short] and its content), the [action]
    element with its buttons, the [note]. *)
Inductive issue_element :=
| IssueDiv (content : pystr)
| IssueHr
| IssueFields (fields : list (bool * pystr))
| IssueAction (actions : list button)
| IssueNote (content : pystr).

Definition issue_tag (e : issue_element) : pystr :=
  match e with
  | IssueDiv _ => py "div"
  | IssueHr => py "hr"
  | IssueFields _ => py "div"
  | IssueAction _ => py "action"
  | IssueNote _ => py "note"
  end.

Record issue_card := {
  issue_header_title : pystr;
  issue_header_template : pyval;
  issue_elements : list issue_element
}.

Definition build_issue_card (issue analysis : dict) : result issue_card :=
  color <- dict_get_value
             (dict_get (py "difficulty_level") (PStr (py "intermediate")) analysis)
             (PStr (py "blue")) difficulty_colors ;;
  title <- slice_to 50 (dict_get (py "title") (PStr []) issue) ;;
  skills <- join_value (py ", ")
              (dict_get (py "required_skills") (PList []) analysis) ;;
  learning <- join_value nl
                (dict_get (py "learning_opportunities") (PList []) analysis) ;;
  comment_url <- add_str (dict_get (py "html_url") (PStr []) issue)
                         (py "#issuecomment") ;;
  Ok {| issue_header_title := py "🚀 大数据Issue推荐: " ++ str title;
        issue_header_template := color;
        issue_elements :=
          [ IssueDiv (py "**项目**: " ++ str (dict_get (py "repo") (PStr []) issue)
                      ++ nl ++ py "**Issue**: #"
                      ++ str (dict_get (py "number") PNone issue)
                      ++ py " - [" ++ str (dict_get (py "title") (PStr []) issue)
                      ++ py "](" ++ str (dict_get (py "html_url") PNone issue)
                      ++ py ")");
            IssueHr;
            IssueFields
              [ (true, py "**难度**: "
                       ++ str (dict_get (py "difficulty_level")
                                        (PStr (py "未知")) analysis));
                (true, py "**预计时间**: "
                       ++ str (dict_get (py "estimated_time")
                                        (PStr (py "未知")) analysis));
                (false, py "**所需技能**: " ++ skills) ];
            IssueDiv (py "**解决方案思路**:" ++ nl
                      ++ str (dict_get (py "solution_approach")
                                       (PStr (py "暂无")) analysis));
            IssueDiv (py "**学习机会**:" ++ nl ++ learning);
            IssueHr;
            IssueAction
              [ {| button_text := py "查看Issue详情";
                   button_type := py "primary";
                   button_url := dict_get (py "html_url") (PStr []) issue |};
                {| button_text := py "开始贡献";
                   button_type := py "default";
                   button_url := comment_url |} ];
            IssueNote (py "生成时间: " ++ now_text) ] |}.

End CardBuilder.

(** ** FeishuClient *)

(** [time.time()] and [token_expire_time] are floats; the latter is
    infinite or not a number when the remote [expire] is. *)
Definition timestamp := Float64.float.

(** [now < t] *)
Definition before (now : timestamp) (t : timestamp) : bool :=
  Float64.ltb now t.

(** The margin 300 of the expiry time, as the float it is converted to. *)
Definition margin : Float64.float := Float64.of_Z 300.

(** [now + v - 300]: two float operations, each rounding its result; [v] is
    converted first, which raises for an [int] beyond the range of a float
    and for a value that is no number. *)
Definition expiry (now : timestamp) (v : pyval) : result timestamp :=
  x <- float_operand v ;;
  Ok (Float64.sub (Float64.add now x) margin).

(** [v == 0] *)
Definition equals_zero (v : pyval) : bool :=
  match v with
  | PInt z => (z =? 0)%Z
  | PBool b => negb b
  | PFloat m e => Float64.is_zero (Float64.of_literal m e)
  | _ => false
  end.

Record client := {
  webhook_url : pystr;
  app_id : pystr;
  app_secret : pystr;
  user_id : option pystr;
  access_token : pyval;
  token_expire_time : timestamp
}.

(** [FeishuClient.__init__], the arguments being what [x or settings.X]
    evaluates to.  [token_expire_time] starts as the [int] 0, which compares
    with a float as the float zero does. *)
Definition init (webhook app secret : pystr) (user : option pystr) : client :=
  {| webhook_url := webhook; app_id := app; app_secret := secret;
     user_id := user; access_token := PNone;
     token_expire_time := S754_zero false |}.

Definition nonempty (s : pystr) : bool :=
  match s with [] => false | _ :: _ => true end.

Record message := {
  receive_id_type : pystr;
  bearer : pyval;
  receive_id : pystr;
  msg_type : pystr;
  content : pyval
}.

(** The POST requests a call issues, in order. *)
Inductive post :=
| TokenPost (app secret : pystr)
| MessagePost (m : message).

Definition is_message_post (p : post) : bool :=
  match p with MessagePost _ => true | TokenPost _ _ => false end.

Record response := {
  status_code : Z;
  json : result pyval
}.

(** The remote side and the clock. [token_endpoint] is the outcome of the
    POST to the token URL up to [response.json()] (an exception for a
    transport error, an error status or a body that is no JSON);
    [message_endpoint] the outcome of the POST to the messaging URL.
    [now] and [now_refresh] are the two readings of [time.time()].
    [print] is the outcome of writing a value to the standard output: an
    exception when the stream refuses the text, as a [UnicodeEncodeError]
    when its encoding has no emoji. *)
Record world := {
  now : timestamp;
  now_refresh : timestamp;
  token_endpoint : pystr -> pystr -> result pyval;
  message_endpoint : message -> result response;
  print : pyval -> result unit
}.

Definition set_access_token (c : client) (t : pyval) : client :=
  {| webhook_url := webhook_url c; app_id := app_id c;
     app_secret := app_secret c; user_id := user_id c;
     access_token := t; token_expire_time := token_expire_time c |}.

Definition set_token_expire_time (c : client) (t : timestamp) : client :=
  {| webhook_url := webhook_url c; app_id := app_id c;
     app_secret := app_secret c; user_id := user_id c;
     access_token := access_token c; token_expire_time := t |}.

(** The body of the [try] of [_get_access_token], after the POST: the token
    it returns (if it returns one) and the client as it leaves it. *)
Definition exchange (w : world) (c : client) : result pyval * client :=
  match token_endpoint w (app_id c) (app_secret c) with
  | Raise e => (Raise e, c)
  | Ok result =>
    match value_get (py "code") PNone result with
    | Raise e => (Raise e, c)
    | Ok code =>
      if equals_zero code then
        match value_get (py "tenant_access_token") PNone result with
        | Raise e => (Raise e, c)
        | Ok t =>
          let c1 := set_access_token c t in
          match value_get (py "expire") (PInt 3600) result with
          | Raise e => (Raise e, c1)
          | Ok ex =>
            match expiry (now_refresh w) ex with
            | Raise e => (Raise e, c1)
            | Ok t' => (Ok (access_token c1), set_token_expire_time c1 t')
            end
          end
        end
      else (Ok PNone, c)
    end
  end.

(** [_get_access_token]: the token or [None], the client afterwards, and the
    POSTs issued. *)
Definition _get_access_token (w : world) (c : client)
  : pyval * client * list post :=
  if truthy (access_token c) && before (now w) (token_expire_time c)
  then (access_token c, c, [])
  else if negb (nonempty (app_id c)) || negb (nonempty (app_secret c))
  then (PNone, c, [])
  else
    match exchange w c with
    | (Ok t, c') => (t, c', [TokenPost (app_id c) (app_secret c)])
    | (Raise _, c') => (PNone, c', [TokenPost (app_id c) (app_secret c)])
    end.

(** The [try] of [send_api_message], once a token is there: the result and
    the POSTs issued.  [receive_id] may be [None] ([self.user_id] when the
    setting is missing): [None.startswith] raises and nothing is sent. *)
Definition post_message (w : world) (token : pyval) (rid : option pystr)
    (mtype : pystr) (body : pyval) (rid_type : pystr) : bool * list post :=
  match rid with
  | None => (false, [])
  | Some rid =>
    let rid_type :=
      if startswith (py "ou_") rid then py "open_id"
      else if startswith (py "oc_") rid then py "chat_id"
      else rid_type in
    let m := {| receive_id_type := rid_type; bearer := token;
                receive_id := rid; msg_type := mtype; content := body |} in
    let sent := [MessagePost m] in
    match message_endpoint w m with
    | Raise _ => (false, sent)
    | Ok resp =>
      if negb (status_code resp =? 200)%Z then (false, sent)
      else
        match json resp with
        | Raise _ => (false, sent)
        | Ok result =>
          match value_get (py "code") PNone result with
          | Raise _ => (false, sent)
          | Ok code => (equals_zero code, sent)
          end
        end
    end
  end.

Definition send_api_message (w : world) (c : client) (rid : option pystr)
    (mtype : pystr) (body : pyval) (rid_type : pystr)
  : bool * client * list post :=
  let '(token, c', posts) := _get_access_token w c in
  if negb (truthy token) then (false, c', posts)
  else
    let (ok, sent) := post_message w token rid mtype body rid_type in
    (ok, c', posts ++ sent).

(** The clients the program can hold: built by [__init__], then changed by
    [_get_access_token] only (directly or through [send_api_message]). *)
Inductive reachable : client -> Prop :=
| reachable_init webhook app secret user :
    reachable (init webhook app secret user)
| reachable_token w c :
    reachable c -> reachable (snd (fst (_get_access_token w c))).

(** No token in the cache that is still before its expiry time. *)
Definition no_live_token (w : world) (c : client) : Prop :=
  truthy (access_token c) && before (now w) (token_expire_time c) = false.

(** The token exchange fails: the POST raises (transport, status or body),
    the body is no object, or its [code] is not 0. *)
Definition exchange_fails (w : world) (c : client) : Prop :=
  match token_endpoint w (app_id c) (app_secret c) with
  | Raise _ => True
  | Ok result =>
    match value_get (py "code") PNone result with
    | Raise _ => True
    | Ok code => equals_zero code = false
    end
  end.

Definition credentials_absent (c : client) : Prop :=
  app_id c = [] \/ app_secret c = [].

(** ** send_webhook_message and send_issue_recommendation *)

Section Webhook.

Variable card_type : Type.

(** The outcome of the POST of a card to the webhook URL. *)
Variable webhook : card_type -> result response.

Definition send_webhook_message (card_content : card_type) : bool :=
  match webhook card_content with
  | Raise _ => false
  | Ok resp =>
    if (status_code resp =? 200)%Z then
      match json resp with
      | Raise _ => false
      | Ok result =>
        match value_get (py "code") PNone result with
        | Raise _ => false
        | Ok code => equals_zero code
        end
      end
    else false
  end.

End Webhook.

(** The card is built outside every [try]: what [build_issue_card] raises
    leaves [send_issue_recommendation]. *)
Definition send_issue_recommendation (str : pyval -> pystr) (now_text : pystr)
    (webhook : issue_card -> result response) (issue analysis : dict)
  : result bool :=
  c <- build_issue_card str now_text issue analysis ;;
  Ok (send_webhook_message webhook c).

(** ** send_daily_summary *)

(** The dict of an element and of the digest card, as the builder writes
    them. *)
Definition element_value (e : element) : pyval :=
  match e with
  | Div content =>
    PDict [ (py "tag", PStr (py "div"));
            (py "text", PDict [ (py "tag", PStr (py "lark_md"));
                                (py "content", PStr content) ]) ]
  | Hr => PDict [ (py "tag", PStr (py "hr")) ]
  | Note content =>
    PDict [ (py "tag", PStr (py "note"));
            (py "elements", PList [ PDict [ (py "tag", PStr (py "plain_text"));
                                            (py "content", PStr content) ] ]) ]
  end.

Definition card_value (c : card) : pyval :=
  PDict
    [ (py "config", PDict [ (py "wide_screen_mode", PBool true) ]);
      (py "header",
       PDict [ (py "title", PDict [ (py "tag", PStr (py "plain_text"));
                                    (py "content", PStr (header_title c)) ]);
               (py "template", PStr (header_template c)) ]);
      (py "elements", PList (map element_value (elements c))) ].

(** The card is built and printed before anything is sent, both outside
    every [try]; it goes to [self.user_id] as an interactive message, with
    the default recipient type. *)
Definition send_daily_summary (str : pyval -> pystr) (now_text : pystr)
    (w : world) (c : client) (projects : list pyval) (issues_found : pyval)
    (recommendations : list pyval) : result (bool * client * list post) :=
  summary <- build_daily_summary str now_text projects issues_found
                                 recommendations ;;
  _ <- print w (card_value summary) ;;
  Ok (send_api_message w c (user_id c) (py "interactive")
                       (card_value summary) (py "open_id")).

End Feishu.

(* ================================================================== *)
(** * main.py *)
(* ================================================================== *)

Module Orchestrator.

Record SearchRequest := {
  keywords : list pystr;
  experience_level : pystr;
  max_issues : Z
}.

Section Search.

(** [str.lower] *)
Variable lower : pystr -> pystr.

(** [v.lower()]: a method of strings only. *)
Definition lower_value (v : pyval) : result pystr :=
  match v with
  | PStr s => Ok (lower s)
  | _ => Raise AttributeError
  end.

(** [keyword.lower() in project['name'].lower() or
     keyword.lower() in project['category'].lower()] *)
Definition keyword_matches (project : pyval) (keyword : pystr) : result bool :=
  name <- subscript (py "name") project ;;
  name <- lower_value name ;;
  if contains (lower keyword) name then Ok true
  else
    category <- subscript (py "category") project ;;
    category <- lower_value category ;;
    Ok (contains (lower keyword) category).

(** [any(... for keyword in keywords)]: stops at the first match. *)
Fixpoint any_keyword (project : pyval) (kws : list pystr) : result bool :=
  match kws with
  | [] => Ok false
  | keyword :: rest =>
    b <- keyword_matches project keyword ;;
    if b then Ok true else any_keyword project rest
  end.

Definition matches_keyword (request : SearchRequest) (project : pyval)
  : result bool :=
  match keywords request with
  | [] => Ok true
  | _ :: _ => any_keyword project (keywords request)
  end.

(** The value of the [and]/[or] expression [matches_experience]; the [if]
    that follows takes its truth value. *)
Definition matches_experience (request : SearchRequest) (project : pyval)
  : result pyval :=
  first <-
    (if pystr_eqb (experience_level request) (py "beginner")
     then value_get (py "beginner_friendly") (PBool false) project
     else Ok (PBool false)) ;;
  if truthy first then Ok first
  else if pystr_eqb (experience_level request) (py "intermediate")
  then Ok (PBool true)
  else if pystr_eqb (experience_level request) (py "advanced")
  then
    bf <- value_get (py "beginner_friendly") (PBool true) project ;;
    Ok (PBool (negb (truthy bf)))
  else Ok (PBool false).

(** The loop that fills [filtered_projects]; an exception in it leaves the
    handler of the request. *)
Fixpoint filtered_projects (request : SearchRequest) (bigdata_projects : list pyval)
  : result (list pyval) :=
  match bigdata_projects with
  | [] => Ok []
  | project :: rest =>
    mk <- matches_keyword request project ;;
    me <- matches_experience request project ;;
    filtered <- filtered_projects request rest ;;
    Ok (if mk && truthy me then project :: filtered else filtered)
  end.

(** The experience test alone, as a boolean ([false] where it raises). *)
Definition experience_ok (request : SearchRequest) (project : pyval) : bool :=
  match matches_experience request project with
  | Ok v => truthy v
  | Raise _ => false
  end.

(** Whether the loop appends a project ([false] where a test raises). *)
Definition selected (request : SearchRequest) (project : pyval) : bool :=
  match matches_keyword request project with
  | Ok mk => mk && experience_ok request project
  | Raise _ => false
  end.

End Search.

(** ** analyze_issue (the request handler): what goes to the notifier *)

(** [issue_info] and [analysis_info] *)
Definition issue_info (owner repo : pystr) (issue_data : dict) : dict :=
  [ (py "repo", PStr (owner ++ py "/" ++ repo));
    (py "number", dict_get (py "number") PNone issue_data);
    (py "title", dict_get (py "title") PNone issue_data);
    (py "html_url", dict_get (py "html_url") PNone issue_data) ].

Definition analysis_info (analysis : Analyzer.IssueAnalysis) : dict :=
  [ (py "difficulty_level", Analyzer.difficulty_level analysis);
    (py "estimated_time", Analyzer.estimated_time analysis);
    (py "required_skills", Analyzer.required_skills analysis);
    (py "solution_approach", Analyzer.solution_approach analysis);
    (py "learning_opportunities", Analyzer.learning_opportunities analysis) ].

Record IssueRequest := {
  owner : pystr;
  repo : pystr;
  issue_number : Z;
  user_skills : list pystr
}.

(** The body of the response: the issue, the analysis, the plan if one was
    asked for. *)
Record IssueResponse := {
  response_issue : dict;
  response_analysis : Analyzer.IssueAnalysis;
  response_plan : option Analyzer.contribution_plan
}.

Section AnalyzeIssueHandler.

Variable str : pyval -> pystr.
Variable now_text : pystr.
Variable now_iso : pystr.

(** The tracker's answers for the issue of the request and the two
    documents, the two model transports and the webhook. *)
Variable get_issue_details : result dict.
Variable readme : pystr.
Variable contributing : pystr.
Variable create : Analyzer.prompt -> Analyzer.completion.
Variable create_plan : Analyzer.plan_prompt -> Analyzer.completion.
Variable webhook : Feishu.issue_card -> result Feishu.response.

(** The [try] of the handler; an exception becomes the response 500.  The
    notifier is the global [feishu_client], set when the service starts. *)
Definition analyze_issue (request : IssueRequest) : result IssueResponse :=
  issue_data <- get_issue_details ;;
  analysis <- Analyzer.analyze_issue create issue_data readme contributing ;;
  contribution_plan <-
    match user_skills request with
    | [] => Ok None
    | _ :: _ =>
      p <- Analyzer.generate_contribution_plan create_plan now_iso issue_data
             analysis (user_skills request) ;;
      Ok (Some p)
    end ;;
  _ <- Feishu.send_issue_recommendation str now_text webhook
         (issue_info (owner request) (repo request) issue_data)
         (analysis_info analysis) ;;
  Ok {| response_issue := issue_data;
        response_analysis := analysis;
        response_plan := contribution_plan |}.

End AnalyzeIssueHandler.

(** ** search_bigdata_projects: the loop over the filtered projects *)

Section SearchLoop.

Variable datetime : Type.

(** [github_client.get_repository_info(owner, name)] and
    [github_client.get_issues(owner, name, labels=...)]. *)
Variable get_repository_info : pyval -> pyval -> result pyval.
Variable get_issues :
  pyval -> pyval -> pyval -> result (list (GitHub.GitHubIssue datetime)).

(** An entry of [results]: the project, the four figures taken from
    [repo_info], the analysis and the number of issues found. *)
Record project_result := {
  result_project : pyval;
  result_stars : pyval;
  result_forks : pyval;
  result_open_issues : pyval;
  result_last_updated : pyval;
  result_analysis : Analyzer.ProjectAnalysis;
  beginner_issues_count : nat
}.

(** The dict of an issue that goes into the project analysis. *)
Definition issue_sample (issue : GitHub.GitHubIssue datetime) : pyval :=
  PDict [ (py "id", GitHub.id issue);
          (py "title", GitHub.title issue);
          (py "body", GitHub.body issue);
          (py "labels", PList (GitHub.labels issue));
          (py "comments", GitHub.comments issue) ].

(** The [try] of one iteration. *)
Definition analyze_catalog_project (project : pyval) : result project_result :=
  o <- subscript (py "owner") project ;;
  n <- subscript (py "name") project ;;
  repo_info <- get_repository_info o n ;;
  o <- subscript (py "owner") project ;;
  n <- subscript (py "name") project ;;
  labels <- value_get (py "good_first_issue_labels")
              (PList [PStr (py "good-first-issue")]) project ;;
  issues <- get_issues o n labels ;;
  analysis <- Analyzer.analyze_project repo_info
                (map issue_sample (firstn 5 issues)) ;;
  stars <- value_get (py "stargazers_count") (PInt 0) repo_info ;;
  forks <- value_get (py "forks_count") (PInt 0) repo_info ;;
  open_issues <- value_get (py "open_issues_count") (PInt 0) repo_info ;;
  last_updated <- value_get (py "updated_at") PNone repo_info ;;
  Ok {| result_project := project;
        result_stars := stars;
        result_forks := forks;
        result_open_issues := open_issues;
        result_last_updated := last_updated;
        result_analysis := analysis;
        beginner_issues_count := length issues |}.

(** The loop: the handler of an iteration formats [project['owner']] and
    [project['name']] for the log, then goes on with the next project. *)
Fixpoint search_results (projects : list pyval) (results : list project_result)
  : result (list project_result) :=
  match projects with
  | [] => Ok results
  | project :: rest =>
    match analyze_catalog_project project with
    | Ok entry => search_results rest (results ++ [entry])
    | Raise _ =>
      _ <- subscript (py "owner") project ;;
      _ <- subscript (py "name") project ;;
      search_results rest results
    end
  end.

End SearchLoop.

(** ** daily_monitor *)

Section Monitor.

Variable datetime : Type.
Variable str : pyval -> pystr.

(** [github_client.get_issues(owner, name, labels=..., state='open')] and
    [github_client.get_readme(owner, name)]. *)
Variable get_issues :
  pyval -> pyval -> pyval -> result (list (GitHub.GitHubIssue datetime)).
Variable get_readme : pyval -> pyval -> pystr.
Variable create : Analyzer.prompt -> Analyzer.completion.

Definition monitor_issue_dict (issue : GitHub.GitHubIssue datetime) : dict :=
  [ (py "id", GitHub.id issue);
    (py "number", GitHub.number issue);
    (py "title", GitHub.title issue);
    (py "body", GitHub.body issue);
    (py "labels", PList (GitHub.labels issue));
    (py "html_url", GitHub.html_url issue) ].

(** [difficulty in ['beginner', 'intermediate']] *)
Definition recommended (difficulty : pyval) : bool :=
  match difficulty with
  | PStr s => pystr_eqb s (py "beginner") || pystr_eqb s (py "intermediate")
  | _ => false
  end.

(** [analysis.__dict__] *)
Definition analysis_dict (a : Analyzer.IssueAnalysis) : pyval :=
  PDict [ (py "issue_id", Analyzer.issue_id a);
          (py "complexity_score", Analyzer.complexity_score a);
          (py "difficulty_level", Analyzer.difficulty_level a);
          (py "required_skills", Analyzer.required_skills a);
          (py "estimated_time", Analyzer.estimated_time a);
          (py "solution_approach", Analyzer.solution_approach a);
          (py "technical_breakdown", Analyzer.technical_breakdown a);
          (py "learning_opportunities", Analyzer.learning_opportunities a);
          (py "confidence_score", Analyzer.confidence_score a) ].

Definition recommendation (o n : pyval) (issue : GitHub.GitHubIssue datetime)
    (a : Analyzer.IssueAnalysis) : pyval :=
  PDict [ (py "project", PStr (str o ++ py "/" ++ str n));
          (py "title", GitHub.title issue);
          (py "url", GitHub.html_url issue);
          (py "difficulty", Analyzer.difficulty_level a);
          (py "analysis", analysis_dict a) ].

(** The inner loop: an issue whose analysis raises is skipped. *)
Fixpoint monitor_issues (o n : pyval) (readme : pystr)
    (issues : list (GitHub.GitHubIssue datetime)) : list pyval :=
  match issues with
  | [] => []
  | issue :: rest =>
    match Analyzer.analyze_issue create (monitor_issue_dict issue) readme [] with
    | Ok a =>
      if recommended (Analyzer.difficulty_level a)
      then recommendation o n issue a :: monitor_issues o n readme rest
      else monitor_issues o n readme rest
    | Raise _ => monitor_issues o n readme rest
    end
  end.

(** The [try] of one project: the number of issues found and the
    recommendations added. *)
Definition monitor_project (project : pyval) : result (nat * list pyval) :=
  o <- subscript (py "owner") project ;;
  n <- subscript (py "name") project ;;
  labels <- value_get (py "good_first_issue_labels")
              (PList [PStr (py "good-first-issue")]) project ;;
  issues <- get_issues o n labels ;;
  Ok (length issues,
      match issues with
      | [] => []
      | _ :: _ => monitor_issues o n (get_readme o n) (firstn 3 issues)
      end).

(** The outer loop: the handler of a project formats [project['name']] for
    the log. *)
Fixpoint monitor_loop (projects : list pyval) (total_issues : nat)
    (all_recommendations : list pyval) : result (nat * list pyval) :=
  match projects with
  | [] => Ok (total_issues, all_recommendations)
  | project :: rest =>
    match monitor_project project with
    | Ok (found, added) =>
      monitor_loop rest (total_issues + found) (all_recommendations ++ added)
    | Raise _ =>
      _ <- subscript (py "name") project ;;
      monitor_loop rest total_issues all_recommendations
    end
  end.

Record MonitorResponse := {
  monitored_projects : nat;
  total_issues_found : nat;
  recommendations_found : nat
}.

(** The handler: the sweep over the first ten projects, then the digest with
    the first five recommendations, if there is any; the state of the client
    and its POSTs come with the response. *)
Definition daily_monitor (now_text : pystr) (w : Feishu.world)
    (c : Feishu.client) (bigdata_projects : list pyval)
  : result (MonitorResponse * Feishu.client * list Feishu.post) :=
  swept <- monitor_loop (firstn 10 bigdata_projects) 0 [] ;;
  let '(total_issues, all_recommendations) := swept in
  sent <-
    match all_recommendations with
    | [] => Ok (c, [])
    | _ :: _ =>
      r <- Feishu.send_daily_summary str now_text w c
             (firstn 10 bigdata_projects) (PInt (Z.of_nat total_issues))
             (firstn 5 all_recommendations) ;;
      Ok (snd (fst r), snd r)
    end ;;
  Ok ({| monitored_projects := length (firstn 10 bigdata_projects);
         total_issues_found := total_issues;
         recommendations_found := length all_recommendations |},
      fst sent, snd sent).

(** An entry that the sweep has added to [all_recommendations]. *)
Definition is_recommendation (r : pyval) : Prop :=
  exists o n issue a,
    r = recommendation o n issue a
    /\ recommended (Analyzer.difficulty_level a) = true.

End Monitor.

(** A catalog entry that is a dict and has the key [name]. *)
Definition named_entry (project : pyval) : bool :=
  match project with
  | PDict d => dict_mem (py "name") d
  | _ => false
  end.

End Orchestrator.

(* ================================================================== *)
(** * Sample inputs *)
(* ================================================================== *)

Module Samples.

Definition quoted (s : pystr) : pystr := [34%N] ++ s ++ [34%N].

(** An issue as [find_beginner_issues] builds it. *)
Definition issue : dict :=
  [ (py "id", PInt 1001);
    (py "number", PInt 7);
    (py "title", PStr (py "Fix typo in README"));
    (py "body", PStr (py "The word cluster is misspelled."));
    (py "labels", PList [PStr (py "good-first-issue")]);
    (py "html_url", PStr (py "https://github.com/apache/druid/issues/7"));
    (py "comments", PInt 0) ].

(** An issue as the tracker's REST API returns it when the description is
    empty: [body] is [null]. *)
Definition issue_null_body : dict :=
  [ (py "id", PInt 1001);
    (py "number", PInt 7);
    (py "title", PStr (py "Fix typo in README"));
    (py "body", PNone);
    (py "state", PStr (py "open"));
    (py "labels", PList []);
    (py "html_url", PStr (py "https://github.com/apache/druid/issues/7"));
    (py "comments", PInt 0) ].

(** An issue as the REST API returns it when it carries a label: [labels]
    is a list of label objects. *)
Definition issue_api_labels : dict :=
  [ (py "id", PInt 1002);
    (py "number", PInt 8);
    (py "title", PStr (py "Add an example to the tutorial"));
    (py "body", PStr (py "The tutorial lacks an example for ingestion."));
    (py "state", PStr (py "open"));
    (py "labels", PList [PDict [ (py "id", PInt 208045946);
                                 (py "name", PStr (py "good-first-issue")) ]]);
    (py "comments", PInt 1) ].

(** An issue dict without the key [id]. *)
Definition issue_without_id : dict :=
  [ (py "number", PInt 9);
    (py "title", PStr (py "Update the changelog"));
    (py "body", PStr (py "The changelog misses the last release."));
    (py "labels", PList []) ].

(** A model answer without any JSON. *)
Definition plain_answer : pystr := py "I am sorry, I cannot analyze this issue.".

(** The fenced answer: a JSON object with two members between a line
    [```json] and a line [```]. *)
Definition fenced_answer : pystr :=
  py "```json" ++ [10%N]
  ++ py "{" ++ quoted (py "complexity_score") ++ py ":0.9,"
  ++ quoted (py "difficulty_level") ++ py ":" ++ quoted (py "advanced") ++ py "}"
  ++ [10%N] ++ py "```".

(** A model answer whose values are outside the documented ranges. *)
Definition out_of_range_answer : pystr :=
  py "{" ++ quoted (py "complexity_score") ++ py ": 7, "
  ++ quoted (py "difficulty_level") ++ py ": " ++ quoted (py "expert") ++ py ", "
  ++ quoted (py "confidence_score") ++ py ": 1.5}".

Definition answers (text : pystr) (_ : Analyzer.prompt) : Analyzer.completion :=
  Analyzer.Completion (Some text).

(** ** The tracker *)

(** An item of the issue listing as the REST API returns it. *)
Definition api_issue (n : Z) : pyval :=
  PDict
    [ (py "id", PInt (1000 + n));
      (py "number", PInt n);
      (py "title", PStr (py "Improve the documentation"));
      (py "body", PNone);
      (py "state", PStr (py "open"));
      (py "labels", PList [PDict [(py "name", PStr (py "good-first-issue"))]]);
      (py "created_at", PStr (py "2024-05-01T08:00:00Z"));
      (py "updated_at", PStr (py "2024-05-02T09:30:00Z"));
      (py "html_url", PStr (py "https://github.com/apache/druid/issues/1"));
      (py "comments", PInt 2);
      (py "assignee", PNone);
      (py "milestone", PNone) ].

(** A pull request in the same listing. *)
Definition api_pull (n : Z) : pyval :=
  PDict
    [ (py "id", PInt (1000 + n));
      (py "number", PInt n);
      (py "pull_request", PDict [(py "url", PStr (py "https://api.github.com/pulls/1"))]) ].

(** A remote with a full page of two items, one of them a pull request,
    then a page with one item; a third page would fail. *)
Definition pages (page : nat) : result (list pyval) :=
  match page with
  | 1%nat => Ok [api_issue 1; api_pull 2]
  | 2%nat => Ok [api_issue 3]
  | _ => Raise RequestException
  end.

(** Timestamps kept as their text. *)
Definition iso (s : pystr) : option pystr := Some s.

(** ** The chat platform *)

Definition chat_world : Feishu.world :=
  {| Feishu.now := Float64.of_Z 1000;
     Feishu.now_refresh := Float64.of_Z 1001;
     Feishu.print := fun _ => Ok tt;
     Feishu.token_endpoint := fun _ _ =>
       Ok (PDict [ (py "code", PInt 0);
                   (py "tenant_access_token", PStr (py "t-g1044qeGEDXTB6NDJOGV4JQCYDGHRBARFTGT1234"));
                   (py "expire", PInt 7200) ]);
     Feishu.message_endpoint := fun _ =>
       Ok {| Feishu.status_code := 200;
             Feishu.json := Ok (PDict [(py "code", PInt 0)]) |} |}.

(** A remote whose token exchange answers with a business error. *)
Definition refusing_world : Feishu.world :=
  {| Feishu.now := Float64.of_Z 1000;
     Feishu.now_refresh := Float64.of_Z 1001;
     Feishu.print := fun _ => Ok tt;
     Feishu.token_endpoint := fun _ _ =>
       Ok (PDict [ (py "code", PInt 10003);
                   (py "msg", PStr (py "invalid param")) ]);
     Feishu.message_endpoint := fun _ =>
       Ok {| Feishu.status_code := 200;
             Feishu.json := Ok (PDict [(py "code", PInt 0)]) |} |}.

Definition chat_client : Feishu.client :=
  Feishu.init (py "https://open.feishu.cn/open-apis/bot/v2/hook/x")
              (py "cli_a1b2c3") (py "s3cr3t") (Some (py "ou_7d8a6e6df7621556ce0d21922b676706")).

(** Four recommendations as [find_beginner_issues] passes them. *)
Definition recommendation (title : pystr) : pyval :=
  PDict
    [ (py "title", PStr title);
      (py "url", PStr (py "https://github.com/apache/druid/issues/18872"));
      (py "difficulty", PStr (py "beginner"));
      (py "estimated_time", PStr (py "2-4小时"));
      (py "required_skills", PList [PStr (py "Markdown")]) ].

Definition four_recommendations : list pyval :=
  [ recommendation (py "first"); recommendation (py "second");
    recommendation (py "third"); recommendation (py "fourth") ].

Definition druid : pyval :=
  PDict [ (py "name", PStr (py "druid")); (py "owner", PStr (py "apache"));
          (py "repo", PStr (py "druid")) ].

(** ** The project catalog *)

Definition spark : pyval :=
  PDict [ (py "name", PStr (py "spark")); (py "owner", PStr (py "apache"));
          (py "category", PStr (py "compute"));
          (py "beginner_friendly", PBool false) ].

Definition superset : pyval :=
  PDict [ (py "name", PStr (py "superset")); (py "owner", PStr (py "apache"));
          (py "category", PStr (py "visualization"));
          (py "beginner_friendly", PBool true) ].

(** [str.lower] on ASCII letters. *)
Definition ascii_lower (s : pystr) : pystr :=
  map (fun c => if ((65 <=? c) && (c <=? 90))%N then (c + 32)%N else c) s.

Definition search (level : pystr) (kws : list pystr) : Orchestrator.SearchRequest :=
  {| Orchestrator.keywords := kws;
     Orchestrator.experience_level := level;
     Orchestrator.max_issues := 10 |}.

(** A transport that always fails. *)
Definition unreachable_model {A : Type} (_ : A) : Analyzer.completion :=
  Analyzer.CompletionError RequestException.

(** A model answer that is JSON but no object. *)
Definition list_answer : pystr := py "[0.3, 0.9]".

(** A model answer with two objects in running text. *)
Definition two_objects_answer : pystr :=
  py "First {" ++ quoted (py "a") ++ py ": 1} and then {"
  ++ quoted (py "b") ++ py ": 2}, done.".

(** A fenced answer with text around the block and blank lines inside it. *)
Definition padded_fenced_answer : pystr :=
  py "Here is the analysis:" ++ [10%N] ++ py "```json" ++ [10; 32; 32]%N
  ++ py "{" ++ quoted (py "difficulty_level") ++ py ": "
  ++ quoted (py "beginner") ++ py "}" ++ [32; 10; 10]%N ++ py "```"
  ++ [10%N] ++ py "Hope this helps {really}.".

(** A catalog entry without the flag [beginner_friendly]. *)
Definition kafka : pyval :=
  PDict [ (py "name", PStr (py "kafka")); (py "owner", PStr (py "apache"));
          (py "category", PStr (py "streaming")) ].

(** A catalog entry without a name. *)
Definition nameless : pyval :=
  PDict [ (py "owner", PStr (py "apache"));
          (py "category", PStr (py "storage"));
          (py "beginner_friendly", PBool true) ].

(** The details of an issue without labels, as the REST API returns them. *)
Definition issue_details : dict :=
  [ (py "id", PInt 2001);
    (py "number", PInt 12);
    (py "title", PStr (py "Document the ingestion spec"));
    (py "body", PStr (py "The page on ingestion lacks the new fields."));
    (py "state", PStr (py "open"));
    (py "labels", PList []);
    (py "html_url", PStr (py "https://github.com/apache/druid/issues/12"));
    (py "comments", PInt 0) ].

Definition issue_request : Orchestrator.IssueRequest :=
  {| Orchestrator.owner := py "apache";
     Orchestrator.repo := py "druid";
     Orchestrator.issue_number := 12;
     Orchestrator.user_skills := [] |}.

(** A webhook that accepts every card. *)
Definition accepting_webhook {A : Type} (_ : A) : result Feishu.response :=
  Ok {| Feishu.status_code := 200;
        Feishu.json := Ok (PDict [(py "code", PInt 0)]) |}.

(** A tracker that knows every repository and lists no issue. *)
Definition quiet_repository (_ _ : pyval) : result pyval :=
  Ok (PDict [ (py "name", PStr (py "spark"));
              (py "stargazers_count", PInt 38000) ]).

Definition no_issues (_ _ _ : pyval)
  : result (list (GitHub.GitHubIssue pystr)) := Ok [].

(** Two issues as [get_issues] returns them. *)
Definition listed_issue (n : Z) (text : pystr) : GitHub.GitHubIssue pystr :=
  {| GitHub.id := PInt (3000 + n);
     GitHub.number := PInt n;
     GitHub.title := PStr text;
     GitHub.body := PStr [];
     GitHub.state := PStr (py "open");
     GitHub.labels := [PStr (py "good-first-issue")];
     GitHub.created_at := py "2024-05-01T08:00:00+00:00";
     GitHub.updated_at := py "2024-05-02T09:30:00+00:00";
     GitHub.html_url := PStr (py "https://github.com/apache/spark/issues/1");
     GitHub.comments := PInt 0;
     GitHub.reactions := PDict [];
     GitHub.assignee := PNone;
     GitHub.milestone := PNone |}.

Definition two_issues (_ _ _ : pyval)
  : result (list (GitHub.GitHubIssue pystr)) :=
  Ok [listed_issue 1 (py "Fix a typo"); listed_issue 2 (py "Add a test")].

Definition no_readme (_ _ : pyval) : pystr := [].

End Samples.

(* ================================================================== *)
(** * Properties of the analyzer *)
(* ================================================================== *)

Import Analyzer.

Lemma pystr_eqb_eq (a b : pystr) : pystr_eqb a b = true <-> a = b.
Proof.
  unfold pystr_eqb. destruct (list_eq_dec N.eq_dec a b); split; congruence.
Qed.

Lemma pystr_eqb_refl (a : pystr) : pystr_eqb a a = true.
Proof. now apply pystr_eqb_eq. Qed.


Lemma only_keys_lookup (ks : list pystr) (d : dict) (k : pystr) :
  only_keys ks d = true -> ~ In k ks -> dict_lookup k d = None.
Proof.
  intros Hall Hk. induction d as [| [k' v] d IH]; [reflexivity |].
  cbn [only_keys forallb fst] in Hall. apply andb_prop in Hall.
  destruct Hall as [Hhead Hrest]. cbn [dict_lookup].
  destruct (pystr_eqb k k') eqn:E; [| exact (IH Hrest)].
  apply pystr_eqb_eq in E. subst k'. exfalso. apply Hk.
  apply existsb_exists in Hhead. destruct Hhead as [x [Hx Hxk]].
  apply pystr_eqb_eq in Hxk. now subst x.
Qed.

Lemma bind_ok {A B} (r : result A) (k : A -> result B) (b : B) :
  bind r k = Ok b -> exists a, r = Ok a /\ k a = Ok b.
Proof.
  destruct r as [a | e]; simpl; intros H; [eauto | discriminate].
Qed.

(** C1. When the model's answer holds no fenced block and no brace-delimited
    substring, and [json.loads] refuses the whole text, [analyze_issue]
    returns the fixed values of the parse fallback: complexity 0.5, difficulty
    "intermediate", confidence 0.5, empty skill list, empty breakdown map and
    empty list of learning opportunities (for an issue whose prompt is built
    and that has an id, as every call that reaches the model has). *)
Theorem analyze_issue_without_json
    (create : prompt -> completion) (issue : dict)
    (readme contributing text : pystr) (p : prompt) (id : pyval) (e : exn)
    (Hprompt : _build_issue_analysis_prompt issue readme contributing = Ok p)
    (Hid : dict_lookup (py "id") issue = Some id)
    (Hanswer : create p = Completion (Some text))
    (Hfence : Re.re_search Re.fenced_json text = None)
    (Hbrace : Re.re_search Re.braces text = None)
    (Hjson : Json.loads text = Raise e) :
  analyze_issue create issue readme contributing = Ok (unparsed_record id).
Proof.
  unfold analyze_issue. rewrite Hprompt. simpl bind.
  unfold analyze_issue_try. rewrite Hanswer.
  unfold _parse_analysis_response, json_str.
  rewrite Hfence, Hbrace, Hjson.
  unfold dict_item. rewrite Hid. reflexivity.
Qed.

Lemma analyze_issue_without_json_witness :
  analyze_issue (Samples.answers Samples.plain_answer) Samples.issue [] []
  = Ok (unparsed_record (PInt 1001)).
Proof.
  eapply (@analyze_issue_without_json
            (Samples.answers Samples.plain_answer) Samples.issue [] []
            Samples.plain_answer _ (PInt 1001) JSONDecodeError);
    reflexivity.
Defined.

(** C3 at an issue the tracker really returns (empty description, so [body]
    is [null]): whatever the model transport does, [analyze_issue] raises a
    [TypeError], because the prompt is built before the [try] and
    [issue.get('body', ...)[:1000]] subscripts [None]. *)
Theorem analyze_issue_raises_on_null_body
    (create : prompt -> completion) (readme contributing : pystr) :
  analyze_issue create Samples.issue_null_body readme contributing
  = Raise TypeError.
Proof. reflexivity. Qed.

(** The same for the labels of a raw API issue: [', '.join] refuses the label
    objects. *)
Lemma analyze_issue_raises_on_api_labels
    (create : prompt -> completion) (readme contributing : pystr) :
  analyze_issue create Samples.issue_api_labels readme contributing
  = Raise TypeError.
Proof. reflexivity. Qed.

(** For an issue without [id] the handler itself raises: every path reads
    [issue['id']]. *)
Lemma analyze_issue_raises_without_id
    (create : prompt -> completion) (readme contributing : pystr) :
  analyze_issue create Samples.issue_without_id readme contributing
  = Raise KeyError.
Proof.
  unfold analyze_issue.
  change (_build_issue_analysis_prompt Samples.issue_without_id readme
                                       contributing)
    with (Ok {| prompt_title := PStr (py "Update the changelog");
                prompt_body := PStr (firstn 1000 (py "The changelog misses the last release."));
                prompt_labels := [];
                prompt_created_at := PNone;
                prompt_comments := PInt 0;
                prompt_readme := firstn 500 readme;
                prompt_contributing :=
                  match contributing with
                  | [] => py "无贡献指南"
                  | _ :: _ => firstn 500 contributing
                  end |}).
  simpl bind. unfold analyze_issue_try.
  match goal with |- context [create ?p] => destruct (create p) end;
    reflexivity.
Qed.

(** Once the prompt is built and the issue has an id, nothing the transport
    or the parser does leaves [analyze_issue] as an exception. *)
Lemma analyze_issue_absorbs_failures
    (create : prompt -> completion) (issue : dict)
    (readme contributing : pystr) (p : prompt) (id : pyval)
    (Hprompt : _build_issue_analysis_prompt issue readme contributing = Ok p)
    (Hid : dict_lookup (py "id") issue = Some id) :
  exists a, analyze_issue create issue readme contributing = Ok a.
Proof.
  unfold analyze_issue. rewrite Hprompt. simpl bind.
  destruct (analyze_issue_try create issue p) as [a | e]; [eauto |].
  unfold _get_default_analysis, dict_item. rewrite Hid. simpl. eauto.
Qed.

Lemma supplied_ok_get (check : pyval -> bool) (k : pystr) (default : pyval)
    (d : dict) :
  supplied_ok check k d = true -> check default = true ->
  check (dict_get k default d) = true.
Proof.
  unfold supplied_ok, dict_get. destruct (dict_lookup k d); auto.
Qed.

Lemma default_analysis_valid (issue : dict) (a : IssueAnalysis) :
  _get_default_analysis issue = Ok a -> valid_analysis a = true.
Proof.
  unfold _get_default_analysis. intros H.
  apply bind_ok in H as [id [_ H]]. injection H as <-. reflexivity.
Qed.

(** What [analyze_issue_try] returns on a parsed object: the object's values
    under the three constrained keys, or the fallbacks of the [get] calls. *)
Lemma analyze_issue_try_object
    (create : prompt -> completion) (issue : dict) (p : prompt)
    (content : option pystr) (d : dict) (a : IssueAnalysis) :
  create p = Completion content ->
  _parse_analysis_response content = PDict d ->
  analyze_issue_try create issue p = Ok a ->
  complexity_score a = dict_get (py "complexity_score") (PFloat 5 (-1)) d
  /\ confidence_score a = dict_get (py "confidence_score") (PFloat 8 (-1)) d
  /\ difficulty_level a
     = dict_get (py "difficulty_level") (PStr (py "intermediate")) d.
Proof.
  intros Hc Hp. unfold analyze_issue_try. rewrite Hc, Hp.
  destruct (dict_item (py "id") issue); simpl; [| discriminate].
  intros H. injection H as <-. simpl. auto.
Qed.

Lemma analyze_issue_try_fails_without_id
    (create : prompt -> completion) (issue : dict) (p : prompt)
    (content : option pystr) (d : dict) (e : exn) :
  create p = Completion content ->
  _parse_analysis_response content = PDict d ->
  analyze_issue_try create issue p = Raise e ->
  _get_default_analysis issue = Raise KeyError.
Proof.
  intros Hc Hp. unfold analyze_issue_try, _get_default_analysis.
  rewrite Hc, Hp. unfold dict_item.
  destruct (dict_lookup (py "id") issue); simpl; [discriminate | reflexivity].
Qed.

(** C4 (as the code has it). A record returned by [analyze_issue] satisfies
    the invariant of the data model (both scores in [0, 1], difficulty one of
    the three tiers) whenever the values the parsed answer supplies for
    [complexity_score], [confidence_score] and [difficulty_level], if any,
    satisfy it: every fallback of the code does.  A supplied value is stored
    as it is; nothing is substituted for a value out of range. *)
Theorem analyze_issue_valid_unless_supplied
    (create : prompt -> completion) (issue : dict)
    (readme contributing : pystr) (a : IssueAnalysis)
    (Hreturn : analyze_issue create issue readme contributing = Ok a) :
  ((forall p content d,
       _build_issue_analysis_prompt issue readme contributing = Ok p ->
       create p = Completion content ->
       _parse_analysis_response content = PDict d ->
       supplied_valid d = true) ->
   valid_analysis a = true)
  /\
  (forall p content d,
      _build_issue_analysis_prompt issue readme contributing = Ok p ->
      create p = Completion content ->
      _parse_analysis_response content = PDict d ->
      complexity_score a = dict_get (py "complexity_score") (PFloat 5 (-1)) d
      /\ confidence_score a = dict_get (py "confidence_score") (PFloat 8 (-1)) d
      /\ difficulty_level a
         = dict_get (py "difficulty_level") (PStr (py "intermediate")) d).
Proof.
  unfold analyze_issue in Hreturn.
  apply bind_ok in Hreturn as [p [Hp Hreturn]].
  split.
  - intros Hsupplied.
    destruct (analyze_issue_try create issue p) as [a' | e] eqn:Htry;
      [| now apply default_analysis_valid with issue].
    injection Hreturn as <-.
    destruct (create p) as [e | content] eqn:Hc;
      [unfold analyze_issue_try in Htry; rewrite Hc in Htry; discriminate |].
    destruct (_parse_analysis_response content) as [| | | | | | | | d] eqn:Hparse;
      try (unfold analyze_issue_try in Htry; rewrite Hc, Hparse in Htry;
           destruct (dict_item (py "id") issue); discriminate).
    destruct (analyze_issue_try_object create issue p Hc Hparse Htry)
      as [Hcs [Hcf Hdl]].
    specialize (Hsupplied p content d Hp Hc Hparse).
    unfold supplied_valid in Hsupplied.
    apply andb_prop in Hsupplied as [Hsupplied H3].
    apply andb_prop in Hsupplied as [H1 H2].
    unfold valid_analysis. rewrite Hcs, Hcf, Hdl.
    rewrite (supplied_ok_get _ _ _ _ H1), (supplied_ok_get _ _ _ _ H2),
            (supplied_ok_get _ _ _ _ H3); reflexivity.
  - intros p' content d Hp' Hc Hparse.
    assert (p' = p) as -> by congruence.
    destruct (analyze_issue_try create issue p) as [a' | e] eqn:Htry.
    + injection Hreturn as <-.
      exact (analyze_issue_try_object create issue p Hc Hparse Htry).
    + rewrite (analyze_issue_try_fails_without_id create issue p Hc Hparse Htry)
        in Hreturn.
      discriminate.
Qed.

Lemma analyze_issue_valid_unless_supplied_witness :
  exists a,
    analyze_issue (Samples.answers Samples.fenced_answer) Samples.issue [] []
    = Ok a
    /\ valid_analysis a = true.
Proof.
  eexists. split; [reflexivity |].
  refine (proj1 (@analyze_issue_valid_unless_supplied
                   (Samples.answers Samples.fenced_answer) Samples.issue [] []
                   _ eq_refl) _).
  intros p content d _ Hc Hparse.
  injection Hc as <-.
  vm_compute in Hparse. injection Hparse as <-. reflexivity.
Defined.

(** C4 as stated fails: an answer that gives complexity 7, confidence 1.5 and
    the difficulty "expert" is stored as it is, and the record breaks the
    invariant. *)
Lemma analyze_issue_out_of_range :
  exists a,
    analyze_issue (Samples.answers Samples.out_of_range_answer)
                  Samples.issue [] [] = Ok a
    /\ complexity_score a = PInt 7
    /\ difficulty_level a = PStr (py "expert")
    /\ valid_analysis a = false.
Proof.
  eexists. split; [vm_compute; reflexivity |].
  repeat split; reflexivity.
Qed.

(* ================================================================== *)
(** * Properties of the issue listing *)
(* ================================================================== *)

Local Open Scope nat_scope.

Section Pagination.

Variable datetime : Type.
Variable fromisoformat : pystr -> option datetime.
Variable request : nat -> result (list pyval).
Variable per_page : Z.

Local Abbreviation collect := (GitHub.collect fromisoformat).
Local Abbreviation get_issues_loop := (GitHub.get_issues_loop fromisoformat request per_page).
Local Abbreviation page_converts := (GitHub.page_converts fromisoformat).
Local Abbreviation full_page := (GitHub.full_page fromisoformat request per_page).
Local Abbreviation short_page := (GitHub.short_page request per_page).

Lemma collect_converts (data : list pyval) :
  page_converts data = true ->
  forall issues, snd (collect data issues) = None.
Proof.
  induction data as [| item data IH]; simpl; intros H issues; [reflexivity |].
  apply andb_prop in H as [Hitem Hdata].
  unfold GitHub.item_converts in Hitem.
  destruct (GitHub.value_contains (py "pull_request") item) as [[|] | e];
    try discriminate.
  - now apply IH.
  - destruct (GitHub.from_api_response fromisoformat item);
      [now apply IH | discriminate].
Qed.

Lemma get_issues_loop_short (fuel page : nat)
    (issues : list (GitHub.GitHubIssue datetime)) (log : list nat) :
  short_page page ->
  exists issues',
    get_issues_loop (S fuel) page issues log = Some (issues', log ++ [page]).
Proof.
  intros [data [Hreq Hlen]]. simpl. rewrite Hreq.
  destruct data as [| item data]; [eauto |].
  destruct (collect (item :: data) issues) as [issues' [e |]]; [eauto |].
  apply Z.ltb_lt in Hlen. rewrite Hlen. eauto.
Qed.

Lemma get_issues_loop_full (fuel page : nat)
    (issues : list (GitHub.GitHubIssue datetime)) (log : list nat) :
  (0 < per_page)%Z ->
  full_page page ->
  exists issues',
    get_issues_loop (S fuel) page issues log
    = get_issues_loop fuel (S page) issues' (log ++ [page]).
Proof.
  intros Hpos [data [Hreq [Hlen Hconv]]]. simpl. rewrite Hreq.
  destruct data as [| item data]; [simpl in Hlen; lia |].
  pose proof (collect_converts _ Hconv issues) as Hc.
  destruct (collect (item :: data) issues) as [issues' o].
  simpl in Hc. subst o.
  apply Z.ltb_ge in Hlen. rewrite Hlen. eauto.
Qed.

Lemma get_issues_loop_stops (n : nat) :
  (0 < per_page)%Z ->
  forall fuel page issues log,
    (forall j, j < n -> full_page (page + j)) ->
    short_page (page + n) ->
    n < fuel ->
    exists issues',
      get_issues_loop fuel page issues log
      = Some (issues', log ++ seq page (S n)).
Proof.
  intros Hpos. induction n as [| n IH]; intros fuel page issues log Hfull Hshort Hfuel.
  - destruct fuel as [| fuel]; [lia |].
    rewrite Nat.add_0_r in Hshort.
    exact (@get_issues_loop_short fuel page issues log Hshort).
  - destruct fuel as [| fuel]; [lia |].
    destruct (@get_issues_loop_full fuel page issues log Hpos)
      as [issues' Hstep].
    { rewrite <- (Nat.add_0_r page). apply Hfull. lia. }
    rewrite Hstep.
    destruct (IH fuel (S page) issues' (log ++ [page])) as [issues'' Hrest].
    + intros j Hj. replace (S page + j) with (page + S j) by lia.
      apply Hfull. lia.
    + replace (S page + n) with (page + S n) by lia. exact Hshort.
    + lia.
    + exists issues''. rewrite Hrest. rewrite <- app_assoc. reflexivity.
Qed.

End Pagination.

(** C5. When the pages before page [k] come back full (at least [per_page]
    raw items each, pull requests counted) and page [k] comes back with fewer
    than [per_page] raw items, [get_issues] requests exactly the pages
    1, ..., [k], in this order: it goes on after every full page, stops at the
    short one and requests no page after it. *)
Theorem get_issues_stops_at_first_short_page
    (datetime : Type) (fromisoformat : pystr -> option datetime)
    (request : nat -> result (list pyval)) (per_page : Z) (k fuel : nat)
    (Hsize : (0 < per_page)%Z)
    (Hk : 1 <= k)
    (Hfull : forall page, 1 <= page < k ->
                          GitHub.full_page fromisoformat request per_page page)
    (Hshort : GitHub.short_page request per_page k)
    (Hfuel : k <= fuel) :
  exists issues,
    GitHub.get_issues fromisoformat request per_page fuel
    = Some (issues, seq 1 k).
Proof.
  unfold GitHub.get_issues.
  destruct k as [| n]; [lia |].
  destruct (@get_issues_loop_stops datetime fromisoformat request per_page n
              Hsize fuel 1 [] []) as [issues H].
  - intros j Hj. apply Hfull. lia.
  - exact Hshort.
  - lia.
  - exists issues. exact H.
Qed.

Lemma get_issues_stops_at_first_short_page_witness :
  exists issues,
    GitHub.get_issues Samples.iso Samples.pages 2 5 = Some (issues, [1; 2]).
Proof.
  apply (@get_issues_stops_at_first_short_page
           pystr Samples.iso Samples.pages 2%Z 2 5).
  - reflexivity.
  - lia.
  - intros page Hpage. assert (page = 1) as -> by lia.
    exists [Samples.api_issue 1; Samples.api_pull 2].
    split; [reflexivity | split; [discriminate | reflexivity]].
  - exists [Samples.api_issue 3]. split; reflexivity.
  - lia.
Defined.

(* ================================================================== *)
(** * Properties of the notification sender *)
(* ================================================================== *)

Import Feishu.

Lemma get_access_token_posts (w : world) (c : client) :
  existsb is_message_post (snd (_get_access_token w c)) = false.
Proof.
  unfold _get_access_token.
  destruct (truthy (access_token c) && before (now w) (token_expire_time c));
    [reflexivity |].
  destruct (negb (nonempty (app_id c)) || negb (nonempty (app_secret c)));
    [reflexivity |].
  destruct (exchange w c) as [[t | e] c']; reflexivity.
Qed.

Lemma prefix_oc_not_ou (rid : pystr) :
  startswith (py "oc_") rid = true -> startswith (py "ou_") rid = false.
Proof.
  change (py "oc_") with [111; 99; 95]%N.
  change (py "ou_") with [111; 117; 95]%N.
  destruct rid as [| a [| b rid]]; cbn [startswith]; intros H.
  - discriminate H.
  - apply andb_prop in H as [_ H]. discriminate H.
  - apply andb_prop in H as [Ha H]. apply andb_prop in H as [Hb _].
    apply N.eqb_eq in Hb. subst b. rewrite Ha. reflexivity.
Qed.

Lemma post_message_sent (w : world) (token : pyval) (rid mtype : pystr)
    (body : pyval) (rid_type : pystr) (m : message) :
  In (MessagePost m) (snd (post_message w token (Some rid) mtype body rid_type)) ->
  m = {| receive_id_type :=
           (if startswith (py "ou_") rid then py "open_id"
            else if startswith (py "oc_") rid then py "chat_id"
            else rid_type);
         bearer := token; receive_id := rid; msg_type := mtype;
         content := body |}.
Proof.
  unfold post_message.
  set (m0 := {| receive_id_type := _ |}).
  assert (forall posts : bool * list post,
             snd posts = [MessagePost m0] ->
             In (MessagePost m) (snd posts) -> m = m0) as Hone.
  { intros posts -> [H | []]. now injection H. }
  apply Hone.
  destruct (message_endpoint w m0) as [resp | e]; [| reflexivity].
  destruct (negb (status_code resp =? 200)%Z); [reflexivity |].
  destruct (json resp) as [result | e]; [| reflexivity].
  destruct (value_get (py "code") PNone result); reflexivity.
Qed.

(** C6. Every message [send_api_message] posts for a recipient id that begins
    with "ou_" carries the recipient type "open_id", and for one that begins
    with "oc_" the type "chat_id", whatever [receive_id_type] the caller
    passed. *)
Theorem send_api_message_recipient_type
    (w : world) (c : client) (rid mtype : pystr) (body : pyval)
    (rid_type : pystr) (ok : bool) (c' : client) (posts : list post)
    (m : message)
    (Hsend : send_api_message w c (Some rid) mtype body rid_type = (ok, c', posts))
    (Hposted : In (MessagePost m) posts) :
  receive_id m = rid
  /\ (startswith (py "ou_") rid = true -> receive_id_type m = py "open_id")
  /\ (startswith (py "oc_") rid = true -> receive_id_type m = py "chat_id").
Proof.
  unfold send_api_message in Hsend.
  pose proof (get_access_token_posts w c) as Hnone.
  destruct (_get_access_token w c) as [[token c1] posts1]. simpl in Hnone.
  assert (~ In (MessagePost m) posts1) as Hnot.
  { intros Hin. rewrite <- not_true_iff_false in Hnone. apply Hnone.
    apply existsb_exists. exists (MessagePost m). auto. }
  destruct (negb (truthy token)).
  - injection Hsend as _ _ <-. contradiction.
  - pose proof (@post_message_sent w token rid mtype body rid_type m) as Hsent.
    destruct (post_message w token (Some rid) mtype body rid_type)
      as [ok1 sent].
    injection Hsend as _ _ <-.
    apply in_app_or in Hposted as [Hin | Hin]; [contradiction |].
    rewrite (Hsent Hin). cbn [receive_id receive_id_type].
    split; [reflexivity | split].
    + intros Hou. rewrite Hou. reflexivity.
    + intros Hoc. rewrite (prefix_oc_not_ou _ Hoc), Hoc. reflexivity.
Qed.

Lemma send_api_message_recipient_type_witness :
  exists ok c' posts m,
    send_api_message Samples.chat_world Samples.chat_client
      (Some (py "ou_7d8a6e")) (py "interactive") (PDict []) (py "user_id")
    = (ok, c', posts)
    /\ In (MessagePost m) posts
    /\ receive_id_type m = py "open_id".
Proof.
  do 4 eexists. split; [vm_compute; reflexivity |].
  split; [right; left; reflexivity |].
  refine (proj1 (proj2 (@send_api_message_recipient_type
                          Samples.chat_world Samples.chat_client
                          (py "ou_7d8a6e") (py "interactive") (PDict [])
                          (py "user_id") _ _ _ _ _ _)) eq_refl).
  - vm_compute. reflexivity.
  - right. left. reflexivity.
Defined.

(** With a token and a recipient id the message is posted, last. *)
Lemma post_message_posts (w : world) (token : pyval) (rid mtype : pystr)
    (body : pyval) (rid_type : pystr) :
  exists m,
    snd (post_message w token (Some rid) mtype body rid_type) = [MessagePost m].
Proof.
  unfold post_message. eexists.
  match goal with |- context [message_endpoint w ?m] =>
    destruct (message_endpoint w m) as [resp | e] end; [| reflexivity].
  destruct (negb (status_code resp =? 200)%Z); [reflexivity |].
  destruct (json resp) as [result | e]; [| reflexivity].
  destruct (value_get (py "code") PNone result); reflexivity.
Qed.

Lemma exchange_credentials (w : world) (c : client) :
  app_id (snd (exchange w c)) = app_id c
  /\ app_secret (snd (exchange w c)) = app_secret c.
Proof.
  unfold exchange.
  destruct (token_endpoint w (app_id c) (app_secret c)) as [result | e]; [| auto].
  destruct (value_get (py "code") PNone result) as [code | e]; [| auto].
  destruct (equals_zero code); [| auto].
  destruct (value_get (py "tenant_access_token") PNone result) as [t | e]; [| auto].
  destruct (value_get (py "expire") (PInt 3600) result) as [ex | e]; [| auto].
  destruct (expiry (now_refresh w) ex); auto.
Qed.

(** A cached token was obtained with both credentials. *)
Lemma reachable_token_has_credentials (c : client) :
  reachable c ->
  truthy (access_token c) = true ->
  nonempty (app_id c) = true /\ nonempty (app_secret c) = true.
Proof.
  induction 1 as [webhook app secret user | w c Hc IH]; [discriminate |].
  unfold _get_access_token.
  destruct (truthy (access_token c) && before (now w) (token_expire_time c))
    eqn:Hlive.
  - simpl. exact IH.
  - destruct (negb (nonempty (app_id c)) || negb (nonempty (app_secret c)))
      eqn:Hcred; [exact IH |].
    apply orb_false_elim in Hcred as [Hid Hsecret].
    apply negb_false_iff in Hid, Hsecret.
    destruct (exchange_credentials w c) as [Ea Es].
    destruct (exchange w c) as [[t | e] c1]; simpl in *;
      intros _; rewrite Ea, Es; auto.
Qed.

Lemma exchange_fails_no_token (w : world) (c : client) :
  exchange_fails w c ->
  match fst (exchange w c) with
  | Ok t => truthy t = false
  | Raise _ => True
  end.
Proof.
  unfold exchange_fails, exchange.
  destruct (token_endpoint w (app_id c) (app_secret c)) as [result | e];
    [| trivial].
  destruct (value_get (py "code") PNone result) as [code | e]; [| trivial].
  intros ->. reflexivity.
Qed.

(** C10. [send_api_message] returns [False] and posts nothing to the
    messaging endpoint when no access token can be had: [app_id] or
    [app_secret] is empty, or no unexpired token is cached and the token
    exchange fails. *)
Theorem send_api_message_without_token
    (w : world) (c : client) (rid : option pystr) (mtype : pystr)
    (body : pyval) (rid_type : pystr)
    (Hreach : reachable c)
    (Hnone : credentials_absent c \/ (no_live_token w c /\ exchange_fails w c)) :
  fst (fst (send_api_message w c rid mtype body rid_type)) = false
  /\ existsb is_message_post
       (snd (send_api_message w c rid mtype body rid_type)) = false.
Proof.
  assert (no_live_token w c) as Hdead.
  { destruct Hnone as [Habsent | [H _]]; [| exact H].
    unfold no_live_token.
    destruct (truthy (access_token c)) eqn:Ht; [| reflexivity].
    destruct (reachable_token_has_credentials Hreach Ht) as [Ha Hs].
    destruct Habsent as [E | E]; rewrite E in *; discriminate. }
  unfold send_api_message, _get_access_token.
  unfold no_live_token in Hdead. rewrite Hdead.
  destruct (negb (nonempty (app_id c)) || negb (nonempty (app_secret c)))
    eqn:Hcred; [split; reflexivity |].
  destruct Hnone as [[E | E] | [_ Hfail]];
    try (rewrite E in Hcred; simpl in Hcred;
         rewrite ?orb_true_r in Hcred; discriminate).
  apply exchange_fails_no_token in Hfail.
  destruct (exchange w c) as [[t | e] c1]; simpl in Hfail.
  - rewrite Hfail. split; reflexivity.
  - split; reflexivity.
Qed.

Lemma send_api_message_without_token_witness :
  fst (fst (send_api_message Samples.refusing_world Samples.chat_client
              (Some (py "ou_7d8a6e")) (py "interactive") (PDict [])
              (py "open_id"))) = false
  /\ existsb is_message_post
       (snd (send_api_message Samples.refusing_world Samples.chat_client
               (Some (py "ou_7d8a6e")) (py "interactive") (PDict [])
               (py "open_id"))) = false.
Proof.
  apply send_api_message_without_token.
  - apply reachable_init.
  - right. split; reflexivity.
Defined.

(** C8 at four recommendations, which both callers can pass (they cap the
    list at five): the card has the four text blocks, with a divider after
    the first and after the second only; the third and the fourth block follow
    each other without a divider, because the test for the last block uses
    [len(recommendations[:3])] while the loop runs over [recommendations[:5]]. *)
Theorem build_daily_summary_four_recommendations
    (str : pyval -> pystr) (now_text : pystr) :
  exists c,
    build_daily_summary str now_text [Samples.druid] (PInt 4)
                        Samples.four_recommendations = Ok c
    /\ map tag (elements c)
       = [ py "div"; py "hr";
           py "div"; py "hr"; py "div"; py "hr"; py "div"; py "div";
           py "hr"; py "note" ].
Proof.
  eexists. split; [vm_compute; reflexivity | vm_compute; reflexivity].
Qed.

Lemma render_items_divs (str : pyval -> pystr) (bound : Z)
    (recs : list pyval) :
  forall i es,
    render_items str bound i recs = Ok es -> count_divs es = length recs.
Proof.
  unfold count_divs.
  induction recs as [| rec recs IH]; intros i es H; simpl in H.
  - injection H as <-. reflexivity.
  - apply bind_ok in H as [md [_ H]].
    apply bind_ok in H as [rest [Hrest H]].
    injection H as <-. simpl. f_equal.
    rewrite filter_app.
    destruct (Z.of_nat i <? bound)%Z; simpl; eauto.
Qed.

(** The card never holds more than five recommendation blocks (next to the
    block of the head). *)
Lemma build_daily_summary_at_most_five
    (str : pyval -> pystr) (now_text : pystr) (projects : list pyval)
    (issues_found : pyval) (recommendations : list pyval) (c : card) :
  build_daily_summary str now_text projects issues_found recommendations = Ok c ->
  count_divs (elements c) = 1 + Nat.min 5 (length recommendations).
Proof.
  unfold build_daily_summary. intros H.
  apply bind_ok in H as [lines [_ H]].
  apply bind_ok in H as [items [Hitems H]].
  injection H as <-. cbn [elements].
  apply render_items_divs in Hitems. rewrite length_firstn in Hitems.
  unfold count_divs in *. simpl. f_equal.
  rewrite filter_app. simpl. rewrite app_nil_r. exact Hitems.
Qed.

(* ================================================================== *)
(** * Properties of the catalog search *)
(* ================================================================== *)

Import Orchestrator.

Section SearchProperties.

Variable lower : pystr -> pystr.
Variable request : SearchRequest.

Lemma filtered_projects_selected (projects : list pyval) :
  forall filtered,
    filtered_projects lower request projects = Ok filtered ->
    filtered = filter (selected lower request) projects.
Proof.
  induction projects as [| project rest IH]; intros filtered H; simpl in H.
  - now injection H as <-.
  - apply bind_ok in H as [mk [Hmk H]].
    apply bind_ok in H as [me [Hme H]].
    apply bind_ok in H as [tail [Htail H]].
    injection H as <-. simpl.
    unfold selected at 1, experience_ok. rewrite Hmk, Hme.
    rewrite (IH tail Htail). reflexivity.
Qed.

End SearchProperties.

(** C7. A project of the catalog whose [beginner_friendly] is [false] and
    which passes the keyword test is left out of [filtered_projects] when the
    experience level is "beginner" and is in it when the level is "advanced". *)
Theorem filtered_projects_not_beginner_friendly
    (lower : pystr -> pystr) (request : SearchRequest)
    (projects filtered : list pyval) (project : pyval) (d : dict)
    (Hfilter : filtered_projects lower request projects = Ok filtered)
    (Hin : In project projects)
    (Hdict : project = PDict d)
    (Hflag : dict_lookup (py "beginner_friendly") d = Some (PBool false))
    (Hkeyword : matches_keyword lower request project = Ok true) :
  (experience_level request = py "beginner" -> ~ In project filtered)
  /\ (experience_level request = py "advanced" -> In project filtered).
Proof.
  rewrite (filtered_projects_selected _ _ _ Hfilter).
  assert (forall level, experience_level request = level ->
            selected lower request project
            = match matches_experience
                      {| keywords := keywords request;
                         experience_level := level;
                         max_issues := max_issues request |} project with
              | Ok v => truthy v
              | Raise _ => false
              end) as Hsel.
  { intros level <-. unfold selected, experience_ok. rewrite Hkeyword.
    destruct request; reflexivity. }
  split; intros Hlevel; rewrite filter_In, (Hsel _ Hlevel); subst project;
    unfold matches_experience, value_get, dict_get; cbn [experience_level];
    rewrite ?Hflag.
  - intros [_ H]. vm_compute in H. discriminate H.
  - split; [exact Hin | vm_compute; reflexivity].
Qed.

Lemma filtered_projects_not_beginner_friendly_witness :
  (~ In Samples.spark
       (filter (selected Samples.ascii_lower
                  (Samples.search (py "beginner") [py "Spark"]))
               [Samples.spark; Samples.superset]))
  /\ In Samples.spark
        (filter (selected Samples.ascii_lower
                   (Samples.search (py "advanced") [py "Spark"]))
                [Samples.spark; Samples.superset]).
Proof.
  split.
  - refine (proj1 (@filtered_projects_not_beginner_friendly
                     Samples.ascii_lower
                     (Samples.search (py "beginner") [py "Spark"])
                     [Samples.spark; Samples.superset] _ Samples.spark _
                     _ _ eq_refl _ _) eq_refl);
      [vm_compute; reflexivity | left; reflexivity
       | vm_compute; reflexivity | vm_compute; reflexivity].
  - refine (proj2 (@filtered_projects_not_beginner_friendly
                     Samples.ascii_lower
                     (Samples.search (py "advanced") [py "Spark"])
                     [Samples.spark; Samples.superset] _ Samples.spark _
                     _ _ eq_refl _ _) eq_refl);
      [vm_compute; reflexivity | left; reflexivity
       | vm_compute; reflexivity | vm_compute; reflexivity].
Defined.

(** C9. With an empty keyword list every project passes the keyword test,
    and [filtered_projects] holds exactly the projects of the catalog that
    pass the experience test, in catalog order. *)
Theorem filtered_projects_without_keywords
    (lower : pystr -> pystr) (request : SearchRequest)
    (Hnone : keywords request = []) :
  (forall project, matches_keyword lower request project = Ok true)
  /\ (forall projects filtered,
         filtered_projects lower request projects = Ok filtered ->
         filtered = filter (experience_ok request) projects).
Proof.
  assert (forall project, matches_keyword lower request project = Ok true)
    as Hall.
  { intros project. unfold matches_keyword. rewrite Hnone. reflexivity. }
  split; [exact Hall |].
  intros projects filtered H.
  rewrite (filtered_projects_selected _ _ _ H).
  apply filter_ext. intros project. unfold selected. rewrite Hall. reflexivity.
Qed.

Lemma filtered_projects_without_keywords_witness :
  matches_keyword Samples.ascii_lower (Samples.search (py "beginner") [])
                  Samples.spark = Ok true
  /\ [Samples.superset]
     = filter (experience_ok (Samples.search (py "beginner") []))
              [Samples.spark; Samples.superset].
Proof.
  destruct (@filtered_projects_without_keywords
              Samples.ascii_lower (Samples.search (py "beginner") []) eq_refl)
    as [Hall Hfiltered].
  split.
  - apply Hall.
  - apply Hfiltered. vm_compute. reflexivity.
Defined.

(* ================================================================== *)
(** * Further properties of the analyzer *)
(* ================================================================== *)

Lemma get_default_analysis_record (issue : dict) (id : pyval) :
  dict_lookup (py "id") issue = Some id ->
  _get_default_analysis issue = Ok (default_record id).
Proof.
  intros Hid. unfold _get_default_analysis, dict_item. rewrite Hid. reflexivity.
Qed.

(** X1. When the guarded part of [analyze_issue] raises, because the
    transport fails or because the answer parses to JSON that is no object
    (a list, a number, a string, [null]), the record is the one of
    [_get_default_analysis]: skills "Git" and "项目相关语言", estimated time
    "1-3天", two learning opportunities; not the empty lists of the parse
    fallback. *)
Theorem analyze_issue_handler_record
    (create : prompt -> completion) (issue : dict)
    (readme contributing : pystr) (p : prompt) (id : pyval)
    (Hprompt : _build_issue_analysis_prompt issue readme contributing = Ok p)
    (Hid : dict_lookup (py "id") issue = Some id)
    (Hraises :
       (exists e, create p = CompletionError e)
       \/ (exists content,
             create p = Completion content
             /\ forall d, _parse_analysis_response content <> PDict d)) :
  Analyzer.analyze_issue create issue readme contributing = Ok (default_record id).
Proof.
  unfold Analyzer.analyze_issue. rewrite Hprompt. simpl bind.
  rewrite (get_default_analysis_record _ Hid).
  unfold analyze_issue_try.
  destruct Hraises as [[e He] | [content [Hc Hnot]]].
  - rewrite He. reflexivity.
  - rewrite Hc. unfold dict_item. rewrite Hid. simpl bind.
    destruct (_parse_analysis_response content) as [| | | | | | | | d];
      try reflexivity.
    now destruct (Hnot d).
Qed.

Lemma analyze_issue_handler_record_witness :
  Analyzer.analyze_issue (Samples.answers Samples.list_answer) Samples.issue [] []
  = Ok (default_record (PInt 1001))
  /\ Analyzer.analyze_issue Samples.unreachable_model Samples.issue [] []
     = Ok (default_record (PInt 1001)).
Proof.
  split.
  - eapply (@analyze_issue_handler_record
              (Samples.answers Samples.list_answer) Samples.issue [] []
              _ (PInt 1001)); [reflexivity | reflexivity |].
    right. exists (Some Samples.list_answer). split; [reflexivity |].
    intros d H. vm_compute in H. discriminate H.
  - eapply (@analyze_issue_handler_record
              Samples.unreachable_model Samples.issue [] []
              _ (PInt 1001)); [reflexivity | reflexivity |].
    left. exists RequestException. reflexivity.
Defined.

(** X2. When the completion has no text ([message.content] is [None]),
    [analyze_issue] returns the values of the parse fallback, as for a text
    without JSON. *)
Theorem analyze_issue_without_content
    (create : prompt -> completion) (issue : dict)
    (readme contributing : pystr) (p : prompt) (id : pyval)
    (Hprompt : _build_issue_analysis_prompt issue readme contributing = Ok p)
    (Hid : dict_lookup (py "id") issue = Some id)
    (Hanswer : create p = Completion None) :
  Analyzer.analyze_issue create issue readme contributing = Ok (unparsed_record id).
Proof.
  unfold Analyzer.analyze_issue. rewrite Hprompt. simpl bind.
  unfold analyze_issue_try. rewrite Hanswer.
  unfold dict_item. rewrite Hid. reflexivity.
Qed.

Lemma analyze_issue_without_content_witness :
  Analyzer.analyze_issue (fun _ => Completion None) Samples.issue [] []
  = Ok (unparsed_record (PInt 1001)).
Proof.
  eapply (@analyze_issue_without_content
            (fun _ => Completion None) Samples.issue [] [] _ (PInt 1001));
    reflexivity.
Defined.

(** X3. An issue without the key [id] makes [analyze_issue] raise a
    [KeyError] whatever the transport does: the record is built from
    [issue['id']] inside the [try], and the handler reads it again. *)
Theorem analyze_issue_without_id
    (create : prompt -> completion) (issue : dict)
    (readme contributing : pystr) (p : prompt)
    (Hprompt : _build_issue_analysis_prompt issue readme contributing = Ok p)
    (Hid : dict_lookup (py "id") issue = None) :
  Analyzer.analyze_issue create issue readme contributing = Raise KeyError.
Proof.
  unfold Analyzer.analyze_issue. rewrite Hprompt. simpl bind.
  unfold analyze_issue_try, _get_default_analysis, dict_item. rewrite Hid.
  destruct (create p); reflexivity.
Qed.

Lemma analyze_issue_without_id_witness :
  Analyzer.analyze_issue (Samples.answers Samples.fenced_answer)
                Samples.issue_without_id [] [] = Raise KeyError.
Proof.
  eapply (@analyze_issue_without_id
            (Samples.answers Samples.fenced_answer)
            Samples.issue_without_id [] []); reflexivity.
Defined.

Lemma slice_to_any (n m : nat) (v w : pyval) :
  slice_to n v = Ok w -> exists w', slice_to m v = Ok w'.
Proof.
  destruct v; simpl; intros H; try discriminate H; eauto.
Qed.

(** The description of a built prompt is sliceable with every bound. *)
Lemma prompt_body_sliceable (issue : dict) (readme contributing : pystr)
    (p : prompt) (n : nat) :
  _build_issue_analysis_prompt issue readme contributing = Ok p ->
  exists b, slice_to n (dict_get (py "body") (PStr []) issue) = Ok b.
Proof.
  unfold _build_issue_analysis_prompt. intros H.
  apply bind_ok in H as [b [Hb _]].
  unfold dict_get in *.
  destruct (dict_lookup (py "body") issue) as [v |].
  - exact (@slice_to_any 1000 n _ _ Hb).
  - simpl. eauto.
Qed.

(** X4. [generate_contribution_plan] after a fallback analysis: when
    [analyze_issue] returned one of its two fallback records for an issue,
    the plan prompt for the same issue is built, so the call returns a plan;
    with a failing transport the plan is the fixed text "无法生成贡献计划". *)
Theorem generate_contribution_plan_after_fallback
    (create : prompt -> completion) (create_plan : plan_prompt -> completion)
    (now_iso : pystr) (issue : dict) (readme contributing : pystr)
    (a : IssueAnalysis) (id : pyval) (user_skills : list pystr)
    (Hanalysis : Analyzer.analyze_issue create issue readme contributing = Ok a)
    (Hfallback : a = default_record id \/ a = unparsed_record id) :
  exists p r,
    contribution_plan_prompt issue a user_skills = Ok p
    /\ generate_contribution_plan create_plan now_iso issue a user_skills = Ok r
    /\ generated_at r = now_iso
    /\ ((exists e, create_plan p = CompletionError e) ->
        plan r = PStr (py "无法生成贡献计划")).
Proof.
  unfold Analyzer.analyze_issue in Hanalysis.
  apply bind_ok in Hanalysis as [p0 [Hp0 _]].
  destruct (prompt_body_sliceable issue readme contributing 500 Hp0)
    as [b Hb].
  assert (exists skills solution,
             join_value (py ", ") (required_skills a) = Ok skills
             /\ slice_to 200 (solution_approach a) = Ok solution)
    as [skills [solution [Hskills Hsolution]]].
  { destruct Hfallback as [-> | ->]; do 2 eexists; split; reflexivity. }
  unfold generate_contribution_plan, contribution_plan_prompt.
  rewrite Hb, Hskills, Hsolution. simpl bind.
  eexists.
  match goal with |- context [create_plan ?q] =>
    destruct (create_plan q) as [e | [text |]] eqn:Hc end;
    eexists; (split; [reflexivity |]);
    rewrite Hc; (split; [reflexivity | split; [reflexivity |]]);
    intros [e' He']; try discriminate He'; reflexivity.
Qed.

Lemma generate_contribution_plan_after_fallback_witness :
  exists r,
    generate_contribution_plan Samples.unreachable_model (py "2024-05-01T08:00:00")
      Samples.issue (default_record (PInt 1001)) [py "Python"; py "SQL"] = Ok r
    /\ plan r = PStr (py "无法生成贡献计划").
Proof.
  destruct (@generate_contribution_plan_after_fallback
              Samples.unreachable_model Samples.unreachable_model
              (py "2024-05-01T08:00:00") Samples.issue [] []
              (default_record (PInt 1001)) (PInt 1001) [py "Python"; py "SQL"]
              eq_refl (or_introl eq_refl))
    as [p [r [Hp [Hr [_ Hfixed]]]]].
  exists r. split; [exact Hr |].
  apply Hfixed. exists RequestException. reflexivity.
Defined.

(** ** The brace pattern *)

Lemma match_here_star_cons (greedy : bool) (cls : char -> bool)
    (rest : list Re.atom) (x : char) (s : pystr) (cap : Re.capture) :
  Re.match_here (Re.Star greedy cls :: rest) (x :: s) cap
  = if greedy
    then match (if cls x
                then Re.match_here (Re.Star greedy cls :: rest) s (Re.push x cap)
                else None) with
         | Some g => Some g
         | None => Re.match_here rest (x :: s) cap
         end
    else match Re.match_here rest (x :: s) cap with
         | Some g => Some g
         | None =>
           if cls x
           then Re.match_here (Re.Star greedy cls :: rest) s (Re.push x cap)
           else None
         end.
Proof. reflexivity. Qed.

Lemma match_here_star_nil (greedy : bool) (cls : char -> bool)
    (rest : list Re.atom) (cap : Re.capture) :
  Re.match_here (Re.Star greedy cls :: rest) [] cap
  = Re.match_here rest [] cap.
Proof.
  destruct greedy; simpl; destruct (Re.match_here rest [] cap); reflexivity.
Qed.

(** The greedy [.*] followed by the closing brace, while group 1 is read:
    it stops at the last closing brace. *)
Lemma match_here_to_last_close (r : pystr) :
  forall acc,
    Re.match_here [Re.Star true Re.any_char; Re.Lit 125%N; Re.GroupClose]
                  r (Re.Reading acc)
    = option_map (fun m => rev acc ++ m) (upto_last_close r).
Proof.
  induction r as [| x r IH]; intros acc.
  - rewrite match_here_star_nil. reflexivity.
  - rewrite match_here_star_cons. cbn [Re.any_char Re.push].
    rewrite IH. cbn [upto_last_close].
    destruct (upto_last_close r) as [m |]; cbn [option_map].
    + cbn [rev]. rewrite <- app_assoc. reflexivity.
    + cbn [Re.match_here]. destruct (x =? 125)%N; reflexivity.
Qed.

Lemma match_here_braces (s : pystr) :
  Re.match_here Re.braces s Re.NotOpen
  = match s with
    | [] => None
    | c :: s' =>
      if (c =? 123)%N then option_map (cons c) (upto_last_close s') else None
    end.
Proof.
  unfold Re.braces. cbn [Re.match_here].
  destruct s as [| c s']; [reflexivity |].
  destruct (c =? 123)%N; [| reflexivity].
  cbn [Re.push].
  exact (match_here_to_last_close s' [c]).
Qed.

Lemma upto_last_close_tail (c : char) (s : pystr) :
  upto_last_close (c :: s) = None -> upto_last_close s = None.
Proof.
  cbn [upto_last_close]. destruct (upto_last_close s); [discriminate | reflexivity].
Qed.

Lemma re_search_braces_none (s : pystr) :
  upto_last_close s = None -> Re.re_search Re.braces s = None.
Proof.
  induction s as [| c s IH]; intros H; cbn [Re.re_search];
    rewrite match_here_braces; [reflexivity |].
  pose proof (upto_last_close_tail _ _ H) as Htail.
  rewrite Htail. cbn [option_map].
  destruct (c =? 123)%N; exact (IH Htail).
Qed.

Lemma re_search_braces (s : pystr) :
  Re.re_search Re.braces s = brace_span s.
Proof.
  induction s as [| c s IH]; cbn [Re.re_search brace_span];
    rewrite match_here_braces; [reflexivity |].
  destruct (c =? 123)%N; [| exact IH].
  destruct (upto_last_close s) as [m |] eqn:Hclose; cbn [option_map];
    [reflexivity |].
  exact (re_search_braces_none _ Hclose).
Qed.

(** X5. Without a fenced block, the text [_parse_analysis_response] hands to
    [json.loads] is the part of the answer from its first opening brace to
    its last closing brace (so two objects in one answer are taken as one
    text), and the whole answer when there is no such part. *)
Theorem json_str_brace_span (text : pystr)
    (Hfence : Re.re_search Re.fenced_json text = None) :
  json_str text = match brace_span text with
                  | Some g => g
                  | None => text
                  end.
Proof.
  unfold json_str. rewrite Hfence, re_search_braces. reflexivity.
Qed.

Lemma json_str_brace_span_witness :
  json_str Samples.two_objects_answer
  = py "{" ++ Samples.quoted (py "a") ++ py ": 1} and then {"
    ++ Samples.quoted (py "b") ++ py ": 2}".
Proof.
  rewrite (@json_str_brace_span Samples.two_objects_answer eq_refl).
  reflexivity.
Defined.

(** ** The fence pattern *)

Lemma match_here_lits (w : pystr) (rest : list Re.atom) :
  forall (s : pystr) (cap : Re.capture),
    (forall x, Re.push x cap = cap) ->
    Re.match_here (Re.lits w ++ rest) s cap
    = if startswith w s
      then Re.match_here rest (skipn (length w) s) cap
      else None.
Proof.
  induction w as [| c w IH]; intros s cap Hcap; [reflexivity |].
  cbn [Re.lits map app Re.match_here startswith length skipn].
  destruct s as [| x s]; [reflexivity |].
  rewrite (N.eqb_sym c x). destruct (x =? c)%N; [| reflexivity].
  rewrite Hcap. exact (IH s cap Hcap).
Qed.

Lemma space_is_no_backquote (x : char) :
  Re.is_space x = true -> (96 =? x)%N = false.
Proof.
  destruct (N.eqb_spec 96 x) as [<- |]; [discriminate | reflexivity].
Qed.

Lemma closes_cons (x : char) (s : pystr) :
  closes (x :: s)
  = if Re.is_space x then closes s else startswith (py "```") (x :: s).
Proof.
  unfold closes. cbn [strip_left]. destruct (Re.is_space x); reflexivity.
Qed.

(** The trailing [\s*] and the closing fence, once group 1 is complete. *)
Lemma match_here_closing (s : pystr) (g : pystr) :
  Re.match_here (Re.Star true Re.is_space :: Re.lits (py "```"))
                s (Re.Captured g)
  = if closes s then Some g else None.
Proof.
  assert (forall t, Re.match_here (Re.lits (py "```")) t (Re.Captured g)
                    = if startswith (py "```") t then Some g else None)
    as Hlits.
  { intros t.
    rewrite <- (app_nil_r (Re.lits (py "```"))).
    rewrite match_here_lits by reflexivity. reflexivity. }
  induction s as [| x s IH].
  - rewrite match_here_star_nil. apply Hlits.
  - rewrite match_here_star_cons, closes_cons. cbn [Re.push].
    destruct (Re.is_space x) eqn:Hx.
    + rewrite IH. destruct (closes s); [reflexivity |].
      rewrite Hlits.
      change (py "```") with [96; 96; 96]%N. cbn [startswith].
      rewrite (space_is_no_backquote _ Hx). reflexivity.
    + apply Hlits.
Qed.

Lemma match_here_group_close (rest : list Re.atom) (s : pystr)
    (cap : Re.capture) :
  Re.match_here (Re.GroupClose :: rest) s cap
  = Re.match_here rest s (Re.close cap).
Proof. reflexivity. Qed.

Lemma match_here_group_open (rest : list Re.atom) (s : pystr)
    (cap : Re.capture) :
  Re.match_here (Re.GroupOpen :: rest) s cap
  = Re.match_here rest s (Re.Reading []).
Proof. reflexivity. Qed.

(** The lazy [.*?] of group 1 and what follows it. *)
Lemma match_here_lazy (s : pystr) :
  forall acc,
    Re.match_here
      (Re.Star false Re.any_char :: Re.GroupClose
         :: Re.Star true Re.is_space :: Re.lits (py "```"))
      s (Re.Reading acc)
    = option_map (fun m => rev acc ++ m) (fenced_content s).
Proof.
  induction s as [| x s IH]; intros acc.
  - rewrite match_here_star_nil, match_here_group_close. cbn [Re.close].
    rewrite match_here_closing. cbn [fenced_content].
    destruct (closes []); cbn [option_map]; [now rewrite app_nil_r | reflexivity].
  - rewrite match_here_star_cons, match_here_group_close. cbn [Re.close].
    rewrite match_here_closing. cbn [fenced_content Re.any_char Re.push].
    destruct (closes (x :: s)); cbn [option_map]; [now rewrite app_nil_r |].
    rewrite IH.
    destruct (fenced_content s); cbn [option_map rev]; [| reflexivity].
    now rewrite <- app_assoc.
Qed.

Lemma strip_left_idempotent (s : pystr) :
  strip_left (strip_left s) = strip_left s.
Proof.
  induction s as [| x s IH]; [reflexivity |].
  cbn [strip_left]. destruct (Re.is_space x) eqn:Hx; [exact IH |].
  cbn [strip_left]. now rewrite Hx.
Qed.

Lemma fenced_content_closes (s : pystr) :
  fenced_content s = None -> closes s = false.
Proof.
  destruct s; cbn [fenced_content]; destruct (closes _); congruence.
Qed.

Lemma fenced_content_strip (s : pystr) :
  fenced_content (strip_left s) = None -> fenced_content s = None.
Proof.
  induction s as [| x s IH]; [trivial |].
  cbn [strip_left]. destruct (Re.is_space x) eqn:Hx; [| trivial].
  intros H. cbn [fenced_content]. rewrite closes_cons, Hx.
  pose proof (fenced_content_closes _ H) as Hc.
  unfold closes in Hc. rewrite strip_left_idempotent in Hc.
  fold (closes s) in Hc. rewrite Hc, (IH H). reflexivity.
Qed.

(** The leading [\s*], then group 1 and the rest. *)
Lemma match_here_after_fence (s : pystr) :
  Re.match_here
    (Re.Star true Re.is_space :: Re.GroupOpen :: Re.Star false Re.any_char
       :: Re.GroupClose :: Re.Star true Re.is_space :: Re.lits (py "```"))
    s Re.NotOpen
  = fenced_content (strip_left s).
Proof.
  assert (forall t,
             Re.match_here
               (Re.GroupOpen :: Re.Star false Re.any_char :: Re.GroupClose
                  :: Re.Star true Re.is_space :: Re.lits (py "```"))
               t Re.NotOpen
             = fenced_content t) as Hopen.
  { intros t. rewrite match_here_group_open, match_here_lazy.
    destruct (fenced_content t); reflexivity. }
  induction s as [| x s IH].
  - rewrite match_here_star_nil. apply Hopen.
  - rewrite match_here_star_cons. cbn [Re.push strip_left].
    destruct (Re.is_space x) eqn:Hx; [| apply Hopen].
    rewrite IH.
    destruct (fenced_content (strip_left s)) eqn:Hs; [reflexivity |].
    rewrite Hopen. cbn [fenced_content]. rewrite closes_cons, Hx.
    rewrite (fenced_content_closes _ (fenced_content_strip _ Hs)).
    now rewrite (fenced_content_strip _ Hs).
Qed.

Lemma match_here_fenced_json (s : pystr) :
  Re.match_here Re.fenced_json s Re.NotOpen
  = if startswith (py "```json") s
    then fenced_content (strip_left (skipn 7 s))
    else None.
Proof.
  unfold Re.fenced_json.
  rewrite match_here_lits by reflexivity.
  destruct (startswith (py "```json") s); [| reflexivity].
  exact (match_here_after_fence (skipn 7 s)).
Qed.

Lemma re_search_fenced_json (s : pystr) :
  Re.re_search Re.fenced_json s = fenced_span s.
Proof.
  induction s as [| c s IH]; cbn [Re.re_search fenced_span];
    rewrite match_here_fenced_json.
  - reflexivity.
  - rewrite IH. reflexivity.
Qed.

Lemma fenced_content_nil_closes (s : pystr) :
  fenced_content s = Some [] -> closes s = true.
Proof.
  destruct s as [| c s]; cbn [fenced_content];
    destruct (closes _); try congruence.
  destruct (fenced_content s); discriminate.
Qed.

Lemma strip_left_app (l t : pystr) :
  l <> [] -> strip_left l = l -> strip_left (l ++ t) = l ++ t.
Proof.
  destruct l as [| x l]; [congruence |].
  intros _. cbn [strip_left app].
  destruct (Re.is_space x); [| reflexivity].
  intros H. exfalso.
  assert (forall u : pystr, length (strip_left u) <= length u) as Hlen.
  { induction u as [| y u IHu]; cbn [strip_left]; [lia |].
    destruct (Re.is_space y); cbn [length]; lia. }
  pose proof (Hlen l) as Hl. rewrite H in Hl. cbn [length] in Hl. lia.
Qed.

Lemma fenced_content_no_trailing (s : pystr) :
  forall g, fenced_content s = Some g -> strip_left (rev g) = rev g.
Proof.
  induction s as [| c s IH]; intros g; cbn [fenced_content].
  - destruct (closes []); intros H; inversion H; reflexivity.
  - destruct (closes (c :: s)) eqn:Hc; [intros H; inversion H; reflexivity |].
    destruct (fenced_content s) as [m |] eqn:Hm; [| discriminate].
    intros H. injection H as <-. cbn [rev].
    destruct m as [| x m].
    + rewrite closes_cons in Hc.
      rewrite (fenced_content_nil_closes _ Hm) in Hc.
      cbn [rev app strip_left].
      destruct (Re.is_space c); [discriminate | reflexivity].
    + apply strip_left_app; [| exact (IH _ eq_refl)].
      cbn [rev]. intros E. now apply app_eq_nil in E as [_ E].
Qed.

Lemma fenced_content_no_leading (s : pystr) :
  forall g, fenced_content (strip_left s) = Some g -> strip_left g = g.
Proof.
  induction s as [| x s IH]; intros g; cbn [strip_left].
  - cbn [fenced_content]. destruct (closes []); intros H; inversion H; reflexivity.
  - destruct (Re.is_space x) eqn:Hx; [apply IH |].
    cbn [fenced_content].
    destruct (closes (x :: s)); [intros H; inversion H; reflexivity |].
    destruct (fenced_content s); [| discriminate].
    intros H. injection H as <-. cbn [strip_left]. now rewrite Hx.
Qed.




(** X6. With a closed fenced block in the answer, the text
    [_parse_analysis_response] hands to [json.loads] is the content of the
    first such block, taken up to the next fence, and it carries no
    whitespace at its start or at its end. *)
Theorem json_str_fenced_span (text g : pystr)
    (Hfence : fenced_span text = Some g) :
  json_str text = g
  /\ strip_left g = g
  /\ strip_left (rev g) = rev g.
Proof.
  split.
  - unfold json_str. rewrite re_search_fenced_json, Hfence. reflexivity.
  - induction text as [| c text IH]; cbn [fenced_span] in Hfence.
    + vm_compute in Hfence. discriminate Hfence.
    + destruct (startswith (py "```json") (c :: text)).
      * destruct (fenced_content (strip_left (skipn 7 (c :: text)))) as [g' |]
          eqn:Hg; [| exact (IH Hfence)].
        injection Hfence as <-.
        split; [exact (fenced_content_no_leading _ Hg)
               | exact (fenced_content_no_trailing _ Hg)].
      * exact (IH Hfence).
Qed.

Lemma json_str_fenced_span_witness :
  json_str Samples.padded_fenced_answer
  = py "{" ++ Samples.quoted (py "difficulty_level") ++ py ": "
    ++ Samples.quoted (py "beginner") ++ py "}".
Proof.
  apply (@json_str_fenced_span Samples.padded_fenced_answer). reflexivity.
Defined.

(** X7. Once the prompt is built and the issue has an id, [analyze_issue]
    returns a record for every behaviour of the transport and every answer
    of the model, and the record carries the id of the issue. *)
Theorem analyze_issue_returns
    (create : prompt -> completion) (issue : dict)
    (readme contributing : pystr) (p : prompt) (id : pyval)
    (Hprompt : _build_issue_analysis_prompt issue readme contributing = Ok p)
    (Hid : dict_lookup (py "id") issue = Some id) :
  exists a,
    Analyzer.analyze_issue create issue readme contributing = Ok a
    /\ issue_id a = id.
Proof.
  unfold Analyzer.analyze_issue. rewrite Hprompt. simpl bind.
  destruct (analyze_issue_try create issue p) as [a | e] eqn:Htry.
  - exists a. split; [reflexivity |].
    unfold analyze_issue_try in Htry.
    destruct (create p) as [e | content]; [discriminate Htry |].
    unfold dict_item in Htry. rewrite Hid in Htry. cbn [bind] in Htry.
    repeat (apply bind_ok in Htry as [? [_ Htry]]).
    injection Htry as <-. reflexivity.
  - rewrite (get_default_analysis_record _ Hid).
    exists (default_record id). split; reflexivity.
Qed.

Lemma analyze_issue_returns_witness :
  exists a,
    Analyzer.analyze_issue (Samples.answers Samples.out_of_range_answer)
                           Samples.issue [] [] = Ok a
    /\ issue_id a = PInt 1001.
Proof.
  eapply (@analyze_issue_returns
            (Samples.answers Samples.out_of_range_answer) Samples.issue [] []
            _ (PInt 1001)); reflexivity.
Defined.

(* ================================================================== *)
(** * Further properties of the issue listing *)
(* ================================================================== *)

Section Listing.

Variable datetime : Type.
Variable fromisoformat : pystr -> option datetime.
Variable request : nat -> result (list pyval).
Variable per_page : Z.

Local Abbreviation issue := (GitHub.GitHubIssue datetime).
Local Abbreviation collect := (GitHub.collect fromisoformat).
Local Abbreviation converted := (GitHub.converted fromisoformat).
Local Abbreviation listed := (GitHub.listed fromisoformat request).
Local Abbreviation loop := (GitHub.get_issues_loop fromisoformat request per_page).

Lemma collect_app (data : list pyval) :
  forall issues : list issue,
    collect data issues
    = (issues ++ converted data, snd (collect data [])).
Proof.
  unfold GitHub.converted.
  induction data as [| item data IH]; intros issues; cbn [GitHub.collect].
  - cbn [fst snd]. now rewrite app_nil_r.
  - destruct (GitHub.value_contains (py "pull_request") item) as [[|] | e].
    + apply IH.
    + destruct (GitHub.from_api_response fromisoformat item) as [response | e].
      * rewrite (IH (issues ++ [response])), (IH ([] ++ [response])).
        cbn [fst snd app]. now rewrite <- app_assoc.
      * cbn [fst snd]. now rewrite app_nil_r.
    + cbn [fst snd]. now rewrite app_nil_r.
Qed.

Lemma collect_stuck (data : list pyval) :
  GitHub.page_converts fromisoformat data = false ->
  exists e, snd (collect data []) = Some e.
Proof.
  induction data as [| item data IH]; [discriminate |].
  cbn [GitHub.page_converts forallb GitHub.collect].
  unfold GitHub.item_converts at 1.
  destruct (GitHub.value_contains (py "pull_request") item) as [[|] | e];
    cbn [andb].
  - exact IH.
  - destruct (GitHub.from_api_response fromisoformat item) as [response | e];
      cbn [andb]; [| intros _; eexists; reflexivity].
    intros H. rewrite collect_app. cbn [snd]. exact (IH H).
  - intros _. eexists. reflexivity.
Qed.

Lemma collect_done (data : list pyval) :
  GitHub.page_converts fromisoformat data = true ->
  snd (collect data []) = None.
Proof.
  induction data as [| item data IH]; [reflexivity |].
  cbn [GitHub.page_converts forallb GitHub.collect].
  unfold GitHub.item_converts at 1.
  destruct (GitHub.value_contains (py "pull_request") item) as [[|] | e];
    cbn [andb]; try discriminate.
  - exact IH.
  - destruct (GitHub.from_api_response fromisoformat item) as [response | e];
      cbn [andb]; [| discriminate].
    intros H. rewrite collect_app. cbn [snd]. exact (IH H).
Qed.

Lemma loop_last_page (fuel page : nat) (issues : list issue) (log : list nat) :
  GitHub.last_page fromisoformat request per_page page = true ->
  loop (S fuel) page issues log = Some (issues ++ listed page, log ++ [page]).
Proof.
  unfold GitHub.last_page, GitHub.listed. cbn [GitHub.get_issues_loop].
  destruct (request page) as [data | e]; [| now rewrite app_nil_r].
  destruct data as [| item data]; [now rewrite app_nil_r |].
  rewrite collect_app. intros H.
  destruct (GitHub.page_converts fromisoformat (item :: data)) eqn:Hconv.
  - rewrite (collect_done _ Hconv).
    rewrite orb_false_r in H. rewrite H. reflexivity.
  - destruct (collect_stuck _ Hconv) as [e ->]. reflexivity.
Qed.

Lemma loop_full_page (fuel page : nat) (issues : list issue) (log : list nat) :
  (0 < per_page)%Z ->
  GitHub.full_page fromisoformat request per_page page ->
  loop (S fuel) page issues log
  = loop fuel (S page) (issues ++ listed page) (log ++ [page]).
Proof.
  intros Hpos [data [Hreq [Hlen Hconv]]].
  unfold GitHub.listed. cbn [GitHub.get_issues_loop]. rewrite Hreq.
  destruct data as [| item data]; [cbn [length] in Hlen; lia |].
  rewrite collect_app, (collect_done _ Hconv).
  apply Z.ltb_ge in Hlen. rewrite Hlen. reflexivity.
Qed.

Lemma loop_result (n : nat) :
  (0 < per_page)%Z ->
  forall fuel page issues log,
    (forall j, j < n ->
               GitHub.full_page fromisoformat request per_page (page + j)) ->
    GitHub.last_page fromisoformat request per_page (page + n) = true ->
    n < fuel ->
    loop fuel page issues log
    = Some (issues ++ flat_map listed (seq page (S n)),
            log ++ seq page (S n)).
Proof.
  intros Hpos.
  induction n as [| n IH]; intros fuel page issues log Hfull Hlast Hfuel;
    (destruct fuel as [| fuel]; [lia |]).
  - rewrite Nat.add_0_r in Hlast. rewrite (@loop_last_page fuel page issues log Hlast).
    cbn [seq flat_map]. now rewrite app_nil_r.
  - rewrite (@loop_full_page fuel page issues log Hpos);
      [| rewrite <- (Nat.add_0_r page); apply Hfull; lia].
    rewrite IH.
    + change (seq page (S (S n))) with (page :: seq (S page) (S n)).
      cbn [flat_map]. now rewrite <- !app_assoc.
    + intros j Hj. replace (S page + j) with (page + S j) by lia.
      apply Hfull. lia.
    + now replace (S page + n) with (page + S n) by lia.
    + lia.
Qed.

End Listing.



Section ListingItems.

Variable datetime : Type.
Variable fromisoformat : pystr -> option datetime.
Variable request : nat -> result (list pyval).
Variable per_page : Z.

Local Abbreviation from_listed_issue :=
  (GitHub.from_listed_issue fromisoformat request).

Lemma collect_origin (data : list pyval) :
  forall issues i,
    In i (fst (GitHub.collect fromisoformat data issues)) ->
    In i issues
    \/ exists item,
         In item data
         /\ GitHub.value_contains (py "pull_request") item = Ok false
         /\ GitHub.from_api_response fromisoformat item = Ok i.
Proof.
  induction data as [| item data IH]; intros issues i; cbn [GitHub.collect].
  - auto.
  - destruct (GitHub.value_contains (py "pull_request") item)
      as [[|] | e] eqn:Hpr; cbn [fst]; [| | auto].
    + intros H. destruct (IH _ _ H) as [? | [x [? ?]]]; [auto |].
      right. exists x. split; [now right | assumption].
    + destruct (GitHub.from_api_response fromisoformat item)
        as [response | e] eqn:Hconv; cbn [fst]; [| auto].
      intros H. destruct (IH _ _ H) as [Hin | [x [? ?]]].
      * apply in_app_or in Hin as [? | [<- | []]]; [auto |].
        right. exists item. split; [now left | auto].
      * right. exists x. split; [now right | assumption].
Qed.

Lemma loop_origin (fuel : nat) :
  forall page issues log issues' log',
    GitHub.get_issues_loop fromisoformat request per_page fuel page issues log
    = Some (issues', log') ->
    forall i, In i issues' -> In i issues \/ from_listed_issue i.
Proof.
  induction fuel as [| fuel IH]; intros page issues log issues' log';
    cbn [GitHub.get_issues_loop]; [discriminate |].
  destruct (request page) as [data | e] eqn:Hreq;
    [| intros H; injection H as <- _; auto].
  destruct data as [| item data]; [intros H; injection H as <- _; auto |].
  pose proof (collect_origin (item :: data) issues) as Hcol.
  destruct (GitHub.collect fromisoformat (item :: data) issues)
    as [collected stop].
  cbn [fst] in Hcol.
  assert (forall i, In i collected -> In i issues \/ from_listed_issue i)
    as Hcollected.
  { intros i Hi. destruct (Hcol i Hi) as [? | [x [Hx [Hpr Hconv]]]]; [auto |].
    right. exists page, (item :: data), x. auto. }
  destruct stop as [e |]; [intros H; injection H as <- _; exact Hcollected |].
  destruct (Z.of_nat (length (item :: data)) <? per_page)%Z;
    [intros H; injection H as <- _; exact Hcollected |].
  intros H i Hi.
  destruct (IH _ _ _ _ _ H i Hi) as [Hin | ?]; auto.
Qed.

End ListingItems.

(** X9. [get_issues] never returns a pull request: every issue of its result
    is the conversion of an item that some page of the listing held and that
    has no key [pull_request]. *)
Theorem get_issues_no_pull_requests
    (datetime : Type) (fromisoformat : pystr -> option datetime)
    (request : nat -> result (list pyval)) (per_page : Z) (fuel : nat)
    (issues : list (GitHub.GitHubIssue datetime)) (log : list nat)
    (i : GitHub.GitHubIssue datetime)
    (Hresult : GitHub.get_issues fromisoformat request per_page fuel
               = Some (issues, log))
    (Hin : In i issues) :
  exists page data item,
    request page = Ok data
    /\ In item data
    /\ GitHub.value_contains (py "pull_request") item = Ok false
    /\ GitHub.from_api_response fromisoformat item = Ok i.
Proof.
  destruct (@loop_origin datetime fromisoformat request per_page fuel
              1 [] [] issues log Hresult i Hin) as [[] | H].
  exact H.
Qed.

Lemma get_issues_no_pull_requests_witness :
  exists issues log,
    GitHub.get_issues Samples.iso Samples.pages 2 7 = Some (issues, log)
    /\ forall i, In i issues ->
         exists page data item,
           Samples.pages page = Ok data
           /\ In item data
           /\ GitHub.value_contains (py "pull_request") item = Ok false
           /\ GitHub.from_api_response Samples.iso item = Ok i.
Proof.
  do 2 eexists. split; [reflexivity |].
  intros i Hi.
  exact (@get_issues_no_pull_requests pystr Samples.iso Samples.pages 2%Z 7
           _ _ i eq_refl Hi).
Defined.

Ltac missing_key H :=
  repeat match goal with
  | |- exists e, bind ?r _ = Raise e =>
    let E := fresh "E" in
    destruct r eqn:E; cbn [bind]; [| eexists; reflexivity];
    try (exfalso;
         unfold GitHub.optional_field, subscript, dict_item in E;
         rewrite H in E; discriminate E)
  end.

(** X10. [from_api_response] needs every key it reads with [data[...]]: for
    an item that lacks one of id, number, title, body, state, labels,
    created_at, updated_at, html_url, comments, assignee or milestone it
    raises (only [reactions] may be absent). *)
Theorem from_api_response_missing_key
    (datetime : Type) (fromisoformat : pystr -> option datetime)
    (d : dict) (k : pystr)
    (Hkey : In k GitHub.required_keys)
    (Hmissing : dict_lookup k d = None) :
  exists e, GitHub.from_api_response fromisoformat (PDict d) = Raise e.
Proof.
  unfold GitHub.required_keys in Hkey. cbn [In] in Hkey.
  unfold GitHub.from_api_response.
  repeat (destruct Hkey as [<- | Hkey]; [missing_key Hmissing |]).
  destruct Hkey.
Qed.

Lemma from_api_response_missing_key_witness :
  exists e,
    GitHub.from_api_response Samples.iso (Samples.api_pull 2) = Raise e.
Proof.
  apply (@from_api_response_missing_key pystr Samples.iso _ (py "title"));
    [right; right; left; reflexivity | reflexivity].
Defined.

(* ================================================================== *)
(** * Further properties of the notification sender *)
(* ================================================================== *)

Lemma get_access_token_stores (w : world) (c : client) :
  truthy (fst (fst (_get_access_token w c))) = true ->
  access_token (snd (fst (_get_access_token w c)))
  = fst (fst (_get_access_token w c)).
Proof.
  unfold _get_access_token.
  destruct (truthy (access_token c) && before (now w) (token_expire_time c));
    [reflexivity |].
  destruct (negb (nonempty (app_id c)) || negb (nonempty (app_secret c)));
    [discriminate |].
  unfold exchange.
  destruct (token_endpoint w (app_id c) (app_secret c)) as [result | e];
    [| discriminate].
  destruct (value_get (py "code") PNone result) as [code | e];
    [| discriminate].
  destruct (equals_zero code); [| discriminate].
  destruct (value_get (py "tenant_access_token") PNone result) as [t | e];
    [| discriminate].
  destruct (value_get (py "expire") (PInt 3600) result) as [ex | e];
    [| discriminate].
  destruct (expiry (now_refresh w) ex); [reflexivity | discriminate].
Qed.

(** X11. The token cache: once [_get_access_token] has returned a token, a
    later call made before [token_expire_time] returns the same token, leaves
    the client as it is and issues no request. *)
Theorem get_access_token_cached
    (w later : world) (c c' : client) (t : pyval) (posts : list post)
    (Hfirst : _get_access_token w c = (t, c', posts))
    (Htoken : truthy t = true)
    (Hlive : before (now later) (token_expire_time c') = true) :
  _get_access_token later c' = (t, c', []).
Proof.
  pose proof (get_access_token_stores w c) as Hstore.
  rewrite Hfirst in Hstore. cbn [fst snd] in Hstore.
  specialize (Hstore Htoken).
  unfold _get_access_token. rewrite Hstore, Htoken, Hlive. reflexivity.
Qed.

Lemma get_access_token_cached_witness :
  exists t c',
    _get_access_token Samples.chat_world Samples.chat_client
    = (t, c', [TokenPost (py "cli_a1b2c3") (py "s3cr3t")])
    /\ _get_access_token Samples.refusing_world c' = (t, c', []).
Proof.
  do 2 eexists. split; [vm_compute; reflexivity |].
  eapply (@get_access_token_cached Samples.chat_world Samples.refusing_world
            Samples.chat_client);
    [vm_compute; reflexivity | reflexivity | reflexivity].
Defined.

(** X12. The safety margin: after an exchange that answers code 0 with a
    token and an integer lifetime [e] (3600 when [expire] is absent), the
    client holds the expiry time the code computes in floats, the time of the
    exchange plus [e], rounded, minus 300, rounded; a later call answers from
    the cache, without a request, exactly when its time is below that value,
    and starts a new exchange otherwise.  A lifetime beyond the range of a
    float makes the call return [None]: the token is stored by then, the
    expiry time is not. *)
Theorem get_access_token_safety_margin
    (w later : world) (c : client) (result : dict) (code t : pyval) (e : Z)
    (Hdead : no_live_token w c)
    (Hid : nonempty (app_id c) = true)
    (Hsecret : nonempty (app_secret c) = true)
    (Hanswer : token_endpoint w (app_id c) (app_secret c) = Ok (PDict result))
    (Hcode : dict_lookup (py "code") result = Some code)
    (Hzero : equals_zero code = true)
    (Htoken : dict_lookup (py "tenant_access_token") result = Some t)
    (Htruthy : truthy t = true)
    (Hexpire : dict_get (py "expire") (PInt 3600) result = PInt e) :
  let c' := snd (fst (_get_access_token w c)) in
  match float_of_int e with
  | Ok lifetime =>
    fst (fst (_get_access_token w c)) = t
    /\ token_expire_time c'
       = Float64.sub (Float64.add (now_refresh w) lifetime) margin
    /\ (snd (_get_access_token later c') = []
        <-> before (now later) (token_expire_time c') = true)
  | Raise _ =>
    fst (fst (_get_access_token w c)) = PNone
    /\ access_token c' = t
    /\ token_expire_time c' = token_expire_time c
  end.
Proof.
  assert (_get_access_token w c
          = match float_of_int e with
            | Ok lifetime =>
              (t,
               set_token_expire_time (set_access_token c t)
                 (Float64.sub (Float64.add (now_refresh w) lifetime) margin),
               [TokenPost (app_id c) (app_secret c)])
            | Raise _ =>
              (PNone, set_access_token c t,
               [TokenPost (app_id c) (app_secret c)])
            end) as Hget.
  { unfold _get_access_token. unfold no_live_token in Hdead.
    rewrite Hdead, Hid, Hsecret. cbn [negb orb].
    unfold exchange. rewrite Hanswer. cbn [value_get].
    rewrite Hexpire.
    unfold dict_get. rewrite Hcode, Hzero, Htoken.
    unfold expiry. cbn [float_operand].
    destruct (float_of_int e); reflexivity. }
  rewrite Hget. clear Hget.
  destruct (float_of_int e) as [lifetime | err]; cbn [fst snd].
  - split; [reflexivity | split; [reflexivity |]].
    unfold _get_access_token.
    cbn [access_token token_expire_time set_token_expire_time
         set_access_token app_id app_secret].
    rewrite Htruthy, Hid, Hsecret. cbn [andb negb orb].
    destruct (before (now later) _) eqn:Hb.
    + split; reflexivity.
    + split; [| discriminate].
      destruct (exchange later _) as [[? | ?] ?]; discriminate.
  - repeat split.
Qed.

Lemma get_access_token_safety_margin_witness :
  token_expire_time
    (snd (fst (_get_access_token Samples.chat_world Samples.chat_client)))
  = Float64.of_Z 7901.
Proof.
  pose proof (@get_access_token_safety_margin
                Samples.chat_world Samples.chat_world Samples.chat_client
                _ (PInt 0) _ 7200
                eq_refl eq_refl eq_refl eq_refl eq_refl eq_refl eq_refl
                eq_refl eq_refl) as H.
  cbv zeta in H.
  change (float_of_int 7200) with (Ok (Float64.of_Z 7200)) in H.
  cbv iota beta in H.
  destruct H as [_ [H _]]. rewrite H. vm_compute. reflexivity.
Defined.

Lemma post_message_true (w : world) (token : pyval) (rid : option pystr)
    (mtype : pystr) (body : pyval) (rid_type : pystr) (sent : list post) :
  post_message w token rid mtype body rid_type = (true, sent) ->
  exists r m resp result code,
    rid = Some r
    /\ sent = [MessagePost m]
    /\ receive_id m = r /\ msg_type m = mtype /\ content m = body
    /\ bearer m = token
    /\ message_endpoint w m = Ok resp
    /\ status_code resp = 200%Z
    /\ json resp = Ok result
    /\ value_get (py "code") PNone result = Ok code
    /\ equals_zero code = true.
Proof.
  unfold post_message.
  destruct rid as [r |]; [| discriminate].
  set (m := {| receive_id_type := _ |}).
  destruct (message_endpoint w m) as [resp | e] eqn:Hpost; [| discriminate].
  destruct (status_code resp =? 200)%Z eqn:Hstatus; cbn [negb];
    [| discriminate].
  destruct (json resp) as [result | e] eqn:Hjson; [| discriminate].
  destruct (value_get (py "code") PNone result) as [code | e] eqn:Hcode;
    [| discriminate].
  intros H. injection H as Hzero <-.
  exists r, m, resp, result, code.
  apply Z.eqb_eq in Hstatus. repeat split; auto.
Qed.

(** X13. [send_api_message] returns [True] only for a delivered message: a
    token was there, exactly one message was posted with this token, the
    given recipient, type and content, and the endpoint answered status 200
    with a body whose [code] is 0. *)
Theorem send_api_message_true
    (w : world) (c c' : client) (rid : option pystr) (mtype : pystr)
    (body : pyval) (rid_type : pystr) (posts : list post)
    (Hsend : send_api_message w c rid mtype body rid_type = (true, c', posts)) :
  exists r m resp result code,
    rid = Some r
    /\ filter is_message_post posts = [MessagePost m]
    /\ receive_id m = r /\ msg_type m = mtype /\ content m = body
    /\ truthy (bearer m) = true
    /\ message_endpoint w m = Ok resp
    /\ status_code resp = 200%Z
    /\ json resp = Ok result
    /\ value_get (py "code") PNone result = Ok code
    /\ equals_zero code = true.
Proof.
  unfold send_api_message in Hsend.
  pose proof (get_access_token_posts w c) as Hnone.
  destruct (_get_access_token w c) as [[token c1] posts1].
  cbn [snd] in Hnone.
  destruct (truthy token) eqn:Htoken; cbn [negb] in Hsend; [| discriminate].
  destruct (post_message w token rid mtype body rid_type) as [ok sent] eqn:Hpost.
  injection Hsend as -> _ <-.
  destruct (post_message_true _ _ _ _ _ _ Hpost)
    as [r [m [resp [result [code
        [Hr [Hs [H1 [H2 [H3 [H4 [H5 [H6 [H7 [H8 H9]]]]]]]]]]]]]]].
  exists r, m, resp, result, code. subst sent.
  repeat split; auto; [| now rewrite H4].
  rewrite filter_app.
  assert (filter is_message_post posts1 = []) as ->; [| reflexivity].
  clear - Hnone. induction posts1 as [| p posts1 IH]; [reflexivity |].
  cbn [existsb filter] in *. apply orb_false_elim in Hnone as [-> Hrest].
  exact (IH Hrest).
Qed.

Lemma send_api_message_true_witness :
  exists c' posts,
    send_api_message Samples.chat_world Samples.chat_client
      (Some (py "oc_82f1c5")) (py "interactive") (PDict []) (py "open_id")
    = (true, c', posts)
    /\ exists m,
         filter is_message_post posts = [MessagePost m]
         /\ receive_id m = py "oc_82f1c5".
Proof.
  do 2 eexists. split; [vm_compute; reflexivity |].
  match goal with
  | |- exists m, filter _ ?posts = _ /\ _ =>
    evar (c1 : client);
    assert (send_api_message Samples.chat_world Samples.chat_client
              (Some (py "oc_82f1c5")) (py "interactive") (PDict [])
              (py "open_id") = (true, c1, posts)) as Hsend
      by (subst c1; vm_compute; reflexivity)
  end.
  destruct (send_api_message_true _ _ _ _ _ _ Hsend)
    as [r [m [resp [result [code [Hr [Hposts [Hid _]]]]]]]].
  exists m. split; [exact Hposts |].
  injection Hr as <-. exact Hid.
Defined.

(** X14. No retry: a call of [send_api_message] issues at most one request
    for a token and, after it, at most one message. *)
Theorem send_api_message_posts_once
    (w : world) (c : client) (rid : option pystr) (mtype : pystr)
    (body : pyval) (rid_type : pystr) :
  let posts := snd (send_api_message w c rid mtype body rid_type) in
  posts = []
  \/ posts = [TokenPost (app_id c) (app_secret c)]
  \/ (exists m, posts = [MessagePost m])
  \/ (exists m, posts = [TokenPost (app_id c) (app_secret c); MessagePost m]).
Proof.
  cbn zeta. unfold send_api_message.
  assert (snd (_get_access_token w c) = []
          \/ snd (_get_access_token w c) = [TokenPost (app_id c) (app_secret c)])
    as Htoken.
  { unfold _get_access_token.
    destruct (truthy (access_token c) && before (now w) (token_expire_time c));
      [now left |].
    destruct (negb (nonempty (app_id c)) || negb (nonempty (app_secret c)));
      [now left |].
    destruct (exchange w c) as [[? | ?] ?]; now right. }
  destruct (_get_access_token w c) as [[token c1] posts1]. cbn [snd] in Htoken.
  destruct (negb (truthy token)); cbn [snd]; [tauto |].
  assert (snd (post_message w token rid mtype body rid_type) = []
          \/ exists m, snd (post_message w token rid mtype body rid_type)
                       = [MessagePost m]) as Hsent.
  { destruct rid as [r |]; [right; apply post_message_posts | now left]. }
  destruct (post_message w token rid mtype body rid_type) as [ok sent].
  cbn [snd] in *.
  destruct Htoken as [-> | ->], Hsent as [-> | [m ->]]; cbn [app]; eauto 6.
Qed.

(** X15. Without a recipient ([receive_id] is [None], as [self.user_id] is
    when the setting is missing) [send_api_message] returns [False] and posts
    no message, although it may have fetched a token first. *)
Theorem send_api_message_without_recipient
    (w : world) (c : client) (mtype : pystr) (body : pyval)
    (rid_type : pystr) :
  fst (fst (send_api_message w c None mtype body rid_type)) = false
  /\ existsb is_message_post
       (snd (send_api_message w c None mtype body rid_type)) = false.
Proof.
  unfold send_api_message.
  pose proof (get_access_token_posts w c) as Hnone.
  destruct (_get_access_token w c) as [[token c1] posts1]. cbn [snd] in Hnone.
  destruct (negb (truthy token)); cbn [post_message fst snd];
    rewrite ?app_nil_r; auto.
Qed.

Lemma render_items_separated (str : pyval -> pystr) (recs : list pyval) :
  forall i es,
    render_items str (Z.of_nat (i + length recs) - 1) i recs = Ok es ->
    map tag es = separated (length recs).
Proof.
  induction recs as [| rec recs IH]; intros i es H; cbn [render_items] in H.
  - injection H as <-. reflexivity.
  - apply bind_ok in H as [md [_ H]].
    apply bind_ok in H as [rest [Hrest H]].
    injection H as <-.
    replace (Z.of_nat (i + length (rec :: recs)) - 1)%Z
      with (Z.of_nat (S i + length recs) - 1)%Z in Hrest
      by (cbn [length]; lia).
    apply IH in Hrest.
    cbn [length] in *.
    destruct recs as [| rec' recs]; cbn [length] in *.
    + destruct rest; [| discriminate Hrest].
      destruct (Z.ltb_spec (Z.of_nat i) (Z.of_nat (i + 1) - 1)); [lia |].
      reflexivity.
    + destruct (Z.ltb_spec (Z.of_nat i)
                           (Z.of_nat (i + S (S (length recs))) - 1)); [| lia].
      cbn [app map tag separated] in *. now rewrite Hrest.
Qed.

(** X16. With at most three recommendations the digest card is laid out as
    intended: the block of the head and a divider, one text block per
    recommendation with a divider between every two of them, a divider and
    the note. *)
Theorem build_daily_summary_separated
    (str : pyval -> pystr) (now_text : pystr) (projects : list pyval)
    (issues_found : pyval) (recommendations : list pyval) (c : card)
    (Hfew : length recommendations <= 3)
    (Hcard : build_daily_summary str now_text projects issues_found
                                 recommendations = Ok c) :
  map tag (elements c)
  = [py "div"; py "hr"] ++ separated (length recommendations)
    ++ [py "hr"; py "note"].
Proof.
  unfold build_daily_summary in Hcard.
  apply bind_ok in Hcard as [lines [_ Hcard]].
  apply bind_ok in Hcard as [items [Hitems Hcard]].
  injection Hcard as <-. cbn [elements].
  rewrite !firstn_all2 in Hitems by lia.
  apply (render_items_separated str recommendations 0) in Hitems.
  cbv zeta. cbn [app map tag]. rewrite map_app, Hitems. reflexivity.
Qed.

Lemma build_daily_summary_separated_witness :
  exists c,
    build_daily_summary (fun _ => []) [] [Samples.druid] (PInt 3)
      (firstn 3 Samples.four_recommendations) = Ok c
    /\ map tag (elements c)
       = [py "div"; py "hr"; py "div"; py "hr"; py "div"; py "hr"; py "div";
          py "hr"; py "note"].
Proof.
  eexists. split; [vm_compute; reflexivity |].
  apply (@build_daily_summary_separated
           (fun _ => []) [] [Samples.druid] (PInt 3)
           (firstn 3 Samples.four_recommendations));
    [cbn [firstn Samples.four_recommendations length]; lia
    | vm_compute; reflexivity].
Defined.

(** X17. The digest card never shows more than five recommendations: next
    to the block of its head it holds one text block for each of the first
    five recommendations and none for the others. *)
Theorem build_daily_summary_block_count
    (str : pyval -> pystr) (now_text : pystr) (projects : list pyval)
    (issues_found : pyval) (recommendations : list pyval) (c : card)
    (Hcard : build_daily_summary str now_text projects issues_found
                                 recommendations = Ok c) :
  count_divs (elements c) = 1 + Nat.min 5 (length recommendations)
  /\ count_divs (elements c) <= 6.
Proof.
  pose proof (build_daily_summary_at_most_five _ _ _ _ _ Hcard) as H.
  split; [exact H |].
  rewrite H. pose proof (Nat.le_min_l 5 (length recommendations)). lia.
Qed.

Lemma build_daily_summary_block_count_witness :
  exists c,
    build_daily_summary (fun _ => []) [] [Samples.druid] (PInt 8)
      (Samples.four_recommendations ++ Samples.four_recommendations) = Ok c
    /\ count_divs (elements c) = 6.
Proof.
  eexists. split; [vm_compute; reflexivity |].
  apply (@build_daily_summary_block_count
           (fun _ => []) [] [Samples.druid] (PInt 8)
           (Samples.four_recommendations ++ Samples.four_recommendations)).
  vm_compute. reflexivity.
Defined.

(* ================================================================== *)
(** * Further properties of the catalog search *)
(* ================================================================== *)

Lemma experience_intermediate (request : SearchRequest) (project : pyval) :
  experience_level request = py "intermediate" ->
  matches_experience request project = Ok (PBool true).
Proof.
  intros E. unfold matches_experience. rewrite E. reflexivity.
Qed.

(** X18. At the experience level "intermediate" the flag of a project plays
    no part: [filtered_projects] holds exactly the projects that pass the
    keyword test, whatever their [beginner_friendly] is and even without
    one. *)
Theorem filtered_projects_intermediate
    (lower : pystr -> pystr) (request : SearchRequest)
    (projects filtered : list pyval) (project : pyval)
    (Hlevel : experience_level request = py "intermediate")
    (Hfilter : filtered_projects lower request projects = Ok filtered) :
  In project filtered
  <-> In project projects /\ matches_keyword lower request project = Ok true.
Proof.
  rewrite (filtered_projects_selected _ _ _ Hfilter), filter_In.
  unfold selected, experience_ok.
  rewrite (experience_intermediate _ project Hlevel). cbn [truthy].
  destruct (matches_keyword lower request project) as [[|] | e]; cbn [andb];
    split; intros [H1 H2]; (split; [exact H1 |]); congruence.
Qed.

Lemma filtered_projects_intermediate_witness :
  In Samples.kafka
     (filter (selected Samples.ascii_lower
                (Samples.search (py "intermediate") [py "STREAM"]))
             [Samples.spark; Samples.kafka]).
Proof.
  apply (proj2 (@filtered_projects_intermediate
                  Samples.ascii_lower
                  (Samples.search (py "intermediate") [py "STREAM"])
                  [Samples.spark; Samples.kafka] _ Samples.kafka
                  eq_refl eq_refl)).
  split; [right; left; reflexivity | vm_compute; reflexivity].
Defined.

(** X19. An experience level other than "beginner", "intermediate" and
    "advanced" selects nothing: [filtered_projects] is empty. *)
Theorem filtered_projects_unknown_level
    (lower : pystr -> pystr) (request : SearchRequest)
    (projects filtered : list pyval)
    (Hbeginner : experience_level request <> py "beginner")
    (Hintermediate : experience_level request <> py "intermediate")
    (Hadvanced : experience_level request <> py "advanced")
    (Hfilter : filtered_projects lower request projects = Ok filtered) :
  filtered = [].
Proof.
  rewrite (filtered_projects_selected _ _ _ Hfilter).
  assert (forall project, selected lower request project = false) as Hnone.
  { intros project. unfold selected, experience_ok, matches_experience.
    destruct (pystr_eqb (experience_level request) (py "beginner")) eqn:E1;
      [apply pystr_eqb_eq in E1; contradiction |].
    destruct (pystr_eqb (experience_level request) (py "intermediate")) eqn:E2;
      [apply pystr_eqb_eq in E2; contradiction |].
    destruct (pystr_eqb (experience_level request) (py "advanced")) eqn:E3;
      [apply pystr_eqb_eq in E3; contradiction |].
    cbn [bind truthy].
    destruct (matches_keyword lower request project) as [[|] | e]; reflexivity. }
  clear Hfilter.
  induction projects as [| p ps IH]; [reflexivity |].
  cbn [filter]. rewrite Hnone. exact IH.
Qed.

Lemma filtered_projects_unknown_level_witness :
  filter (selected Samples.ascii_lower (Samples.search (py "expert") []))
         [Samples.spark; Samples.superset; Samples.kafka]
  = [].
Proof.
  apply (@filtered_projects_unknown_level
           Samples.ascii_lower (Samples.search (py "expert") [])
           [Samples.spark; Samples.superset; Samples.kafka]);
    [discriminate | discriminate | discriminate | vm_compute; reflexivity].
Defined.

(** X20. A catalog entry without the key [beginner_friendly] is selected at
    the level "intermediate" only: the level "beginner" reads the missing
    flag as [False], the level "advanced" as [True]. *)
Theorem filtered_projects_without_flag
    (lower : pystr -> pystr) (request : SearchRequest)
    (projects filtered : list pyval) (d : dict)
    (Hflag : dict_lookup (py "beginner_friendly") d = None)
    (Hlevel : experience_level request = py "beginner"
              \/ experience_level request = py "advanced")
    (Hfilter : filtered_projects lower request projects = Ok filtered) :
  ~ In (PDict d) filtered.
Proof.
  rewrite (filtered_projects_selected _ _ _ Hfilter), filter_In.
  intros [_ Hsel]. unfold selected, experience_ok in Hsel.
  assert (matches_experience request (PDict d) = Ok (PBool false)) as Hexp.
  { unfold matches_experience, value_get, dict_get. rewrite Hflag.
    destruct Hlevel as [-> | ->]; reflexivity. }
  rewrite Hexp in Hsel. cbn [truthy] in Hsel.
  destruct (matches_keyword lower request (PDict d)) as [b | e];
    [rewrite andb_false_r in Hsel |]; discriminate Hsel.
Qed.

Lemma filtered_projects_without_flag_witness :
  ~ In Samples.kafka
       (filter (selected Samples.ascii_lower
                  (Samples.search (py "advanced") []))
               [Samples.spark; Samples.kafka]).
Proof.
  eapply (@filtered_projects_without_flag
            Samples.ascii_lower (Samples.search (py "advanced") [])
            [Samples.spark; Samples.kafka]);
    [reflexivity | right; reflexivity | vm_compute; reflexivity].
Defined.

Lemma any_keyword_named (lower : pystr -> pystr) (project : pyval)
    (kws : list pystr) (b : bool) :
  kws <> [] ->
  any_keyword lower project kws = Ok b ->
  exists name, subscript (py "name") project = Ok (PStr name).
Proof.
  destruct kws as [| keyword rest]; [congruence |].
  intros _. cbn [any_keyword]. intros H.
  apply bind_ok in H as [b0 [H _]].
  unfold keyword_matches in H.
  apply bind_ok in H as [v [Hv H]].
  apply bind_ok in H as [n [Hn _]].
  destruct v; try discriminate Hn. eauto.
Qed.

(** X21. With keywords in the request, the search needs a string under
    [name] in every catalog entry it looks at: if [filtered_projects] is
    computed at all, every entry of the catalog has one; an entry without
    makes the whole request fail. *)
Theorem filtered_projects_needs_names
    (lower : pystr -> pystr) (request : SearchRequest)
    (projects filtered : list pyval) (project : pyval)
    (Hkeywords : keywords request <> [])
    (Hfilter : filtered_projects lower request projects = Ok filtered)
    (Hin : In project projects) :
  exists name, subscript (py "name") project = Ok (PStr name).
Proof.
  revert filtered Hfilter.
  induction projects as [| p ps IH]; [destruct Hin |].
  intros filtered H. cbn [filtered_projects] in H.
  apply bind_ok in H as [mk [Hmk H]].
  apply bind_ok in H as [me [_ H]].
  apply bind_ok in H as [tail [Htail _]].
  destruct Hin as [<- | Hin]; [| exact (IH Hin tail Htail)].
  unfold matches_keyword in Hmk.
  destruct (keywords request) as [| k ks] eqn:Hk; [congruence |].
  apply (@any_keyword_named lower p (k :: ks) mk); [discriminate | exact Hmk].
Qed.

Lemma filtered_projects_needs_names_witness :
  (exists name, subscript (py "name") Samples.kafka = Ok (PStr name))
  /\ filtered_projects Samples.ascii_lower
       (Samples.search (py "beginner") [py "storage"])
       [Samples.kafka; Samples.nameless] = Raise KeyError.
Proof.
  split; [| vm_compute; reflexivity].
  eapply (@filtered_projects_needs_names
            Samples.ascii_lower
            (Samples.search (py "intermediate") [py "kafka"])
            [Samples.kafka; Samples.spark]);
    [discriminate | vm_compute; reflexivity | left; reflexivity].
Defined.

(* ================================================================== *)
(** * Properties of the issue card and of the request handler *)
(* ================================================================== *)

Lemma all_strings_other (ls : list pyval) (x : pyval) :
  In x ls -> (forall s, x <> PStr s) -> all_strings ls = Raise TypeError.
Proof.
  induction ls as [| y ls IH]; intros Hin Hx; [destruct Hin |].
  destruct Hin as [-> | Hin].
  - destruct x; try reflexivity. now destruct (Hx s).
  - destruct y; try reflexivity.
    cbn [all_strings]. now rewrite (IH Hin Hx).
Qed.

(** X22. [analyze_issue] raises a [TypeError], before the model is called,
    for every issue whose [labels] list holds something that is no string;
    the label objects of the tracker's REST API are such, so an issue passed
    as the API returns it is analysed only if it has no label. *)
Theorem analyze_issue_label_objects
    (create : prompt -> completion) (issue : dict)
    (readme contributing : pystr) (b : pyval) (ls : list pyval) (x : pyval)
    (Hbody : slice_to 1000 (dict_get (py "body") (PStr (py "无描述")) issue)
             = Ok b)
    (Hlabels : dict_lookup (py "labels") issue = Some (PList ls))
    (Hin : In x ls)
    (Hobject : forall s, x <> PStr s) :
  Analyzer.analyze_issue create issue readme contributing = Raise TypeError.
Proof.
  unfold Analyzer.analyze_issue, _build_issue_analysis_prompt.
  rewrite Hbody. cbn [bind].
  unfold dict_get at 1. rewrite Hlabels. cbn [join_value].
  rewrite (@all_strings_other ls x Hin Hobject). reflexivity.
Qed.

Lemma analyze_issue_label_objects_witness :
  Analyzer.analyze_issue (Samples.answers Samples.fenced_answer)
    Samples.issue_api_labels [] [] = Raise TypeError.
Proof.
  eapply (@analyze_issue_label_objects
            (Samples.answers Samples.fenced_answer) Samples.issue_api_labels
            [] []);
    [reflexivity | reflexivity | left; reflexivity | discriminate].
Defined.

Lemma difficulty_color_string (s : pystr) :
  dict_get s (PStr (py "blue")) difficulty_colors
  = if pystr_eqb s (py "beginner") then PStr (py "green")
    else if pystr_eqb s (py "intermediate") then PStr (py "orange")
    else if pystr_eqb s (py "advanced") then PStr (py "red")
    else PStr (py "blue").
Proof.
  unfold dict_get, difficulty_colors. cbn [dict_lookup].
  destruct (pystr_eqb s (py "beginner")); [reflexivity |].
  destruct (pystr_eqb s (py "intermediate")); [reflexivity |].
  destruct (pystr_eqb s (py "advanced")); reflexivity.
Qed.

(** X23. The colour of the issue card: green exactly for the difficulty
    "beginner", red exactly for "advanced", orange exactly for
    "intermediate", which is also what a missing [difficulty_level] counts
    as; every other value that lets the card be built gives blue. *)
Theorem build_issue_card_template
    (str : pyval -> pystr) (now_text : pystr) (issue analysis : dict)
    (c : issue_card)
    (Hcard : build_issue_card str now_text issue analysis = Ok c) :
  let level :=
    dict_get (py "difficulty_level") (PStr (py "intermediate")) analysis in
  (issue_header_template c = PStr (py "green")
   <-> level = PStr (py "beginner"))
  /\ (issue_header_template c = PStr (py "orange")
      <-> level = PStr (py "intermediate"))
  /\ (issue_header_template c = PStr (py "red")
      <-> level = PStr (py "advanced"))
  /\ (issue_header_template c = PStr (py "blue")
      <-> level <> PStr (py "beginner")
          /\ level <> PStr (py "intermediate")
          /\ level <> PStr (py "advanced")).
Proof.
  cbv zeta. unfold build_issue_card in Hcard.
  apply bind_ok in Hcard as [color [Hcolor Hcard]].
  apply bind_ok in Hcard as [t [_ Hcard]].
  apply bind_ok in Hcard as [skills [_ Hcard]].
  apply bind_ok in Hcard as [learning [_ Hcard]].
  apply bind_ok in Hcard as [url [_ Hcard]].
  injection Hcard as <-. cbn [issue_header_template].
  assert (forall s w, pystr_eqb s w = false -> PStr s <> PStr w) as Hneq.
  { intros s w Hw E. injection E as ->. rewrite pystr_eqb_refl in Hw.
    discriminate Hw. }
  assert (PStr (py "green") <> PStr (py "orange")
          /\ PStr (py "green") <> PStr (py "red")
          /\ PStr (py "green") <> PStr (py "blue")
          /\ PStr (py "orange") <> PStr (py "red")
          /\ PStr (py "orange") <> PStr (py "blue")
          /\ PStr (py "red") <> PStr (py "blue"))
    as [G1 [G2 [G3 [G4 [G5 G6]]]]]
    by (repeat split; intros E; vm_compute in E; discriminate E).
  assert (PStr (py "beginner") <> PStr (py "intermediate")
          /\ PStr (py "beginner") <> PStr (py "advanced")
          /\ PStr (py "intermediate") <> PStr (py "advanced"))
    as [T1 [T2 T3]]
    by (repeat split; intros E; vm_compute in E; discriminate E).
  destruct (dict_get (py "difficulty_level") (PStr (py "intermediate")) analysis)
    as [| b | z | m e | | neg | s | l | d] eqn:Hlevel;
    cbn [dict_get_value] in Hcolor; try discriminate Hcolor.
  1-6: injection Hcolor as <-; intuition congruence.
  rewrite difficulty_color_string in Hcolor. injection Hcolor as <-.
  destruct (pystr_eqb s (py "beginner")) eqn:E1;
    [apply pystr_eqb_eq in E1; subst s; intuition congruence |].
  destruct (pystr_eqb s (py "intermediate")) eqn:E2;
    [apply pystr_eqb_eq in E2; subst s; intuition congruence |].
  destruct (pystr_eqb s (py "advanced")) eqn:E3;
    [apply pystr_eqb_eq in E3; subst s; intuition congruence |].
  pose proof (Hneq _ _ E1). pose proof (Hneq _ _ E2). pose proof (Hneq _ _ E3).
  intuition congruence.
Qed.

Lemma build_issue_card_template_witness :
  exists c,
    build_issue_card (fun _ => []) []
      (issue_info (py "apache") (py "druid") Samples.issue_details)
      (analysis_info (unparsed_record (PInt 2001))) = Ok c
    /\ issue_header_template c = PStr (py "orange").
Proof.
  eexists. split; [vm_compute; reflexivity |].
  apply (proj1 (proj2 (@build_issue_card_template
           (fun _ => []) []
           (issue_info (py "apache") (py "druid") Samples.issue_details)
           (analysis_info (unparsed_record (PInt 2001))) _
           ltac:(vm_compute; reflexivity)))).
  reflexivity.
Defined.

(** X24. An issue card exists only for an issue with a string under
    [html_url] (a missing key counts as the empty string); it has the eight
    elements text, divider, fields, text, text, divider, buttons and note,
    and its two buttons lead to that URL and to the same URL followed by
    "#issuecomment". *)
Theorem build_issue_card_buttons
    (str : pyval -> pystr) (now_text : pystr) (issue analysis : dict)
    (c : issue_card)
    (Hcard : build_issue_card str now_text issue analysis = Ok c) :
  exists url first second,
    dict_get (py "html_url") (PStr []) issue = PStr url
    /\ map issue_tag (issue_elements c)
       = [ py "div"; py "hr"; py "div"; py "div"; py "div"; py "hr";
           py "action"; py "note" ]
    /\ nth_error (issue_elements c) 6 = Some (IssueAction [first; second])
    /\ button_url first = PStr url
    /\ button_url second = PStr (url ++ py "#issuecomment").
Proof.
  unfold build_issue_card in Hcard.
  apply bind_ok in Hcard as [color [_ Hcard]].
  apply bind_ok in Hcard as [t [_ Hcard]].
  apply bind_ok in Hcard as [skills [_ Hcard]].
  apply bind_ok in Hcard as [learning [_ Hcard]].
  apply bind_ok in Hcard as [comment_url [Hurl Hcard]].
  injection Hcard as <-.
  destruct (dict_get (py "html_url") (PStr []) issue) as [| | | | | | url | |];
    try discriminate Hurl.
  injection Hurl as <-.
  exists url. do 2 eexists.
  split; [reflexivity |].
  split; [reflexivity |].
  split; [reflexivity |].
  split; reflexivity.
Qed.

Lemma build_issue_card_buttons_witness :
  exists c first second,
    build_issue_card (fun _ => []) []
      (issue_info (py "apache") (py "druid") Samples.issue_details)
      (analysis_info (unparsed_record (PInt 2001))) = Ok c
    /\ nth_error (issue_elements c) 6 = Some (IssueAction [first; second])
    /\ button_url second
       = PStr (py "https://github.com/apache/druid/issues/12#issuecomment").
Proof.
  eexists.
  match goal with
  | |- exists first second, ?build = Ok ?c /\ _ =>
    assert (build = Ok c) as Hcard by (vm_compute; reflexivity)
  end.
  destruct (build_issue_card_buttons _ _ _ _ Hcard)
    as [url [first [second [Hurl [_ [Hnth [_ Hsecond]]]]]]].
  exists first, second.
  split; [exact Hcard | split; [exact Hnth |]].
  rewrite Hsecond. vm_compute in Hurl. injection Hurl as <-.
  vm_compute. reflexivity.
Defined.

Lemma analyze_issue_down
    (create : prompt -> completion) (issue : dict)
    (readme contributing : pystr) (p : prompt) (id : pyval) (e : exn) :
  _build_issue_analysis_prompt issue readme contributing = Ok p ->
  dict_lookup (py "id") issue = Some id ->
  create p = CompletionError e ->
  Analyzer.analyze_issue create issue readme contributing
  = Ok (default_record id).
Proof.
  intros Hprompt Hid Hdown.
  unfold Analyzer.analyze_issue. rewrite Hprompt. simpl bind.
  unfold analyze_issue_try. rewrite Hdown.
  exact (get_default_analysis_record _ Hid).
Qed.

Lemma issue_info_title (o r : pystr) (d : dict) :
  dict_lookup (py "title") (issue_info o r d)
  = Some (dict_get (py "title") PNone d).
Proof. reflexivity. Qed.

Lemma issue_info_html_url (o r : pystr) (d : dict) :
  dict_lookup (py "html_url") (issue_info o r d)
  = Some (dict_get (py "html_url") PNone d).
Proof. reflexivity. Qed.

(** The card for a fallback analysis is built as soon as the issue has a
    string title and a string URL. *)
Lemma build_issue_card_default
    (str : pyval -> pystr) (now_text : pystr) (o r : pystr) (d : dict)
    (id : pyval) (t u : pystr) :
  dict_lookup (py "title") d = Some (PStr t) ->
  dict_lookup (py "html_url") d = Some (PStr u) ->
  exists c,
    build_issue_card str now_text (issue_info o r d)
                     (analysis_info (default_record id)) = Ok c.
Proof.
  intros Htitle Hurl.
  assert (slice_to 50 (dict_get (py "title") (PStr []) (issue_info o r d))
          = Ok (PStr (firstn 50 t))) as Ht.
  { unfold dict_get at 1. rewrite issue_info_title.
    unfold dict_get. rewrite Htitle. reflexivity. }
  assert (add_str (dict_get (py "html_url") (PStr []) (issue_info o r d))
                  (py "#issuecomment")
          = Ok (PStr (u ++ py "#issuecomment"))) as Hu.
  { unfold dict_get at 1. rewrite issue_info_html_url.
    unfold dict_get. rewrite Hurl. reflexivity. }
  unfold build_issue_card. rewrite Ht, Hu.
  eexists. reflexivity.
Qed.

(** X25. The request handler with the model down: for an issue with an id,
    a string title and a string URL whose prompt can be built, a failing
    model transport costs the request nothing but the analysis: the handler
    answers with the issue, the record of [_get_default_analysis] and, when
    no skills were given, no plan; the card for the notifier is built, and a
    failing webhook changes nothing. *)
Theorem analyze_issue_handler_model_down
    (str : pyval -> pystr) (now_text now_iso : pystr) (issue_data : dict)
    (readme contributing : pystr)
    (create : prompt -> completion) (create_plan : plan_prompt -> completion)
    (webhook : issue_card -> result response) (request : IssueRequest)
    (p : prompt) (id : pyval) (t u : pystr) (e : exn)
    (Hprompt : _build_issue_analysis_prompt issue_data readme contributing
               = Ok p)
    (Hid : dict_lookup (py "id") issue_data = Some id)
    (Htitle : dict_lookup (py "title") issue_data = Some (PStr t))
    (Hurl : dict_lookup (py "html_url") issue_data = Some (PStr u))
    (Hdown : create p = CompletionError e) :
  exists contribution_plan,
    Orchestrator.analyze_issue str now_text now_iso (Ok issue_data) readme
      contributing create create_plan webhook request
    = Ok {| response_issue := issue_data;
            response_analysis := default_record id;
            response_plan := contribution_plan |}
    /\ (user_skills request = [] -> contribution_plan = None).
Proof.
  unfold Orchestrator.analyze_issue. cbn [bind].
  rewrite (analyze_issue_down create issue_data readme contributing
             Hprompt Hid Hdown). cbn [bind].
  destruct (build_issue_card_default str now_text (owner request)
              (repo request) issue_data id Htitle Hurl) as [c Hc].
  unfold send_issue_recommendation. rewrite Hc. cbn [bind].
  destruct (user_skills request) as [| skill skills] eqn:Hskills.
  - cbn [bind]. eexists. split; reflexivity.
  - destruct (prompt_body_sliceable issue_data readme contributing 500 Hprompt)
      as [b Hb].
    assert (exists skills solution,
               join_value (py ", ") (required_skills (default_record id))
               = Ok skills
               /\ slice_to 200 (solution_approach (default_record id))
                  = Ok solution)
      as [joined [solution [Hjoined Hsolution]]]
      by (do 2 eexists; split; reflexivity).
    unfold generate_contribution_plan, contribution_plan_prompt.
    rewrite Hb, Hjoined, Hsolution. cbn [bind].
    match goal with |- context [create_plan ?q] =>
      destruct (create_plan q) as [e' | [text |]] end;
      cbn [bind]; eexists; (split; [reflexivity | discriminate]).
Qed.

Lemma analyze_issue_handler_model_down_witness :
  Orchestrator.analyze_issue (fun _ => []) [] [] (Ok Samples.issue_details)
    [] [] Samples.unreachable_model Samples.unreachable_model
    Samples.accepting_webhook Samples.issue_request
  = Ok {| response_issue := Samples.issue_details;
          response_analysis := default_record (PInt 2001);
          response_plan := None |}.
Proof.
  destruct (@analyze_issue_handler_model_down
              (fun _ => []) [] [] Samples.issue_details [] []
              Samples.unreachable_model Samples.unreachable_model
              Samples.accepting_webhook Samples.issue_request
              _ (PInt 2001) _ _ RequestException
              eq_refl eq_refl eq_refl eq_refl eq_refl)
    as [plan [H Hnone]].
  rewrite H, (Hnone eq_refl). reflexivity.
Defined.

(* ================================================================== *)
(** * Properties of the project search and of the daily sweep *)
(* ================================================================== *)

Section SearchLoopProperties.

Variable datetime : Type.
Variable get_repository_info : pyval -> pyval -> result pyval.
Variable get_issues :
  pyval -> pyval -> pyval -> result (list (GitHub.GitHubIssue datetime)).

Lemma analyze_project_raises (project_data : pyval) (issues : list pyval) :
  analyze_project project_data issues = Raise AttributeError.
Proof. reflexivity. Qed.

Lemma analyze_catalog_project_raises (project : pyval) :
  exists e,
    analyze_catalog_project get_repository_info get_issues project = Raise e.
Proof.
  unfold analyze_catalog_project.
  repeat match goal with
  | |- exists e, bind (analyze_project _ _) _ = Raise e =>
    rewrite analyze_project_raises; eexists; reflexivity
  | |- exists e, bind ?r _ = Raise e =>
    destruct r; cbn [bind]; [| eexists; reflexivity]
  end.
Qed.

Lemma search_results_unchanged (projects : list pyval) :
  forall acc results,
    search_results get_repository_info get_issues projects acc = Ok results ->
    results = acc.
Proof.
  induction projects as [| project rest IH]; intros acc results;
    cbn [search_results].
  - intros H. now injection H.
  - destruct (analyze_catalog_project_raises project) as [e ->].
    intros H. apply bind_ok in H as [_ [_ H]].
    apply bind_ok in H as [_ [_ H]].
    exact (IH _ _ H).
Qed.

End SearchLoopProperties.

(** X26. The project search analyses nothing: [analyze_project] raises an
    [AttributeError] on its first statement, for [AIAnalyzer] has no method
    [_build_project_analysis_prompt]; every iteration of the loop over the
    filtered projects therefore ends in its handler, and whenever the loop
    comes to an end [results] is empty, whatever the tracker answers. *)
Theorem search_results_empty
    (datetime : Type)
    (get_repository_info : pyval -> pyval -> result pyval)
    (get_issues :
       pyval -> pyval -> pyval -> result (list (GitHub.GitHubIssue datetime)))
    (projects : list pyval)
    (results : list project_result)
    (Hloop : search_results get_repository_info get_issues projects []
             = Ok results) :
  results = [].
Proof.
  exact (@search_results_unchanged datetime get_repository_info get_issues
           projects [] results Hloop).
Qed.

Lemma search_results_empty_witness :
  search_results Samples.quiet_repository Samples.no_issues
                 [Samples.spark; Samples.superset] []
  = Ok [].
Proof.
  destruct (search_results Samples.quiet_repository Samples.no_issues
              [Samples.spark; Samples.superset] []) as [results | e] eqn:H;
    [| vm_compute in H; discriminate H].
  now rewrite (@search_results_empty pystr Samples.quiet_repository
                 Samples.no_issues _ results H).
Defined.

Section MonitorProperties.

Variable datetime : Type.
Variable str : pyval -> pystr.
Variable get_issues :
  pyval -> pyval -> pyval -> result (list (GitHub.GitHubIssue datetime)).
Variable get_readme : pyval -> pyval -> pystr.
Variable create : prompt -> completion.

Local Abbreviation monitor_issues := (monitor_issues str create).
Local Abbreviation monitor_project :=
  (monitor_project str get_issues get_readme create).
Local Abbreviation monitor_loop :=
  (monitor_loop str get_issues get_readme create).
Local Abbreviation is_recommendation := (@is_recommendation datetime str).

Lemma monitor_issues_spec (o n : pyval) (readme : pystr)
    (issues : list (GitHub.GitHubIssue datetime)) :
  length (monitor_issues o n readme issues) <= length issues
  /\ Forall is_recommendation (monitor_issues o n readme issues).
Proof.
  induction issues as [| issue rest [IHlen IHall]];
    cbn [Orchestrator.monitor_issues length]; [split; [lia | constructor] |].
  destruct (Analyzer.analyze_issue create (monitor_issue_dict issue) readme [])
    as [a | e]; [| split; [lia | exact IHall]].
  destruct (recommended (difficulty_level a)) eqn:Hrec;
    [| split; [lia | exact IHall]].
  split; [cbn [length]; lia |].
  constructor; [| exact IHall].
  exists o, n, issue, a. split; [reflexivity | exact Hrec].
Qed.

Lemma monitor_project_spec (project : pyval) (found : nat)
    (added : list pyval) :
  monitor_project project = Ok (found, added) ->
  length added <= 3 /\ Forall is_recommendation added.
Proof.
  unfold Orchestrator.monitor_project. intros H.
  apply bind_ok in H as [o [_ H]].
  apply bind_ok in H as [n [_ H]].
  apply bind_ok in H as [labels [_ H]].
  apply bind_ok in H as [issues [_ H]].
  injection H as _ <-.
  destruct issues as [| issue rest]; [split; [cbn; lia | constructor] |].
  destruct (monitor_issues_spec o n (get_readme o n)
              (firstn 3 (issue :: rest))) as [Hlen Hall].
  split; [| exact Hall].
  rewrite length_firstn in Hlen.
  pose proof (Nat.le_min_l 3 (length (issue :: rest))) as Hmin.
  exact (Nat.le_trans _ _ _ Hlen Hmin).
Qed.

Lemma monitor_loop_spec (projects : list pyval) :
  forall total recs total' recs',
    monitor_loop projects total recs = Ok (total', recs') ->
    length recs' <= length recs + 3 * length projects
    /\ (Forall is_recommendation recs -> Forall is_recommendation recs').
Proof.
  induction projects as [| project rest IH]; intros total recs total' recs';
    cbn [Orchestrator.monitor_loop].
  - intros H. injection H as _ <-. split; [lia | trivial].
  - destruct (monitor_project project) as [[found added] | e] eqn:Hp.
    + intros H. destruct (IH _ _ _ _ H) as [Hlen Hall].
      destruct (monitor_project_spec _ Hp) as [Hadded Hrecs].
      rewrite length_app in Hlen. cbn [length].
      split; [lia |].
      intros Hold. apply Hall. apply Forall_app. split; assumption.
    + intros H. apply bind_ok in H as [_ [_ H]].
      destruct (IH _ _ _ _ H) as [Hlen Hall].
      cbn [length]. split; [lia | exact Hall].
Qed.

End MonitorProperties.

(** X27. The bounds of the daily sweep: it looks at no more than ten
    projects and analyses no more than three issues of each, so a response
    reports at most three recommendations per monitored project, thirty at
    most. *)
Theorem daily_monitor_bounds
    (datetime : Type) (str : pyval -> pystr)
    (get_issues :
       pyval -> pyval -> pyval -> result (list (GitHub.GitHubIssue datetime)))
    (get_readme : pyval -> pyval -> pystr)
    (create : prompt -> completion) (now_text : pystr)
    (w : world) (c c' : client) (bigdata_projects : list pyval)
    (response : MonitorResponse) (posts : list post)
    (Hresponse : daily_monitor str get_issues get_readme create now_text w c
                               bigdata_projects = Ok (response, c', posts)) :
  monitored_projects response = Nat.min 10 (length bigdata_projects)
  /\ recommendations_found response <= 3 * monitored_projects response
  /\ recommendations_found response <= 30.
Proof.
  unfold daily_monitor in Hresponse.
  assert (length (firstn 10 bigdata_projects)
          = Nat.min 10 (length bigdata_projects)) as Hmonitored
    by apply length_firstn.
  pose proof (Nat.le_min_l 10 (length bigdata_projects)) as Hmin.
  remember (firstn 10 bigdata_projects) as monitored eqn:Hmon.
  apply bind_ok in Hresponse as [[total recs] [Hloop Hresponse]].
  apply bind_ok in Hresponse as [sent [_ Hresponse]].
  injection Hresponse as <- _ _.
  cbn [monitored_projects recommendations_found].
  destruct (@monitor_loop_spec datetime str get_issues get_readme create
              _ _ _ _ _ Hloop) as [Hlen _].
  cbn [length] in Hlen. rewrite Hmonitored in *.
  repeat split; lia.
Qed.

Lemma daily_monitor_bounds_witness :
  exists response c' posts,
    daily_monitor (fun _ => []) Samples.two_issues Samples.no_readme
      Samples.unreachable_model [] Samples.chat_world Samples.chat_client
      [Samples.spark; Samples.kafka] = Ok (response, c', posts)
    /\ recommendations_found response <= 30.
Proof.
  do 3 eexists.
  match goal with
  | |- ?run = Ok ?r /\ _ => assert (run = Ok r) as Hrun by (vm_compute; reflexivity)
  end.
  split; [exact Hrun |].
  exact (proj2 (proj2 (daily_monitor_bounds _ _ _ _ _ _ _ _ Hrun))).
Defined.

(** X28. The sweep with the model down: when the transport fails for every
    prompt, each issue whose prompt can be built becomes a recommendation,
    with the difficulty "intermediate" of the fallback record; a failing
    model filters nothing out. *)
Theorem monitor_issues_model_down
    (datetime : Type) (str : pyval -> pystr) (create : prompt -> completion)
    (o n : pyval) (readme : pystr)
    (issues : list (GitHub.GitHubIssue datetime))
    (Hdown : forall p, exists e, create p = CompletionError e)
    (Hprompts :
       Forall (fun issue =>
                 exists p,
                   _build_issue_analysis_prompt (monitor_issue_dict issue)
                                                readme [] = Ok p) issues) :
  monitor_issues str create o n readme issues
  = map (fun issue =>
           recommendation str o n issue (default_record (GitHub.id issue)))
        issues.
Proof.
  induction Hprompts as [| issue rest [p Hp] _ IH]; [reflexivity |].
  cbn [monitor_issues map].
  destruct (Hdown p) as [e He].
  rewrite (@analyze_issue_down create (monitor_issue_dict issue) readme []
             p (GitHub.id issue) e Hp eq_refl He).
  change (recommended (difficulty_level (default_record (GitHub.id issue))))
    with true.
  cbv iota. now rewrite IH.
Qed.

Lemma monitor_issues_model_down_witness :
  monitor_issues (fun _ => []) Samples.unreachable_model
    (PStr (py "apache")) (PStr (py "spark")) []
    [Samples.listed_issue 1 (py "Fix a typo")]
  = [recommendation (fun _ => []) (PStr (py "apache")) (PStr (py "spark"))
       (Samples.listed_issue 1 (py "Fix a typo"))
       (default_record (PInt 3001))].
Proof.
  apply (@monitor_issues_model_down pystr (fun _ => [])
           Samples.unreachable_model).
  - intros p. exists RequestException. reflexivity.
  - constructor; [| constructor]. eexists. reflexivity.
Defined.

Lemma label_names_strings (ls : list pyval) :
  forall names,
    Forall (fun label => exists s, subscript (py "name") label = Ok (PStr s)) ls ->
    GitHub.label_names ls = Ok names ->
    exists strings, names = map PStr strings.
Proof.
  induction ls as [| label ls IH]; intros names Hall; cbn [GitHub.label_names].
  - intros H. injection H as <-. now exists [].
  - inversion Hall as [| ? ? [s Hs] Hrest]; subst.
    rewrite Hs. cbn [bind]. intros H.
    apply bind_ok in H as [rest [Hnames H]]. injection H as <-.
    destruct (IH _ Hrest Hnames) as [strings ->].
    now exists (s :: strings).
Qed.

Lemma all_strings_map (strings : list pystr) :
  all_strings (map PStr strings) = Ok strings.
Proof.
  induction strings as [| s strings IH]; [reflexivity |].
  cbn [map all_strings]. now rewrite IH.
Qed.

(** What [from_api_response] makes of [body] and [labels]. *)
Lemma from_api_response_fields
    (datetime : Type) (fromisoformat : pystr -> option datetime)
    (d : dict) (issue : GitHub.GitHubIssue datetime) :
  GitHub.from_api_response fromisoformat (PDict d) = Ok issue ->
  exists b l ls,
    dict_lookup (py "body") d = Some b
    /\ GitHub.body issue = (if truthy b then b else PStr [])
    /\ dict_lookup (py "labels") d = Some l
    /\ GitHub.iterate l = Ok ls
    /\ GitHub.label_names ls = Ok (GitHub.labels issue).
Proof.
  unfold GitHub.from_api_response. intros H.
  apply bind_ok in H as [i [_ H]].
  apply bind_ok in H as [n [_ H]].
  apply bind_ok in H as [t [_ H]].
  apply bind_ok in H as [b [Hb H]].
  apply bind_ok in H as [s [_ H]].
  apply bind_ok in H as [l [Hl H]].
  apply bind_ok in H as [ls [Hls H]].
  apply bind_ok in H as [names [Hnames H]].
  apply bind_ok in H as [c0 [_ H]].
  apply bind_ok in H as [c1 [_ H]].
  apply bind_ok in H as [u0 [_ H]].
  apply bind_ok in H as [u1 [_ H]].
  apply bind_ok in H as [h [_ H]].
  apply bind_ok in H as [cm [_ H]].
  apply bind_ok in H as [r [_ H]].
  apply bind_ok in H as [a [_ H]].
  apply bind_ok in H as [m [_ H]].
  injection H as <-. cbn [GitHub.body GitHub.labels].
  unfold subscript, dict_item in Hb, Hl.
  destruct (dict_lookup (py "body") d) as [b' |]; [| discriminate Hb].
  destruct (dict_lookup (py "labels") d) as [l' |]; [| discriminate Hl].
  injection Hb as ->. injection Hl as ->.
  exists b, l, ls. auto.
Qed.

(** X29. An issue that came through [from_api_response] can be analysed:
    when the item of the listing has a string or [null] under [body] and its
    labels carry string names, the dict the daily sweep builds from the
    converted issue always gets a prompt, since the conversion has replaced a
    missing description by the empty string and the label objects by their
    names. *)
Theorem converted_issue_prompt
    (datetime : Type) (fromisoformat : pystr -> option datetime)
    (d : dict) (issue : GitHub.GitHubIssue datetime)
    (ls : list pyval) (readme contributing : pystr)
    (Hconverted : GitHub.from_api_response fromisoformat (PDict d) = Ok issue)
    (Hbody : dict_lookup (py "body") d = Some PNone
             \/ exists s, dict_lookup (py "body") d = Some (PStr s))
    (Hlabels : dict_lookup (py "labels") d = Some (PList ls))
    (Hnames :
       Forall (fun label =>
                 exists s, subscript (py "name") label = Ok (PStr s)) ls) :
  exists p,
    _build_issue_analysis_prompt (monitor_issue_dict issue) readme contributing
    = Ok p.
Proof.
  destruct (from_api_response_fields fromisoformat d Hconverted)
    as [b [l [ls' [Hb [Hissue [Hl [Hiter Hlabel_names]]]]]]].
  rewrite Hlabels in Hl. injection Hl as <-.
  cbn [GitHub.iterate] in Hiter. injection Hiter as <-.
  destruct (label_names_strings Hnames Hlabel_names) as [strings Hstrings].
  assert (exists s, GitHub.body issue = PStr s) as [s Hs].
  { rewrite Hissue.
    destruct Hbody as [Hnull | [s Hstr]].
    - rewrite Hnull in Hb. injection Hb as <-. now exists [].
    - rewrite Hstr in Hb. injection Hb as <-.
      destruct (truthy (PStr s)); eauto. }
  unfold _build_issue_analysis_prompt.
  change (dict_get (py "body") (PStr (py "无描述")) (monitor_issue_dict issue))
    with (GitHub.body issue).
  change (dict_get (py "labels") (PList []) (monitor_issue_dict issue))
    with (PList (GitHub.labels issue)).
  rewrite Hs, Hstrings. cbn [slice_to bind join_value].
  rewrite all_strings_map. cbn [bind]. eexists. reflexivity.
Qed.

Lemma converted_issue_prompt_witness :
  exists issue p,
    GitHub.from_api_response Samples.iso (Samples.api_issue 1) = Ok issue
    /\ _build_issue_analysis_prompt (monitor_issue_dict issue) [] [] = Ok p.
Proof.
  eexists.
  match goal with
  | |- exists p, ?conv = Ok ?i /\ _ =>
    assert (conv = Ok i) as Hconv by (vm_compute; reflexivity)
  end.
  edestruct (@converted_issue_prompt pystr Samples.iso _ _
               [PDict [(py "name", PStr (py "good-first-issue"))]] [] [] Hconv)
    as [p Hp].
  - left. reflexivity.
  - reflexivity.
  - constructor; [| constructor]. eexists. reflexivity.
  - exists p. split; [exact Hconv | exact Hp].
Defined.

Section MonitorTotal.

Variable datetime : Type.
Variable str : pyval -> pystr.
Variable get_issues :
  pyval -> pyval -> pyval -> result (list (GitHub.GitHubIssue datetime)).
Variable get_readme : pyval -> pyval -> pystr.
Variable create : prompt -> completion.

Lemma monitor_loop_total (projects : list pyval) :
  forallb named_entry projects = true ->
  forall total recs,
    exists swept,
      monitor_loop str get_issues get_readme create projects total recs
      = Ok swept.
Proof.
  induction projects as [| project rest IH]; intros Hnamed total recs;
    cbn [monitor_loop]; [eauto |].
  cbn [forallb] in Hnamed. apply andb_prop in Hnamed as [Hproject Hrest].
  destruct (monitor_project str get_issues get_readme create project)
    as [[found added] | e]; [exact (IH Hrest _ _) |].
  destruct project; try discriminate Hproject.
  cbn [named_entry] in Hproject. unfold dict_mem in Hproject.
  cbn [subscript]. unfold dict_item.
  destruct (dict_lookup (py "name") d); [| discriminate Hproject].
  cbn [bind]. exact (IH Hrest _ _).
Qed.

Lemma project_lines_total (projects : list pyval) :
  forallb named_entry projects = true ->
  exists lines, project_lines str projects = Ok lines.
Proof.
  induction projects as [| project rest IH]; intros Hnamed;
    cbn [project_lines]; [eauto |].
  cbn [forallb] in Hnamed. apply andb_prop in Hnamed as [Hproject Hrest].
  destruct project; try discriminate Hproject.
  destruct (IH Hrest) as [lines ->].
  eexists. reflexivity.
Qed.

Lemma item_md_recommendation (i : nat) (r : pyval) :
  @is_recommendation datetime str r -> exists md, item_md str i r = Ok md.
Proof.
  intros [o [n [issue [a [-> _]]]]]. eexists. reflexivity.
Qed.

Lemma render_items_total (recs : list pyval) :
  Forall (@is_recommendation datetime str) recs ->
  forall bound i, exists es, render_items str bound i recs = Ok es.
Proof.
  induction 1 as [| r recs Hr _ IH]; intros bound i; cbn [render_items];
    [eauto |].
  destruct (item_md_recommendation i Hr) as [md ->].
  destruct (IH bound (S i)) as [es ->].
  eexists. reflexivity.
Qed.

Lemma Forall_firstn_keep {A : Type} (P : A -> Prop) (n : nat) (l : list A) :
  Forall P l -> Forall P (firstn n l).
Proof.
  intros H. revert n.
  induction H as [| x l Hx _ IH]; intros [| n]; cbn [firstn];
    constructor; auto.
Qed.

Lemma build_daily_summary_total (now_text : pystr) (projects : list pyval)
    (issues_found : pyval) (recs : list pyval) :
  forallb named_entry projects = true ->
  Forall (@is_recommendation datetime str) recs ->
  exists c,
    build_daily_summary str now_text projects issues_found recs = Ok c.
Proof.
  intros Hnamed Hrecs. unfold build_daily_summary.
  destruct (project_lines_total projects Hnamed) as [lines ->]. cbn [bind].
  destruct (render_items_total (Forall_firstn_keep 5 Hrecs)
              (Z.of_nat (length (firstn 3 recs)) - 1) 0) as [es ->].
  eexists. reflexivity.
Qed.

End MonitorTotal.

(** X30. The daily sweep answers whenever each of the first ten catalog
    entries is a dict with a [name] and the standard output takes what is
    printed to it: a failing tracker, a failing or rambling model and a
    failing chat platform are all absorbed (a project or an issue is
    skipped, the digest is reported as not sent), and the digest card can
    always be built from the recommendations the sweep has collected.  The
    [print] of the card is the one step left unguarded. *)
Theorem daily_monitor_answers
    (datetime : Type) (str : pyval -> pystr)
    (get_issues :
       pyval -> pyval -> pyval -> result (list (GitHub.GitHubIssue datetime)))
    (get_readme : pyval -> pyval -> pystr)
    (create : prompt -> completion) (now_text : pystr)
    (w : world) (c : client) (bigdata_projects : list pyval)
    (Hcatalog : forallb named_entry (firstn 10 bigdata_projects) = true)
    (Hprint : forall v, print w v = Ok tt) :
  exists response c' posts,
    daily_monitor str get_issues get_readme create now_text w c
                  bigdata_projects = Ok (response, c', posts).
Proof.
  unfold daily_monitor.
  remember (firstn 10 bigdata_projects) as monitored eqn:Hmonitored.
  destruct (monitor_loop_total str get_issues get_readme create monitored
              Hcatalog 0 []) as [[total recs] Hloop].
  rewrite Hloop. cbn [bind].
  destruct (@monitor_loop_spec datetime str get_issues get_readme create
              monitored 0 [] total recs Hloop) as [_ Hall].
  specialize (Hall (Forall_nil _)).
  destruct recs as [| r recs]; cbn [bind]; [do 3 eexists; reflexivity |].
  unfold send_daily_summary.
  destruct (build_daily_summary_total now_text monitored
              (PInt (Z.of_nat total)) Hcatalog
              (Forall_firstn_keep 5 Hall)) as [summary ->].
  cbn [bind]. rewrite Hprint. cbn [bind]. do 3 eexists. reflexivity.
Qed.

Lemma daily_monitor_answers_witness :
  exists response c' posts,
    daily_monitor (fun _ => []) Samples.two_issues Samples.no_readme
      (Samples.answers Samples.plain_answer) [] Samples.refusing_world
      Samples.chat_client [Samples.spark; Samples.kafka]
    = Ok (response, c', posts).
Proof.
  apply (@daily_monitor_answers pystr); [reflexivity | reflexivity].
Defined.
